(** * SDR++ source modules: KC SDR and SignalHound BB

    A shallow embedding of the two hardware source modules

      - [source_modules/kcsdr_source/src/main.cpp]
      - [source_modules/signalhound_bb_source/src/main.cpp]

    and the properties of their lifecycle controllers ([start], [stop],
    [tune], [restartStreamWithNewParams]) and acquisition workers
    ([worker], [rx_thread_func]).

    Controller functions run on the control thread.  They are written in a
    small monad that threads the module instance, records every call that
    leaves the module (vendor API, [dsp::stream], [std::thread], [flog],
    [core::setInputSampleRate]) in a trace, and supports the early [return]
    of the C++ code.  Answers of the vendor API are arguments of the
    embedded functions.  The workers are loops over what they observe in
    each iteration. *)

From Stdlib Require Import ZArith List Bool String QArith Qabs Lia.
From Stdlib Require Import Floats.SpecFloat.
Import ListNotations.
Open Scope Z_scope.

(** ** IEEE 754 values of the C++ types [float] and [double] *)

Module Float.

(** [float] is binary32, [double] is binary64; both are carried by
    [spec_float], each in the canonical form of its format. *)
Definition float := spec_float.
Definition double := spec_float.

Definition prec32 : Z := 24.
Definition emax32 : Z := 128.
Definition prec64 : Z := 53.
Definition emax64 : Z := 1024.

(** Integer to [float] and to [double] (round to nearest even): the
    conversion of an [int] operand, and the value of a literal such as
    [32767.0f] or [8.0e6]. *)
Definition f32_of_Z (z : Z) : float := binary_normalize prec32 emax32 z 0 false.
Definition f64_of_Z (z : Z) : double := binary_normalize prec64 emax64 z 0 false.

(** [float] to [double] (exact) and [double] to [float] (rounding). *)
Definition f64_of_f32 (x : float) : double :=
  match x with
  | S754_finite s m e => binary_round prec64 emax64 s m e
  | _ => x
  end.

Definition f32_of_f64 (x : double) : float :=
  match x with
  | S754_finite s m e => binary_round prec32 emax32 s m e
  | _ => x
  end.

Definition f32_mul : float -> float -> float := SFmul prec32 emax32.
Definition f32_div : float -> float -> float := SFdiv prec32 emax32.

(** The C++ operators [<] and [>] on two [double] operands. *)
Definition f64_lt (x y : double) : bool := SFltb x y.
Definition f64_gt (x y : double) : bool := SFltb y x.

Definition is_finite (x : spec_float) : bool :=
  match x with
  | S754_zero _ | S754_finite _ _ _ => true
  | _ => false
  end.

(** A [double] converted to [uint64_t]: the value truncated toward zero.
    The conversion is undefined ([None]) when the truncated value is not
    one of [uint64_t]: a number of -1 or less, a number of 2^64 or more,
    an infinity, a NaN. *)
Definition truncate (x : spec_float) : option Z :=
  match x with
  | S754_zero _ => Some 0
  | S754_finite s m e => Some (cond_Zopp s (Z.shiftl (Zpos m) e))
  | _ => None
  end.

Definition to_uint64 (x : double) : option Z :=
  match truncate x with
  | Some z => if (0 <=? z) && (z <? 2 ^ 64) then Some z else None
  | None => None
  end.

(** The rational number a finite value stands for. *)
Definition to_Q (x : spec_float) : Q :=
  match x with
  | S754_finite s m e => (inject_Z (cond_Zopp s (Zpos m)) * Qpower 2 e)%Q
  | _ => 0%Q
  end.

End Float.

(** ** The control monad

    A computation takes the instance, and gives the calls it made, the
    instance it leaves and how it ended: with a value, by a [return]
    statement, or outside the defined behaviour of the C++ program (an
    out-of-range [operator[]], a null [api], [std::terminate]). *)

Inductive outcome (A : Type) : Type :=
| Value (a : A)
| Returned
| Undefined.
Arguments Value {A} a.
Arguments Returned {A}.
Arguments Undefined {A}.

Section Control.
Context {E St : Type}.

Definition ctl (A : Type) : Type := St -> list E * St * outcome A.

Definition ret {A} (a : A) : ctl A := fun s => ([], s, Value a).

Definition bind {A B} (c : ctl A) (k : A -> ctl B) : ctl B :=
  fun s =>
    match c s with
    | (t, s', Value a) =>
        match k a s' with
        | (t', s'', o) => (t ++ t', s'', o)
        end
    | (t, s', Returned) => (t, s', Returned)
    | (t, s', Undefined) => (t, s', Undefined)
    end.

Definition get : ctl St := fun s => ([], s, Value s).
Definition modify (f : St -> St) : ctl unit := fun s => ([], f s, Value tt).
Definition call (e : E) : ctl unit := fun s => ([e], s, Value tt).
Definition return_ {A} : ctl A := fun s => ([], s, Returned).
Definition undefined {A} : ctl A := fun s => ([], s, Undefined).

Definition when (b : bool) (c : ctl unit) : ctl unit :=
  if b then c else ret tt.

(** [v[i]] on a [std::vector], and [v.value(i)] on an [OptionList],
    which is [values[i]] on the vector it keeps: undefined outside the
    bounds. *)
Definition index {A} (v : list A) (i : Z) : ctl A :=
  if i <? 0 then undefined
  else match nth_error v (Z.to_nat i) with
       | Some a => ret a
       | None => undefined
       end.

(** A [double] passed for a [uint64_t] parameter. *)
Definition uint64_of (x : Float.double) : ctl Z :=
  match Float.to_uint64 x with
  | Some z => ret z
  | None => undefined
  end.

Definition trace_of {A} (r : list E * St * outcome A) : list E := fst (fst r).
Definition state_of {A} (r : list E * St * outcome A) : St := snd (fst r).
Definition outcome_of {A} (r : list E * St * outcome A) : outcome A := snd r.

(** Position of the first call of a kind, and whether a call of kind [p]
    is made and comes before the first call of kind [q]. *)
Fixpoint first_index (p : E -> bool) (l : list E) : option nat :=
  match l with
  | [] => None
  | e :: l' => if p e then Some O
               else match first_index p l' with
                    | Some i => Some (S i)
                    | None => None
                    end
  end.

Definition precedes (p q : E -> bool) (l : list E) : bool :=
  match first_index p l, first_index q l with
  | Some i, Some j => Nat.ltb i j
  | _, _ => false
  end.

(** Handlers called one after the other on an instance; a handler's
    [return] ends that handler only. *)
Fixpoint sequence (hs : list (ctl unit)) : ctl unit :=
  match hs with
  | [] => ret tt
  | h :: hs' =>
      fun s =>
        match h s with
        | (t, s', Undefined) => (t, s', Undefined)
        | (t, s', _) =>
            match sequence hs' s' with
            | (t', s'', o) => (t ++ t', s'', o)
            end
        end
  end.

(** The spawn/join counter: worker threads spawned and not yet joined
    after a trace, and the highest value this count takes along it,
    starting from [n]. *)
Section Counter.
Variables spawn join : E -> bool.

Definition thread_count (n : Z) (e : E) : Z :=
  if spawn e then n + 1 else if join e then n - 1 else n.

Definition threads_alive (n : Z) (t : list E) : Z :=
  fold_left thread_count t n.

Fixpoint threads_peak (n : Z) (t : list E) : Z :=
  match t with
  | [] => n
  | e :: t' => Z.max n (threads_peak (thread_count n e) t')
  end.

End Counter.

End Control.

Declare Scope ctl_scope.
Delimit Scope ctl_scope with ctl.
Notation "x <- c ;; k" := (bind c (fun x => k))
  (at level 61, c at next level, right associativity) : ctl_scope.
Notation "c ;; k" := (bind c (fun _ => k))
  (at level 61, right associativity) : ctl_scope.

Local Open Scope string_scope.
Local Open Scope Z_scope.
Local Open Scope list_scope.
Local Open Scope ctl_scope.

(** [flog::info], [flog::warn] and [flog::error]. *)
Inductive level : Type := Info | Warn | Error.

(** ** KC SDR source module ([kcsdr_source/src/main.cpp]) *)

Module KCSDR.
Import Float.

(** An [sdr_obj*]: [None] is [nullptr]. *)
Definition sdr_obj : Type := Z.
Definition is_null (p : option sdr_obj) : bool :=
  match p with Some _ => false | None => true end.

(** [device_type] of [kcsdr.h], and [deviceTypes] as the constructor
    defines it, by id. *)
Inductive device_type : Type := KC_908_1 | KC_908_N.
Definition deviceTypes : list device_type := [KC_908_1; KC_908_N].

(** [uint64_t] to [uint32_t]. *)
Definition to_uint32 (z : Z) : Z := z mod 2 ^ 32.

(** Calls made by the controller, with the arguments the vendor function
    receives: [rx_freq] takes a [uint64_t], [rx_bw] a [uint32_t], the
    others a [uint8_t]. *)
Inductive event : Type :=
| ApiFind (type : device_type)                (* api->find(selectedType) *)
| RxPort (d : option sdr_obj) (port : Z)
| RxFreq (d : option sdr_obj) (f : Z)
| RxAtt (d : option sdr_obj) (a : Z)
| RxAmp (d : option sdr_obj) (g : Z)
| RxExtAmp (d : option sdr_obj) (g : Z)
| RxBw (d : option sdr_obj) (bw : Z)
| RxStart (d : option sdr_obj)
| RxStop (d : option sdr_obj)
| SetInputSampleRate (rate : double)          (* core::setInputSampleRate *)
| StopWriter                                  (* stream.stopWriter() *)
| ClearWriteStop                              (* stream.clearWriteStop() *)
| Spawn                                       (* workerThread = std::thread(worker) *)
| Join                                        (* workerThread.join() *)
| Log (l : level) (msg : string).

(** The fields of [KCSDRSourceModule] the controller reads or writes.
    [api] is whether [kcsdr_init] gave a non-null table; [workerThread]
    is whether the thread handle is joinable. *)
Record instance : Type := {
  api : bool;
  currentDevice : option sdr_obj;
  running : bool;
  run : bool;
  sampleRate : double;
  freq : double;
  devId : Z;
  selectedPort : Z;
  att : Z;
  gain : Z;
  extGain : Z;
  workerThread : bool
}.

Definition set_currentDevice (d : option sdr_obj) (s : instance) : instance :=
  {| api := api s; currentDevice := d; running := running s; run := run s;
     sampleRate := sampleRate s; freq := freq s; devId := devId s;
     selectedPort := selectedPort s; att := att s; gain := gain s;
     extGain := extGain s; workerThread := workerThread s |}.

Definition set_running (b : bool) (s : instance) : instance :=
  {| api := api s; currentDevice := currentDevice s; running := b; run := run s;
     sampleRate := sampleRate s; freq := freq s; devId := devId s;
     selectedPort := selectedPort s; att := att s; gain := gain s;
     extGain := extGain s; workerThread := workerThread s |}.

Definition set_run (b : bool) (s : instance) : instance :=
  {| api := api s; currentDevice := currentDevice s; running := running s; run := b;
     sampleRate := sampleRate s; freq := freq s; devId := devId s;
     selectedPort := selectedPort s; att := att s; gain := gain s;
     extGain := extGain s; workerThread := workerThread s |}.

Definition set_freq (f : double) (s : instance) : instance :=
  {| api := api s; currentDevice := currentDevice s; running := running s; run := run s;
     sampleRate := sampleRate s; freq := f; devId := devId s;
     selectedPort := selectedPort s; att := att s; gain := gain s;
     extGain := extGain s; workerThread := workerThread s |}.

Definition set_workerThread (b : bool) (s : instance) : instance :=
  {| api := api s; currentDevice := currentDevice s; running := running s; run := run s;
     sampleRate := sampleRate s; freq := freq s; devId := devId s;
     selectedPort := selectedPort s; att := att s; gain := gain s;
     extGain := extGain s; workerThread := b |}.

(** The member initialisers of the class, with the outcome of
    [kcsdr_init] in the constructor. *)
Definition constructed (api_ok : bool) : instance :=
  {| api := api_ok; currentDevice := None; running := false; run := false;
     sampleRate := f64_of_Z 10000000; freq := f64_of_Z 100000000; devId := 0;
     selectedPort := 1; att := 0; gain := 15; extGain := 1;
     workerThread := false |}.

Definition M : Type -> Type := @ctl event instance.

Definition coreSetInputSampleRate : M unit :=
  s <- get ;;
  call (SetInputSampleRate (sampleRate s)) ;;
  call (Log Info "KC SDR: Reporting {0:.2f} MHz to SDR++ core").

(** [workerThread = std::thread(&KCSDRSourceModule::worker, _this)]:
    move assignment to a joinable [std::thread] calls [std::terminate]. *)
Definition spawn_worker : M unit :=
  s <- get ;;
  if workerThread s then undefined
  else (call Spawn ;; modify (set_workerThread true)).

(** [start]; [found] is what [api->find] answers if it is called.  The
    device type is looked up in [deviceTypes] by [devId]; [freq] is
    converted to the [uint64_t] of [rx_freq], and [sampleRate] to
    [uint64_t] by the cast and from there to the [uint32_t] of [rx_bw]. *)
Definition start (found : option sdr_obj) : M unit :=
  s <- get ;;
  when (running s) return_ ;;
  when (negb (api s))
    (call (Log Error "KC SDR: API not initialized.") ;; return_) ;;
  when (is_null (currentDevice s))
    (selectedType <- index deviceTypes (devId s) ;;
     call (ApiFind selectedType) ;;
     modify (set_currentDevice found) ;;
     when (is_null found)
       (call (Log Error "KC SDR: Failed to find device.") ;; return_)) ;;
  s <- get ;;
  call (Log Info "KC SDR: Device '{0}' found. Configuring...") ;;
  call (RxPort (currentDevice s) (selectedPort s)) ;;
  f <- uint64_of (freq s) ;;
  call (RxFreq (currentDevice s) f) ;;
  call (RxAtt (currentDevice s) (att s)) ;;
  call (RxAmp (currentDevice s) (gain s)) ;;
  call (RxExtAmp (currentDevice s) (extGain s)) ;;
  bw <- uint64_of (sampleRate s) ;;
  call (RxBw (currentDevice s) (to_uint32 bw)) ;;
  coreSetInputSampleRate ;;
  call (Log Info "KC SDR: Starting stream...") ;;
  call (RxStart (currentDevice s)) ;;
  modify (set_run true) ;;
  spawn_worker ;;
  modify (set_running true) ;;
  call (Log Info "KC SDR: Started successfully.").

Definition stop : M unit :=
  s <- get ;;
  when (negb (running s) && negb (run s)) return_ ;;
  modify (set_run false) ;;
  when (negb (is_null (currentDevice s)) && api s)
    (call (Log Info "KC SDR: Stopping hardware stream...") ;;
     call (RxStop (currentDevice s))) ;;
  call StopWriter ;;
  when (workerThread s)
    (call Join ;; modify (set_workerThread false)) ;;
  call ClearWriteStop ;;
  modify (set_running false) ;;
  call (Log Info "KC SDR: Device stopped cleanly.").

(** [tune]; with [running] set and a null [api] the call through [api]
    is undefined, and [freq] is converted to the [uint64_t] of
    [rx_freq]. *)
Definition tune (f : double) : M unit :=
  modify (set_freq f) ;;
  s <- get ;;
  when (running s)
    (if api s
     then (v <- uint64_of f ;; call (RxFreq (currentDevice s) v))
     else undefined).

(** Kinds of calls. *)
Definition is_log (e : event) : bool :=
  match e with Log _ _ => true | _ => false end.
Definition is_halt (e : event) : bool :=
  match e with RxStop _ => true | _ => false end.
Definition is_stopWriter (e : event) : bool :=
  match e with StopWriter => true | _ => false end.
Definition is_join (e : event) : bool :=
  match e with Join => true | _ => false end.
Definition is_clearWriteStop (e : event) : bool :=
  match e with ClearWriteStop => true | _ => false end.
Definition is_spawn (e : event) : bool :=
  match e with Spawn => true | _ => false end.
Definition is_device_call (e : event) : bool :=
  match e with
  | ApiFind _ | RxPort _ _ | RxFreq _ _ | RxAtt _ _ | RxAmp _ _
  | RxExtAmp _ _ | RxBw _ _ | RxStart _ | RxStop _ => true
  | _ => false
  end.
Definition is_error_log (e : event) : bool :=
  match e with Log Error _ => true | _ => false end.

(** The calls of a trace that are not log lines. *)
Definition actions (t : list event) : list event :=
  filter (fun e => negb (is_log e)) t.

(** *** The acquisition worker *)

Definition SAMPLES_PER_READ : Z := 16384.
Definition sizeof_int16_t : Z := 2.
Definition BYTES_PER_READ : Z := SAMPLES_PER_READ * 2 * sizeof_int16_t.

(** [dsp::complex_t]: the fields [re] and [im]. *)
Definition complex_t : Type := float * float.

(** [float scale = 1.0f / 32767.0f] and [readBuffer[k] * scale]: the
    [int16_t] operand is converted to [float] and the product is a
    binary32 product. *)
Definition scale : float := f32_div (f32_of_Z 1) (f32_of_Z 32767).
Definition normalize (raw : Z) : float := f32_mul (f32_of_Z raw) scale.

(** The conversion loop over [i < SAMPLES_PER_READ]; [readBuffer] holds
    [SAMPLES_PER_READ * 2] values of type [int16_t]. *)
Definition convert (readBuffer : list Z) : list complex_t :=
  map (fun i : nat =>
         (normalize (nth (i * 2) readBuffer 0),
          normalize (nth (i * 2 + 1) readBuffer 0)))
      (seq 0 (Z.to_nat SAMPLES_PER_READ)).

(** Calls made by the worker. *)
Inductive wevent : Type :=
| WLog (l : level) (msg : string)
| Sleep (microseconds : Z)
| ApiRead (d : option sdr_obj) (size : Z)
| Swap (count : Z) (writeBuf : list complex_t).

(** What one iteration of [while (run)] observes of the other threads
    and of the device: the atomic [run] at the loop test, the
    [currentDevice] pointer, the result of [api->read] ([None] for
    [false], [Some b] for [true] with [b] the contents of [readBuffer]),
    [run] again if the read failed, and the result of [stream.swap]. *)
Record observation : Type := {
  run_at_test : bool;
  device : option sdr_obj;
  read : option (list Z);
  run_after_failure : bool;
  swap : bool
}.

Inductive next : Type := Continue | Exit.

Definition iteration (o : observation) : list wevent * next :=
  if negb (run_at_test o) then ([], Exit)
  else if is_null (device o) then ([Sleep 100], Continue)
  else
    match read o with
    | None =>
        ([ApiRead (device o) BYTES_PER_READ],
         if negb (run_after_failure o) then Exit else Continue)
    | Some readBuffer =>
        ([ApiRead (device o) BYTES_PER_READ;
          Swap SAMPLES_PER_READ (convert readBuffer)],
         if negb (swap o) then Exit else Continue)
    end.

(** The loop, over the observations of its successive iterations:
    the calls made, and whether the loop has been left. *)
Fixpoint loop (os : list observation) : list wevent * next :=
  match os with
  | [] => ([], Continue)
  | o :: os' =>
      match iteration o with
      | (t, Exit) => (t, Exit)
      | (t, Continue) =>
          match loop os' with
          | (t', n) => (t ++ t', n)
          end
      end
  end.

Definition worker (os : list observation) : list wevent * next :=
  match loop os with
  | (t, Exit) =>
      (WLog Info "KC SDR: Worker thread started" :: t
         ++ [WLog Info "KC SDR: Worker thread stopped"], Exit)
  | (t, Continue) =>
      (WLog Info "KC SDR: Worker thread started" :: t, Continue)
  end.

(** An iteration sees a shutdown signal: [run] is false where the loop
    reads it, or [swap] reports that the stream was stopped. *)
Definition shutdown_signal (o : observation) : bool :=
  negb (run_at_test o)
  || (negb (is_null (device o))
      && match read o with
         | None => negb (run_after_failure o)
         | Some _ => negb (swap o)
         end).

Definition read_failed (o : observation) : bool :=
  negb (is_null (device o))
  && match read o with None => true | Some _ => false end.

Definition is_swap (e : wevent) : bool :=
  match e with Swap _ _ => true | _ => false end.

(** *** Sequences of control events *)

Inductive request : Type :=
| Start (found : option sdr_obj)
| Stop
| Tune (f : double).

Definition handle (r : request) : M unit :=
  match r with
  | Start found => start found
  | Stop => stop
  | Tune f => tune f
  end.

Definition handle_all (rs : list request) : M unit :=
  sequence (map handle rs).

(** The spawn/join counter on the calls of this module. *)
Definition alive : Z -> list event -> Z := threads_alive is_spawn is_join.
Definition peak : Z -> list event -> Z := threads_peak is_spawn is_join.

(** States between two handler calls of an instance. *)
Inductive reachable : instance -> Prop :=
| reachable_loaded s :
    currentDevice s = None -> running s = false -> run s = false ->
    workerThread s = false -> reachable s
| reachable_handle r s :
    reachable s -> reachable (state_of (handle r s)).

(** What holds of an instance between two handler calls, and the number
    of threads its handle owns. *)
Definition quiescent (s : instance) : Prop :=
  run s = running s /\ workerThread s = running s /\
  (running s = true -> api s = true /\ currentDevice s <> None).

Definition threads (s : instance) : Z := if workerThread s then 1 else 0.

(** The members [start] uses as an index or converts hold values for
    which that is defined: [devId] is an id of [deviceTypes], [freq] and
    [sampleRate] have a [uint64_t] value.  A request keeps it so if the
    frequency it tunes to has one. *)
Definition well_formed (s : instance) : Prop :=
  0 <= devId s < 2 /\ to_uint64 (freq s) <> None /\
  to_uint64 (sampleRate s) <> None.

Definition tunable (r : request) : Prop :=
  match r with
  | Tune f => to_uint64 f <> None
  | _ => True
  end.

(** *** Normalisation against the exact scaling *)

(** [p] holds of [lo], [lo + 1], ... ([count] values). *)
Fixpoint holds_from (p : Z -> bool) (count : nat) (lo : Z) : bool :=
  match count with
  | O => true
  | S count' => if p lo then holds_from p count' (lo + 1) else false
  end.

(** [p] holds of every value of [int16_t]. *)
Definition for_all_int16 (p : Z -> bool) : bool :=
  holds_from p (Z.to_nat 65536) (-32768).

(** [normalize raw] is finite and within [bound] of [raw / 32767]. *)
Definition close_to_linear (bound : Q) (raw : Z) : bool :=
  is_finite (normalize raw)
  && Qle_bool (Qabs (to_Q (normalize raw) - inject_Z raw / 32767)) bound.

(** [normalize] is odd: the sign of the sample selects no other path. *)
Definition odd_at (raw : Z) : bool :=
  SFeqb (normalize (- raw)) (SFopp (normalize raw)).

End KCSDR.

(** ** SignalHound BB source module ([signalhound_bb_source/src/main.cpp]) *)

Module SignalHound.
Import Float.

(** Calls made by the controller; [h] is the [deviceHandle] passed. *)
Inductive event : Type :=
| BbOpenDeviceBySerialNumber (serial : Z)
| BbConfigureRefLevel (h : Z) (ref : float)
| BbConfigureGainAtten (h : Z) (gain atten : Z)
| BbConfigureIQCenter (h : Z) (f : double)
| BbConfigureIQ (h : Z) (decimation : Z) (bw : float)
| BbInitiate (h : Z)                    (* BB_STREAMING, BB_STREAM_IQ *)
| BbQueryIQParameters (h : Z)
| BbAbort (h : Z)
| BbCloseDevice (h : Z)
| SetInputSampleRate (rate : double)    (* core::setInputSampleRate *)
| StopWriter                            (* stream.stopWriter() *)
| ClearWriteStop                        (* stream.clearWriteStop() *)
| Spawn                                 (* rxThread = std::thread(rx_thread_func) *)
| Join                                  (* rxThread.join() *)
| Log (l : level) (msg : string).

(** The fields of [SignalHoundBBModule] the controller reads or writes;
    [rxThread] is whether the thread handle is joinable. *)
Record instance : Type := {
  running : bool;
  rxThread : bool;
  deviceHandle : Z;
  freq : double;
  selectedSerial : Z;
  decimationId : Z;
  bandwidthHz : float;
  refLevel : float;
  gain : Z;
  attenuation : Z;
  actualSampleRate : double
}.

Definition set_running (b : bool) (s : instance) : instance :=
  {| running := b; rxThread := rxThread s; deviceHandle := deviceHandle s;
     freq := freq s; selectedSerial := selectedSerial s;
     decimationId := decimationId s; bandwidthHz := bandwidthHz s;
     refLevel := refLevel s; gain := gain s; attenuation := attenuation s;
     actualSampleRate := actualSampleRate s |}.

Definition set_rxThread (b : bool) (s : instance) : instance :=
  {| running := running s; rxThread := b; deviceHandle := deviceHandle s;
     freq := freq s; selectedSerial := selectedSerial s;
     decimationId := decimationId s; bandwidthHz := bandwidthHz s;
     refLevel := refLevel s; gain := gain s; attenuation := attenuation s;
     actualSampleRate := actualSampleRate s |}.

Definition set_deviceHandle (h : Z) (s : instance) : instance :=
  {| running := running s; rxThread := rxThread s; deviceHandle := h;
     freq := freq s; selectedSerial := selectedSerial s;
     decimationId := decimationId s; bandwidthHz := bandwidthHz s;
     refLevel := refLevel s; gain := gain s; attenuation := attenuation s;
     actualSampleRate := actualSampleRate s |}.

Definition set_freq (f : double) (s : instance) : instance :=
  {| running := running s; rxThread := rxThread s; deviceHandle := deviceHandle s;
     freq := f; selectedSerial := selectedSerial s;
     decimationId := decimationId s; bandwidthHz := bandwidthHz s;
     refLevel := refLevel s; gain := gain s; attenuation := attenuation s;
     actualSampleRate := actualSampleRate s |}.

Definition set_bandwidthHz (bw : float) (s : instance) : instance :=
  {| running := running s; rxThread := rxThread s; deviceHandle := deviceHandle s;
     freq := freq s; selectedSerial := selectedSerial s;
     decimationId := decimationId s; bandwidthHz := bw;
     refLevel := refLevel s; gain := gain s; attenuation := attenuation s;
     actualSampleRate := actualSampleRate s |}.

Definition set_actualSampleRate (r : double) (s : instance) : instance :=
  {| running := running s; rxThread := rxThread s; deviceHandle := deviceHandle s;
     freq := freq s; selectedSerial := selectedSerial s;
     decimationId := decimationId s; bandwidthHz := bandwidthHz s;
     refLevel := refLevel s; gain := gain s; attenuation := attenuation s;
     actualSampleRate := r |}.

(** [maxBandwidths], filled in the constructor; every entry is an
    integer number of hertz. *)
Definition maxBandwidths : list double :=
  map f64_of_Z
    [ 27000000; 17800000; 8000000; 3750000; 2000000; 1000000; 500000;
      250000; 140000; 65000; 30000; 15000; 8000; 4000 ].

(** The state the constructor leaves when [selectBySerial] found the
    serial number [serial] and no saved configuration; [gain] and
    [attenuation] are the vendor's [BB_AUTO_GAIN] and [BB_AUTO_ATTEN]. *)
Definition constructed (serial auto_gain auto_atten : Z) : instance :=
  {| running := false; rxThread := false; deviceHandle := -1;
     freq := f64_of_Z 100000000; selectedSerial := serial;
     decimationId := 6; bandwidthHz := f32_of_Z 500000;
     refLevel := f32_of_Z (-20); gain := auto_gain;
     attenuation := auto_atten; actualSampleRate := f64_of_Z 625000 |}.

(** What the vendor library answers during one handler call: the status
    of each function, the handle [bbOpenDeviceBySerialNumber] leaves in
    [deviceHandle], and the two values [bbQueryIQParameters] writes. *)
Record answers : Type := {
  open_status : Z;
  opened_handle : Z;
  refLevel_status : Z;
  gainAtten_status : Z;
  iqCenter_status : Z;
  configureIQ_status : Z;
  initiate_status : Z;
  query_status : Z;
  actual_sample_rate : double;
  actual_bw : double
}.

Definition M : Type -> Type := @ctl event instance.

(** [v[i]] on a [std::vector]. *)
Definition at_ {A} (v : list A) (i : Z) : M A :=
  if i <? 0 then undefined
  else match nth_error v (Z.to_nat i) with
       | Some a => ret a
       | None => undefined
       end.

Definition check_status (status : Z) (context : string) : M bool :=
  if status <? 0 then
    call (Log Error ("SignalHound BB Error in " ++ context)%string) ;;
    ret false
  else
    when (0 <? status)
      (call (Log Warn ("SignalHound BB Warning in " ++ context)%string)) ;;
    ret true.

(** The log lines [check_status] writes, and its verdict. *)
Definition status_log (status : Z) (context : string) : list event :=
  if status <? 0 then
    [Log Error ("SignalHound BB Error in " ++ context)%string]
  else if 0 <? status then
    [Log Warn ("SignalHound BB Warning in " ++ context)%string]
  else [].

(** The four configuration calls joined by [||] in [start] and in
    [restartStreamWithNewParams]: [true] when none of them fails; a
    failing call keeps the later ones from being made. *)
Definition configure (d : answers) (decimation : Z) (sfx : string) : M bool :=
  s <- get ;;
  call (BbConfigureRefLevel (deviceHandle s) (refLevel s)) ;;
  ok <- check_status (refLevel_status d) ("bbConfigureRefLevel" ++ sfx)%string ;;
  if negb ok then ret false else
  call (BbConfigureGainAtten (deviceHandle s) (gain s) (attenuation s)) ;;
  ok <- check_status (gainAtten_status d) ("bbConfigureGainAtten" ++ sfx)%string ;;
  if negb ok then ret false else
  call (BbConfigureIQCenter (deviceHandle s) (freq s)) ;;
  ok <- check_status (iqCenter_status d) ("bbConfigureIQCenter" ++ sfx)%string ;;
  if negb ok then ret false else
  call (BbConfigureIQ (deviceHandle s) decimation (bandwidthHz s)) ;;
  check_status (configureIQ_status d) ("bbConfigureIQ" ++ sfx)%string.

(** [rxThread = std::thread(rx_thread_func, _this)]. *)
Definition spawn_rx : M unit :=
  s <- get ;;
  if rxThread s then undefined
  else (call Spawn ;; modify (set_rxThread true)).

Definition close_device : M unit :=
  s <- get ;;
  call (BbCloseDevice (deviceHandle s)) ;;
  modify (set_deviceHandle (-1)).

Definition start (d : answers) : M unit :=
  s <- get ;;
  when (running s || (selectedSerial s =? 0)) return_ ;;
  call (Log Info "SignalHound BB: Opening device with serial {0}") ;;
  call (BbOpenDeviceBySerialNumber (selectedSerial s)) ;;
  modify (set_deviceHandle (opened_handle d)) ;;
  ok <- check_status (open_status d) "bbOpenDeviceBySerialNumber" ;;
  when (negb ok) return_ ;;
  let decimation := 2 ^ decimationId s in
  let minBandwidth := f64_of_Z 200 in
  maxBandwidth <- at_ maxBandwidths (decimationId s) ;;
  when (f64_lt (f64_of_f32 (bandwidthHz s)) minBandwidth)
    (call (Log Warn "SignalHound BB: Bandwidth {0} too low, setting to minimum {1}") ;;
     modify (set_bandwidthHz (f32_of_f64 minBandwidth))) ;;
  s <- get ;;
  when (f64_gt (f64_of_f32 (bandwidthHz s)) maxBandwidth)
    (call (Log Warn "SignalHound BB: Bandwidth {0} too high, setting to maximum {1}") ;;
     modify (set_bandwidthHz (f32_of_f64 maxBandwidth))) ;;
  call (Log Info "SignalHound BB: Configuring with decimation={0}, bandwidth={1}, refLevel={2}") ;;
  ok <- configure d decimation "" ;;
  when (negb ok) (close_device ;; return_) ;;
  s <- get ;;
  call (BbInitiate (deviceHandle s)) ;;
  ok <- check_status (initiate_status d) "bbInitiate" ;;
  when (negb ok) (close_device ;; return_) ;;
  call (BbQueryIQParameters (deviceHandle s)) ;;
  ok <- check_status (query_status d) "bbQueryIQParameters" ;;
  when (negb ok)
    (call (BbAbort (deviceHandle s)) ;; close_device ;; return_) ;;
  modify (set_actualSampleRate (actual_sample_rate d)) ;;
  call (Log Info "SignalHound BB: Device started with rate {0} sps, bandwidth {1} Hz.") ;;
  s <- get ;;
  call (SetInputSampleRate (actualSampleRate s)) ;;
  modify (set_running true) ;;
  spawn_rx ;;
  call (Log Info "SignalHound BB: Successfully started streaming").

Definition stop : M unit :=
  s <- get ;;
  when (negb (running s)) return_ ;;
  call (Log Info "SignalHound BB: Stopping...") ;;
  modify (set_running false) ;;
  call StopWriter ;;
  when (rxThread s) (call Join ;; modify (set_rxThread false)) ;;
  when (negb (deviceHandle s =? -1))
    (call (BbAbort (deviceHandle s)) ;; close_device) ;;
  call ClearWriteStop ;;
  call (Log Info "SignalHound BB: Stopped").

Definition restartStreamWithNewParams (d : answers) (reason : string) : M unit :=
  s <- get ;;
  when (negb (running s) || (deviceHandle s =? -1)) return_ ;;
  call (Log Info ("SignalHound BB: Restarting stream for " ++ reason)%string) ;;
  modify (set_running false) ;;
  call StopWriter ;;
  when (rxThread s) (call Join ;; modify (set_rxThread false)) ;;
  call (BbAbort (deviceHandle s)) ;;
  let decimation := 2 ^ decimationId s in
  let minBandwidth := f64_of_Z 200 in
  maxBandwidth <- at_ maxBandwidths (decimationId s) ;;
  when (f64_lt (f64_of_f32 (bandwidthHz s)) minBandwidth)
    (modify (set_bandwidthHz (f32_of_f64 minBandwidth))) ;;
  s <- get ;;
  when (f64_gt (f64_of_f32 (bandwidthHz s)) maxBandwidth)
    (modify (set_bandwidthHz (f32_of_f64 maxBandwidth))) ;;
  ok <- configure d decimation " (restart)" ;;
  when (negb ok)
    (call (Log Error "SignalHound BB: Failed to reconfigure device during restart") ;;
     return_) ;;
  s <- get ;;
  call (BbInitiate (deviceHandle s)) ;;
  ok <- check_status (initiate_status d) "bbInitiate (restart)" ;;
  when (negb ok)
    (call (Log Error "SignalHound BB: Failed to restart streaming") ;; return_) ;;
  call (BbQueryIQParameters (deviceHandle s)) ;;
  ok <- check_status (query_status d) "bbQueryIQParameters (restart)" ;;
  when ok
    (modify (set_actualSampleRate (actual_sample_rate d)) ;;
     s <- get ;;
     call (SetInputSampleRate (actualSampleRate s)) ;;
     call (Log Info "SignalHound BB: Stream restarted - Rate: {0} sps, BW: {1} Hz, Ref: {2} dBm")) ;;
  call ClearWriteStop ;;
  modify (set_running true) ;;
  spawn_rx.

Definition tune (d : answers) (f : double) : M unit :=
  modify (set_freq f) ;;
  s <- get ;;
  when (running s && negb (deviceHandle s =? -1))
    (restartStreamWithNewParams d "frequency change").

Definition updateBandwidth (d : answers) : M unit :=
  s <- get ;;
  when (running s && negb (deviceHandle s =? -1))
    (restartStreamWithNewParams d "bandwidth/decimation change").

(** No vendor call of a handler reports an error (a negative status):
    the four configuration calls, those that [start] makes, those that
    [restartStreamWithNewParams] needs to resume. *)
Definition configured_ok (d : answers) : bool :=
  (0 <=? refLevel_status d) && (0 <=? gainAtten_status d)
  && (0 <=? iqCenter_status d) && (0 <=? configureIQ_status d).
Definition start_ok (d : answers) : bool :=
  (0 <=? open_status d) && configured_ok d
  && (0 <=? initiate_status d) && (0 <=? query_status d).
Definition restart_ok (d : answers) : bool :=
  configured_ok d && (0 <=? initiate_status d).

(** Kinds of calls. *)
Definition is_log (e : event) : bool :=
  match e with Log _ _ => true | _ => false end.
Definition is_halt (e : event) : bool :=
  match e with BbAbort _ => true | _ => false end.
Definition is_stopWriter (e : event) : bool :=
  match e with StopWriter => true | _ => false end.
Definition is_join (e : event) : bool :=
  match e with Join => true | _ => false end.
Definition is_clearWriteStop (e : event) : bool :=
  match e with ClearWriteStop => true | _ => false end.
Definition is_spawn (e : event) : bool :=
  match e with Spawn => true | _ => false end.
Definition is_error_log (e : event) : bool :=
  match e with Log Error _ => true | _ => false end.
Definition is_device_call (e : event) : bool :=
  match e with
  | BbOpenDeviceBySerialNumber _ | BbConfigureRefLevel _ _
  | BbConfigureGainAtten _ _ _ | BbConfigureIQCenter _ _
  | BbConfigureIQ _ _ _ | BbInitiate _ | BbQueryIQParameters _
  | BbAbort _ | BbCloseDevice _ => true
  | _ => false
  end.

Definition actions (t : list event) : list event :=
  filter (fun e => negb (is_log e)) t.

(** *** Sequences of control events *)

Inductive request : Type :=
| Start (d : answers)
| Stop
| Tune (d : answers) (f : double)
| Reconfigure (d : answers) (reason : string).

Definition handle (r : request) : M unit :=
  match r with
  | Start d => start d
  | Stop => stop
  | Tune d f => tune d f
  | Reconfigure d reason => restartStreamWithNewParams d reason
  end.

Definition handle_all (rs : list request) : M unit :=
  sequence (map handle rs).

(** The spawn/join counter on the calls of this module. *)
Definition alive : Z -> list event -> Z := threads_alive is_spawn is_join.
Definition peak : Z -> list event -> Z := threads_peak is_spawn is_join.

(** What holds of an instance between two handler calls, and the number
    of threads its handle owns. *)
Definition quiescent (s : instance) : Prop :=
  rxThread s = running s /\ 0 <= decimationId s < 14.

Definition threads (s : instance) : Z := if rxThread s then 1 else 0.

(** The rates passed to [core::setInputSampleRate] and the bandwidths
    passed to [bbConfigureIQ] in a trace. *)
Definition notified (t : list event) : list double :=
  flat_map (fun e => match e with SetInputSampleRate r => [r] | _ => [] end) t.
Definition configured_bw (t : list event) : list float :=
  flat_map (fun e => match e with BbConfigureIQ _ _ bw => [bw] | _ => [] end) t.

(** *** The acquisition worker *)

Definition bufferSize : Z := 16384.
Definition complex_t : Type := float * float.

Inductive wevent : Type :=
| WLog (l : level) (msg : string)
| Sleep (milliseconds : Z)
| BbGetIQ (h : Z) (purge : bool)
| Swap (count : Z) (writeBuf : list complex_t).

(** What one iteration of [while (_this->running.load())] observes:
    [running] at the loop test, the [purgeIQ] flag, the [deviceHandle],
    the status of [bbGetIQ] with the packet fields it fills, and the
    result of [stream.swap]. *)
Record observation : Type := {
  running_at_test : bool;
  purgeIQ : bool;
  device_handle : Z;
  status : Z;
  iqCount : Z;
  iqData : list complex_t;
  sampleLoss : bool;
  swap : bool
}.

Inductive next : Type := Continue | Exit.

Section Worker.
(** Two enumerators of [bbStatus], declared in the vendor header
    [bb_api.h]. *)
Variables bbNoError bbDeviceNotStreamingErr : Z.

Definition iteration (o : observation) : list wevent * next :=
  if negb (running_at_test o) then ([], Exit)
  else
    let get_iq := BbGetIQ (device_handle o) (purgeIQ o) in
    if negb (status o =? bbNoError) then
      if status o =? bbDeviceNotStreamingErr then
        ([get_iq;
          WLog Warn "SignalHound BB: Device not streaming, retrying...";
          Sleep 10], Continue)
      else
        ([get_iq; WLog Error "SignalHound BB: bbGetIQ failed: {0}"], Exit)
    else if 0 <? iqCount o then
      let loss :=
        if sampleLoss o
        then [WLog Warn "SignalHound BB: Sample loss detected"] else [] in
      if iqCount o <=? bufferSize then
        let publish :=
          Swap (iqCount o) (firstn (Z.to_nat (iqCount o)) (iqData o)) in
        if negb (swap o) then ([get_iq; publish], Exit)
        else (get_iq :: publish :: loss, Continue)
      else
        (get_iq
           :: WLog Warn "SignalHound BB: Received more data than buffer size: {0} > {1}"
           :: loss, Continue)
    else ([get_iq; Sleep 1], Continue).

Fixpoint loop (os : list observation) : list wevent * next :=
  match os with
  | [] => ([], Continue)
  | o :: os' =>
      match iteration o with
      | (t, Exit) => (t, Exit)
      | (t, Continue) =>
          match loop os' with
          | (t', n) => (t ++ t', n)
          end
      end
  end.

Definition rx_thread_func (os : list observation) : list wevent * next :=
  match loop os with
  | (t, Exit) =>
      (WLog Info "SignalHound BB: RX thread started" :: t
         ++ [WLog Info "SignalHound BB: RX thread stopped"], Exit)
  | (t, Continue) =>
      (WLog Info "SignalHound BB: RX thread started" :: t, Continue)
  end.

(** An iteration sees a shutdown signal: [running] is false at the
    loop test, or [swap] is called and reports that the stream was
    stopped. *)
Definition shutdown_signal (o : observation) : bool :=
  negb (running_at_test o)
  || ((status o =? bbNoError) && (0 <? iqCount o)
      && (iqCount o <=? bufferSize) && negb (swap o)).

Definition read_failed (o : observation) : bool :=
  negb (status o =? bbNoError).

(** An iteration meets a status of [bbGetIQ] that is neither success
    nor [bbDeviceNotStreamingErr]. *)
Definition fatal_error (o : observation) : bool :=
  running_at_test o
  && negb (status o =? bbNoError)
  && negb (status o =? bbDeviceNotStreamingErr).

Definition is_swap (e : wevent) : bool :=
  match e with Swap _ _ => true | _ => false end.

End Worker.

End SignalHound.

(** ** Instances and device answers used as examples *)

Module Examples.
Import Float.

(** A KC SDR instance that has been started on a device it found. *)
Definition kc_stopped : KCSDR.instance := KCSDR.constructed true.
Definition kc_no_api : KCSDR.instance := KCSDR.constructed false.
Definition kc_running : KCSDR.instance :=
  state_of (KCSDR.start (Some 3) kc_stopped).

Definition kc_requests : list KCSDR.request :=
  [KCSDR.Start None; KCSDR.Start (Some 3); KCSDR.Start (Some 4);
   KCSDR.Tune (f64_of_Z 101000000); KCSDR.Stop; KCSDR.Stop;
   KCSDR.Start (Some 3); KCSDR.Stop].

Definition kc_read_ok : KCSDR.observation :=
  {| KCSDR.run_at_test := true; KCSDR.device := Some 3;
     KCSDR.read := Some [100; -100; 32767; -32768];
     KCSDR.run_after_failure := true; KCSDR.swap := true |}.

Definition kc_read_timeout : KCSDR.observation :=
  {| KCSDR.run_at_test := true; KCSDR.device := Some 3;
     KCSDR.read := None;
     KCSDR.run_after_failure := true; KCSDR.swap := true |}.

(** A SignalHound device that accepts every call, one that rejects the
    reference level, and one that cannot be opened. *)
Definition bb_accepts : SignalHound.answers :=
  {| SignalHound.open_status := 0; SignalHound.opened_handle := 7;
     SignalHound.refLevel_status := 0; SignalHound.gainAtten_status := 0;
     SignalHound.iqCenter_status := 0; SignalHound.configureIQ_status := 0;
     SignalHound.initiate_status := 0; SignalHound.query_status := 0;
     SignalHound.actual_sample_rate := f64_of_Z 625000;
     SignalHound.actual_bw := f64_of_Z 500000 |}.

Definition bb_rejects : SignalHound.answers :=
  {| SignalHound.open_status := 0; SignalHound.opened_handle := 7;
     SignalHound.refLevel_status := -1; SignalHound.gainAtten_status := 0;
     SignalHound.iqCenter_status := 0; SignalHound.configureIQ_status := 0;
     SignalHound.initiate_status := 0; SignalHound.query_status := 0;
     SignalHound.actual_sample_rate := f64_of_Z 625000;
     SignalHound.actual_bw := f64_of_Z 500000 |}.

Definition bb_absent : SignalHound.answers :=
  {| SignalHound.open_status := -1; SignalHound.opened_handle := -1;
     SignalHound.refLevel_status := 0; SignalHound.gainAtten_status := 0;
     SignalHound.iqCenter_status := 0; SignalHound.configureIQ_status := 0;
     SignalHound.initiate_status := 0; SignalHound.query_status := 0;
     SignalHound.actual_sample_rate := f64_of_Z 625000;
     SignalHound.actual_bw := f64_of_Z 500000 |}.


(** A SignalHound instance for which no device was listed: no serial
    number is selected. *)
Definition bb_unselected : SignalHound.instance :=
  SignalHound.constructed 0 (-1) (-1).

(** A SignalHound instance for serial number 5, stopped, then started;
    and one whose bandwidth slider was left at 1 MHz before decimation
    64 (at most 500 kHz) was chosen, stopped and running. *)
Definition bb_stopped : SignalHound.instance := SignalHound.constructed 5 (-1) (-1).
Definition bb_running : SignalHound.instance :=
  state_of (SignalHound.start bb_accepts bb_stopped).
Definition bb_wide_stopped : SignalHound.instance :=
  SignalHound.set_bandwidthHz (f32_of_Z 1000000) bb_stopped.

Definition bb_requests : list SignalHound.request :=
  [SignalHound.Start bb_absent; SignalHound.Start bb_accepts;
   SignalHound.Start bb_accepts;
   SignalHound.Tune bb_accepts (f64_of_Z 101000000);
   SignalHound.Reconfigure bb_rejects "gain change";
   SignalHound.Stop; SignalHound.Start bb_accepts; SignalHound.Stop].

(** An iteration of the SignalHound worker in which [bbGetIQ] reports
    the status -15, with 0 standing for [bbNoError] and -2 for
    [bbDeviceNotStreamingErr]. *)
Definition bb_read_error : SignalHound.observation :=
  {| SignalHound.running_at_test := true; SignalHound.purgeIQ := false;
     SignalHound.device_handle := 7; SignalHound.status := -15;
     SignalHound.iqCount := 0; SignalHound.iqData := [];
     SignalHound.sampleLoss := false; SignalHound.swap := true |}.

Definition bb_not_streaming : SignalHound.observation :=
  {| SignalHound.running_at_test := true; SignalHound.purgeIQ := false;
     SignalHound.device_handle := 7; SignalHound.status := -2;
     SignalHound.iqCount := 0; SignalHound.iqData := [];
     SignalHound.sampleLoss := false; SignalHound.swap := true |}.

End Examples.

(** ** Further parts of the two modules *)

(** *** KC SDR: start/stop cycles *)

Module KCSDRSession.
Import Float KCSDR.

(** The device [start] works on: the one held, else the one [find]
    yields. *)
Definition device_used (found : option sdr_obj) (s : instance) : option sdr_obj :=
  match currentDevice s with
  | Some d => Some d
  | None => found
  end.

(** A [start] followed by a [stop]; [threads_after] is the spawn/join
    counter at the end of the two traces. *)
Definition cycle (found : option sdr_obj) (s : instance) : instance :=
  state_of (stop (state_of (start found s))).

Definition cycle_trace (found : option sdr_obj) (s : instance) : list event :=
  trace_of (start found s) ++ trace_of (stop (state_of (start found s))).

(** The sample after [raw] normalises to a larger value ([raw] 32767 has
    no successor). *)
Definition increasing_at (raw : Z) : bool :=
  (raw =? 32767)
  || negb (Qle_bool (to_Q (normalize (raw + 1))) (to_Q (normalize raw))).

End KCSDRSession.

(** *** SignalHound: the bandwidth the two clamping tests leave *)

Module SignalHoundSession.
Import Float SignalHound.

(** [if (bandwidthHz < minBandwidth) bandwidthHz = minBandwidth;
     if (bandwidthHz > maxBandwidth) bandwidthHz = maxBandwidth;] *)
Definition clamped (maxBandwidth : double) (bandwidthHz : float) : float :=
  let minBandwidth := f64_of_Z 200 in
  let bw :=
    if f64_lt (f64_of_f32 bandwidthHz) minBandwidth
    then f32_of_f64 minBandwidth else bandwidthHz in
  if f64_gt (f64_of_f32 bw) maxBandwidth then f32_of_f64 maxBandwidth else bw.

Definition cycle (d : answers) (s : instance) : instance :=
  state_of (stop (state_of (start d s))).

Definition cycle_trace (d : answers) (s : instance) : list event :=
  trace_of (start d s) ++ trace_of (stop (state_of (start d s))).

Definition is_close (e : event) : bool :=
  match e with BbCloseDevice _ => true | _ => false end.
Definition is_open (e : event) : bool :=
  match e with BbOpenDeviceBySerialNumber _ => true | _ => false end.

End SignalHoundSession.

(** *** Handlers that call handlers, and tables searched by a loop *)

Section Panels.
Context {E E' St St' : Type}.

(** A computation on a part of the instance, its calls recorded in a
    larger type of calls. *)
Definition lift {A} (inj : E -> E') (part : St' -> St) (put : St -> St' -> St')
    (c : @ctl E St A) : @ctl E' St' A :=
  fun s' => match c (part s') with (t, s, o) => (map inj t, put s s', o) end.

(** A call of a handler from another function: the handler's [return]
    ends the handler, not its caller. *)
Definition invoke (c : @ctl E St unit) : @ctl E St unit :=
  fun s =>
    match c s with
    | (t, s', Returned) => (t, s', Value tt)
    | r => r
    end.

(** [for (int i = 0; i < v.size(); i++) if (p(v[i])) { id = i; break; }]:
    the index the loop stores, if any, with [i] the index of the head. *)
Fixpoint first_match {A} (p : A -> bool) (v : list A) (i : Z) : option Z :=
  match v with
  | [] => None
  | x :: v' => if p x then Some i else first_match p v' (i + 1)
  end.

End Panels.

(** *** KC SDR: constructor tables, configuration, menu and destructor *)

Module KCSDRPanel.
Import Float KCSDR.

(** [samplerates] and [ports] as the constructor defines them, by id. *)
Definition samplerates : list double :=
  map f64_of_Z [5000000; 10000000; 15000000; 20000000; 25000000; 30000000;
                35000000; 40000000].
Definition ports : list Z := [1; 2].

(** Conversion of an [int] to [uint8_t]. *)
Definition to_uint8 (z : Z) : Z := z mod 256.

(** [config.conf[name]]: the keys [saveConfig] writes, each there or not. *)
Record saved : Type := {
  saved_devId : option Z;
  saved_sampleRate : option double;
  saved_port : option Z;
  saved_att : option Z;
  saved_gain : option Z;
  saved_extGain : option Z
}.

(** [cfg.value(key, default)]. *)
Definition value {A} (stored : option A) (default : A) : A :=
  match stored with Some v => v | None => default end.

(** The instance with the members the menu and the configuration use:
    the combo indices [srId] and [portId], and [conf], the entry of this
    instance in the configuration ([None] when there is none). *)
Record panel : Type := {
  core : instance;
  srId : Z;
  portId : Z;
  conf : option saved
}.

Definition set_core (c : instance) (p : panel) : panel :=
  {| core := c; srId := srId p; portId := portId p; conf := conf p |}.
Definition set_srId (i : Z) (p : panel) : panel :=
  {| core := core p; srId := i; portId := portId p; conf := conf p |}.
Definition set_portId (i : Z) (p : panel) : panel :=
  {| core := core p; srId := srId p; portId := i; conf := conf p |}.
Definition set_conf (c : option saved) (p : panel) : panel :=
  {| core := core p; srId := srId p; portId := portId p; conf := c |}.

Definition set_devId (v : Z) (s : instance) : instance :=
  {| api := api s; currentDevice := currentDevice s; running := running s;
     run := run s; sampleRate := sampleRate s; freq := freq s; devId := v;
     selectedPort := selectedPort s; att := att s; gain := gain s;
     extGain := extGain s; workerThread := workerThread s |}.
Definition set_sampleRate (v : double) (s : instance) : instance :=
  {| api := api s; currentDevice := currentDevice s; running := running s;
     run := run s; sampleRate := v; freq := freq s; devId := devId s;
     selectedPort := selectedPort s; att := att s; gain := gain s;
     extGain := extGain s; workerThread := workerThread s |}.
Definition set_selectedPort (v : Z) (s : instance) : instance :=
  {| api := api s; currentDevice := currentDevice s; running := running s;
     run := run s; sampleRate := sampleRate s; freq := freq s; devId := devId s;
     selectedPort := v; att := att s; gain := gain s;
     extGain := extGain s; workerThread := workerThread s |}.
Definition set_att (v : Z) (s : instance) : instance :=
  {| api := api s; currentDevice := currentDevice s; running := running s;
     run := run s; sampleRate := sampleRate s; freq := freq s; devId := devId s;
     selectedPort := selectedPort s; att := v; gain := gain s;
     extGain := extGain s; workerThread := workerThread s |}.
Definition set_gain (v : Z) (s : instance) : instance :=
  {| api := api s; currentDevice := currentDevice s; running := running s;
     run := run s; sampleRate := sampleRate s; freq := freq s; devId := devId s;
     selectedPort := selectedPort s; att := att s; gain := v;
     extGain := extGain s; workerThread := workerThread s |}.
Definition set_extGain (v : Z) (s : instance) : instance :=
  {| api := api s; currentDevice := currentDevice s; running := running s;
     run := run s; sampleRate := sampleRate s; freq := freq s; devId := devId s;
     selectedPort := selectedPort s; att := att s; gain := gain s;
     extGain := v; workerThread := workerThread s |}.

(** Calls of the panel: those of the controller, [api->close] and the
    registration with the source manager. *)
Inductive pevent : Type :=
| Core (e : event)
| ApiClose (d : option sdr_obj)
| RegisterSource
| UnregisterSource.

Definition P : Type -> Type := @ctl pevent panel.

Definition on_core {A} (c : M A) : P A := lift Core core set_core c.
Definition modify_core (f : instance -> instance) : P unit :=
  modify (fun p => set_core (f (core p)) p).

Definition loadConfig : P unit :=
  p <- get ;;
  match conf p with
  | None => ret tt
  | Some cfg =>
      modify_core (set_devId (value (saved_devId cfg) 0)) ;;
      modify_core (set_sampleRate (value (saved_sampleRate cfg) (f64_of_Z 10000000))) ;;
      modify_core (set_selectedPort (to_uint8 (value (saved_port cfg) 1))) ;;
      modify_core (set_att (to_uint8 (value (saved_att cfg) 0))) ;;
      modify_core (set_gain (to_uint8 (value (saved_gain cfg) 15))) ;;
      modify_core (set_extGain (to_uint8 (value (saved_extGain cfg) 1))) ;;
      p <- get ;;
      match first_match (fun v => SFeqb v (sampleRate (core p))) samplerates 0 with
      | Some i => modify (set_srId i)
      | None => ret tt
      end ;;
      match first_match (fun v => v =? selectedPort (core p)) ports 0 with
      | Some i => modify (set_portId i)
      | None => ret tt
      end
  end.

Definition saveConfig : P unit :=
  modify (fun p =>
    set_conf (Some {| saved_devId := Some (devId (core p));
                      saved_sampleRate := Some (sampleRate (core p));
                      saved_port := Some (selectedPort (core p));
                      saved_att := Some (att (core p));
                      saved_gain := Some (gain (core p));
                      saved_extGain := Some (extGain (core p)) |}) p).

(** The constructor: member initialisers, [kcsdr_init], [loadConfig],
    registration. *)
Definition constructor (api_ok : bool) (stored : option saved)
  : list pevent * panel * outcome unit :=
  (when (negb api_ok)
     (call (Core (Log Error "KC SDR: Failed to initialize API"))) ;;
   loadConfig ;;
   call RegisterSource)
    {| core := constructed api_ok; srId := 1; portId := 0; conf := stored |}.

Definition destructor : P unit :=
  invoke (on_core stop) ;;
  p <- get ;;
  when (negb (is_null (currentDevice (core p))) && api (core p))
    (call (ApiClose (currentDevice (core p))) ;;
     modify_core (set_currentDevice None)) ;;
  call UnregisterSource.

(** The bodies of [menuHandler] run when a widget reports a change: the
    three combos, with the index chosen, and the three sliders, with the
    value chosen. *)
Definition combo_deviceType (id : Z) : P unit :=
  modify_core (set_devId id) ;;
  saveConfig.

Definition combo_sampleRate (id : Z) : P unit :=
  modify (set_srId id) ;;
  v <- index samplerates id ;;
  modify_core (set_sampleRate v) ;;
  saveConfig.

Definition combo_port (id : Z) : P unit :=
  modify (set_portId id) ;;
  v <- index ports id ;;
  modify_core (set_selectedPort (to_uint8 v)) ;;
  saveConfig.

(** A slider: store the value, apply it to the device if running, save. *)
Definition slider (store : Z -> instance -> instance)
    (apply : option sdr_obj -> Z -> event) (stored : instance -> Z)
    (chosen : Z) : P unit :=
  modify_core (store (to_uint8 chosen)) ;;
  p <- get ;;
  when (running (core p))
    (if api (core p)
     then call (Core (apply (currentDevice (core p)) (stored (core p))))
     else undefined) ;;
  saveConfig.

Definition slider_att : Z -> P unit := slider set_att RxAtt att.
Definition slider_gain : Z -> P unit := slider set_gain RxAmp gain.
Definition slider_extGain : Z -> P unit := slider set_extGain RxExtAmp extGain.

(** The calls of a panel trace that are not log lines. *)
Definition pactions (t : list pevent) : list pevent :=
  filter (fun e => match e with Core (Log _ _) => false | _ => true end) t.

(** The panel with the instance [c], as a fresh process finds it: default
    combo indices and the stored configuration [stored]. *)
Definition fresh (c : instance) (stored : option saved) : panel :=
  {| core := c; srId := 1; portId := 0; conf := stored |}.

(** The members kept in the configuration are [uint8_t] where the class
    declares them so. *)
Definition well_typed (s : instance) : Prop :=
  0 <= selectedPort s < 256 /\ 0 <= att s < 256 /\
  0 <= gain s < 256 /\ 0 <= extGain s < 256.

(** The controller calls of a panel trace. *)
Definition core_events (t : list pevent) : list event :=
  flat_map (fun e => match e with Core e => [e] | _ => [] end) t.

(** The life of an instance: the constructor, the requests [rs] of the
    source manager in turn, the destructor. *)
Definition lifetime (api_ok : bool) (stored : option saved) (rs : list request)
  : list pevent * panel * outcome unit :=
  match constructor api_ok stored with
  | (t0, p0, _) =>
      match on_core (handle_all rs) p0 with
      | (t1, p1, Undefined) => (t0 ++ t1, p1, Undefined)
      | (t1, p1, _) =>
          match destructor p1 with
          | (t2, p2, o) => (t0 ++ t1 ++ t2, p2, o)
          end
      end
  end.

End KCSDRPanel.

(** *** Further examples *)

Module MoreExamples.

Definition kc_run_cleared : KCSDR.observation :=
  {| KCSDR.run_at_test := false; KCSDR.device := Some 3;
     KCSDR.read := None;
     KCSDR.run_after_failure := false; KCSDR.swap := true |}.

(** A KC SDR panel whose menu was used: 20 MHz on port 2, attenuation 12,
    gain 20, external gain 7, tuned to 433 MHz. *)
Definition kc_panel : KCSDRPanel.panel :=
  {| KCSDRPanel.core :=
       {| KCSDR.api := true; KCSDR.currentDevice := None;
          KCSDR.running := false; KCSDR.run := false;
          KCSDR.sampleRate := Float.f64_of_Z 20000000;
          KCSDR.freq := Float.f64_of_Z 433000000; KCSDR.devId := 1;
          KCSDR.selectedPort := 2; KCSDR.att := 12; KCSDR.gain := 20;
          KCSDR.extGain := 7; KCSDR.workerThread := false |};
     KCSDRPanel.srId := 3; KCSDRPanel.portId := 1; KCSDRPanel.conf := None |}.

(** A packet of the SignalHound worker that reports more samples than the
    buffer holds. *)
Definition bb_oversized : SignalHound.observation :=
  {| SignalHound.running_at_test := true; SignalHound.purgeIQ := false;
     SignalHound.device_handle := 7; SignalHound.status := 0;
     SignalHound.iqCount := 20000; SignalHound.iqData := [];
     SignalHound.sampleLoss := true; SignalHound.swap := true |}.

End MoreExamples.

(** *** SignalHound BB: device list, selection, configuration and menu *)

Module SignalHoundPanel.
Import Float SignalHound.

Definition set_selectedSerial (v : Z) (s : instance) : instance :=
  {| running := running s; rxThread := rxThread s; deviceHandle := deviceHandle s;
     freq := freq s; selectedSerial := v;
     decimationId := decimationId s; bandwidthHz := bandwidthHz s;
     refLevel := refLevel s; gain := gain s; attenuation := attenuation s;
     actualSampleRate := actualSampleRate s |}.

Definition set_decimationId (v : Z) (s : instance) : instance :=
  {| running := running s; rxThread := rxThread s; deviceHandle := deviceHandle s;
     freq := freq s; selectedSerial := selectedSerial s;
     decimationId := v; bandwidthHz := bandwidthHz s;
     refLevel := refLevel s; gain := gain s; attenuation := attenuation s;
     actualSampleRate := actualSampleRate s |}.

Definition set_refLevel (v : float) (s : instance) : instance :=
  {| running := running s; rxThread := rxThread s; deviceHandle := deviceHandle s;
     freq := freq s; selectedSerial := selectedSerial s;
     decimationId := decimationId s; bandwidthHz := bandwidthHz s;
     refLevel := v; gain := gain s; attenuation := attenuation s;
     actualSampleRate := actualSampleRate s |}.

Definition set_gain (v : Z) (s : instance) : instance :=
  {| running := running s; rxThread := rxThread s; deviceHandle := deviceHandle s;
     freq := freq s; selectedSerial := selectedSerial s;
     decimationId := decimationId s; bandwidthHz := bandwidthHz s;
     refLevel := refLevel s; gain := v; attenuation := attenuation s;
     actualSampleRate := actualSampleRate s |}.

Definition set_attenuation (v : Z) (s : instance) : instance :=
  {| running := running s; rxThread := rxThread s; deviceHandle := deviceHandle s;
     freq := freq s; selectedSerial := selectedSerial s;
     decimationId := decimationId s; bandwidthHz := bandwidthHz s;
     refLevel := refLevel s; gain := gain s; attenuation := v;
     actualSampleRate := actualSampleRate s |}.

(** The entry of one device in [config.conf["devices"]]: each key may be
    missing; a number is held as the value the member assigned from it
    takes. *)
Record devConf : Type := {
  c_decimationId : option Z;
  c_refLevel : option float;
  c_bandwidth : option float;
  c_gain : option Z;
  c_attenuation : option Z
}.

(** A key of [config.conf["devices"]]: [Some n] is [std::to_string(n)],
    [None] is the empty string [selectedSerStr] starts with. *)
Definition key : Type := option Z.

Definition key_eqb (a b : key) : bool :=
  match a, b with
  | Some x, Some y => x =? y
  | None, None => true
  | _, _ => false
  end.

(** [config.conf]: the key ["device"], which may be missing, and the
    object ["devices"]. *)
Record config : Type := {
  device : option Z;
  devices : key -> option devConf
}.

Definition set_device (v : option Z) (c : config) : config :=
  {| device := v; devices := devices c |}.
Definition set_devices (m : key -> option devConf) (c : config) : config :=
  {| device := device c; devices := m |}.

(** [config.conf["devices"][k] = c], all five keys written. *)
Definition store (k : key) (c : devConf) (m : key -> option devConf)
  : key -> option devConf :=
  fun k' => if key_eqb k' k then Some c else m k'.

(** What [bbGetSerialNumberList] answers: its status and the serial
    numbers it wrote, [count] of them. *)
Record listing : Type := {
  list_status : Z;
  serials : list Z
}.

(** The instance with the members of the menu and the configuration. *)
Record panel : Type := {
  core : instance;
  devId : Z;
  devList : list Z;
  selectedSerStr : key;
  configDirty : bool;
  purgeIQ : bool;
  conf : config
}.

Definition set_core (c : instance) (p : panel) : panel :=
  {| core := c; devId := devId p; devList := devList p;
     selectedSerStr := selectedSerStr p; configDirty := configDirty p;
     purgeIQ := purgeIQ p; conf := conf p |}.
Definition set_devId (v : Z) (p : panel) : panel :=
  {| core := core p; devId := v; devList := devList p;
     selectedSerStr := selectedSerStr p; configDirty := configDirty p;
     purgeIQ := purgeIQ p; conf := conf p |}.
Definition set_devList (v : list Z) (p : panel) : panel :=
  {| core := core p; devId := devId p; devList := v;
     selectedSerStr := selectedSerStr p; configDirty := configDirty p;
     purgeIQ := purgeIQ p; conf := conf p |}.
Definition set_selectedSerStr (v : key) (p : panel) : panel :=
  {| core := core p; devId := devId p; devList := devList p;
     selectedSerStr := v; configDirty := configDirty p;
     purgeIQ := purgeIQ p; conf := conf p |}.
Definition set_configDirty (v : bool) (p : panel) : panel :=
  {| core := core p; devId := devId p; devList := devList p;
     selectedSerStr := selectedSerStr p; configDirty := v;
     purgeIQ := purgeIQ p; conf := conf p |}.
Definition set_purgeIQ (v : bool) (p : panel) : panel :=
  {| core := core p; devId := devId p; devList := devList p;
     selectedSerStr := selectedSerStr p; configDirty := configDirty p;
     purgeIQ := v; conf := conf p |}.
Definition set_conf (v : config) (p : panel) : panel :=
  {| core := core p; devId := devId p; devList := devList p;
     selectedSerStr := selectedSerStr p; configDirty := configDirty p;
     purgeIQ := purgeIQ p; conf := v |}.

(** Calls of the panel: those of the controller, the device listing and
    the registration with the source manager. *)
Inductive pevent : Type :=
| Core (e : event)
| BbGetSerialNumberList
| RegisterSource
| UnregisterSource.

Definition P : Type -> Type := @ctl pevent panel.

Definition on_core {A} (c : M A) : P A := lift Core core set_core c.
Definition modify_core (f : instance -> instance) : P unit :=
  modify (fun p => set_core (f (core p)) p).

(** The values of [int], and the result of an addition or subtraction
    of two of them, undefined when it is not one. *)
Definition INT_MIN : Z := -2147483648.
Definition INT_MAX : Z := 2147483647.
Definition is_int (z : Z) : bool := (INT_MIN <=? z) && (z <=? INT_MAX).
Definition int_of (z : Z) : P Z := if is_int z then ret z else undefined.

(** The calls of a panel trace that are not log lines. *)
Definition pactions (t : list pevent) : list pevent :=
  filter (fun e => match e with Core (Log _ _) => false | _ => true end) t.

Section Vendor.
(** [bbNoError], [BB_AUTO_GAIN] and [BB_AUTO_ATTEN] of the vendor header
    [bb_api.h]. *)
Variables bbNoError BB_AUTO_GAIN BB_AUTO_ATTEN : Z.

Definition refresh (l : listing) : P unit :=
  modify (set_devList []) ;;
  call BbGetSerialNumberList ;;
  when ((list_status l =? bbNoError) && (0 <? Z.of_nat (List.length (serials l))))
    (modify (set_devList (serials l))).

(** The entry [selectBySerial] creates for a device that has none. *)
Definition default_entry : devConf :=
  {| c_decimationId := Some 6;
     c_refLevel := Some (f32_of_f64 (f64_of_Z (-20)));
     c_bandwidth := Some (f32_of_f64 (f64_of_Z 500000));
     c_gain := Some BB_AUTO_GAIN;
     c_attenuation := Some BB_AUTO_ATTEN |}.

Definition selectBySerial (serial : Z) : P unit :=
  modify (set_devId (-1)) ;;
  p <- get ;;
  match first_match (fun v => v =? serial) (devList p) 0 with
  | Some i => modify (set_devId i)
  | None => ret tt
  end ;;
  p <- get ;;
  when (devId p =? -1)
    (when (match devList p with [] => true | _ => false end) return_ ;;
     modify (set_devId 0)) ;;
  p <- get ;;
  v <- index (devList p) (devId p) ;;
  modify_core (set_selectedSerial v) ;;
  modify (set_selectedSerStr (Some v)) ;;
  p <- get ;;
  match devices (conf p) (Some v) with
  | None =>
      modify (fun p =>
        set_conf (set_devices (store (Some v) default_entry (devices (conf p)))
                    (conf p)) p)
  | Some devConf =>
      match c_decimationId devConf with
      | Some x => modify_core (set_decimationId x)
      | None => ret tt
      end ;;
      match c_refLevel devConf with
      | Some x => modify_core (set_refLevel x)
      | None => ret tt
      end ;;
      match c_bandwidth devConf with
      | Some x =>
          modify_core (set_bandwidthHz x) ;;
          when (f64_lt (f64_of_f32 x) (f64_of_Z 1000))
            (call (Core (Log Warn "SignalHound BB: Loaded bandwidth {0} too small, using 500kHz")) ;;
             modify_core (set_bandwidthHz (f32_of_f64 (f64_of_Z 500000))))
      | None => ret tt
      end ;;
      match c_gain devConf with
      | Some x => modify_core (set_gain x)
      | None => ret tt
      end ;;
      match c_attenuation devConf with
      | Some x => modify_core (set_attenuation x)
      | None => ret tt
      end
  end.

(** The members as their initialisers and the first lines of the
    constructor leave them, with the configuration file as loaded. *)
Definition initial (stored : config) : panel :=
  {| core := constructed 0 BB_AUTO_GAIN BB_AUTO_ATTEN;
     devId := 0; devList := []; selectedSerStr := None;
     configDirty := false; purgeIQ := false; conf := stored |}.

Definition constructor (l : listing) (stored : config)
  : list pevent * panel * outcome unit :=
  (refresh l ;;
   p <- get ;;
   let devSerial := match device (conf p) with Some v => v | None => 0 end in
   invoke (selectBySerial devSerial) ;;
   call RegisterSource) (initial stored).

Definition destructor : P unit :=
  invoke (on_core stop) ;;
  call UnregisterSource.

Definition menuSelected : P unit :=
  p <- get ;;
  call (Core (SetInputSampleRate (actualSampleRate (core p)))).

Definition updateRefLevel (d : answers) : M unit :=
  s <- get ;;
  when (running s && negb (deviceHandle s =? -1))
    (restartStreamWithNewParams d "reference level change").

(** What the widgets report in one call of [menuHandler]: for each
    widget whether it changed and the value it wrote, with the answers
    of the vendor library to the restart that follows.  The gain and
    attenuation combos work on the locals [gainComboId = gain + 1] and
    [attenComboId = attenuation + 1], computed in every call. *)
Record frame : Type := {
  device_combo : option Z;
  refresh_button : option listing;
  decimation_combo : option (Z * answers);
  bandwidth_slider : option (float * answers);
  gain_combo : option (Z * answers);
  attenuation_combo : option (Z * answers);
  refLevel_slider : option (float * answers);
  purge_checkbox : option bool
}.

(** The instances and frames on which the [int] arithmetic of the gain
    and attenuation combos stays within [int]: [gain + 1] and
    [attenuation + 1] on the members, [gainComboId - 1] and
    [attenComboId - 1] on the values the combos wrote. *)
Definition combo_ids (s : instance) : Prop :=
  is_int (gain s + 1) = true /\ is_int (attenuation s + 1) = true.

Definition combo_choices (fr : frame) : Prop :=
  (forall id d, gain_combo fr = Some (id, d) -> is_int (id - 1) = true) /\
  (forall id d, attenuation_combo fr = Some (id, d) -> is_int (id - 1) = true).


(** The block at the end of [menuHandler]. *)
Definition save_if_dirty : P unit :=
  p <- get ;;
  when (configDirty p)
    (modify (fun p =>
       set_conf
         {| device := Some (selectedSerial (core p));
            devices :=
              store (selectedSerStr p)
                {| c_decimationId := Some (decimationId (core p));
                   c_refLevel := Some (refLevel (core p));
                   c_bandwidth := Some (bandwidthHz (core p));
                   c_gain := Some (gain (core p));
                   c_attenuation := Some (attenuation (core p)) |}
                (devices (conf p)) |} p) ;;
     modify (set_configDirty false)).

Definition menuHandler (fr : frame) : P unit :=
  p <- get ;;
  let wasRunning := running (core p) in
  match device_combo fr with
  | Some id =>
      modify (set_devId id) ;;
      p <- get ;;
      v <- index (devList p) id ;;
      invoke (selectBySerial v) ;;
      modify (set_configDirty true)
  | None => ret tt
  end ;;
  match refresh_button fr with
  | Some l => refresh l
  | None => ret tt
  end ;;
  match decimation_combo fr with
  | Some (id, d) =>
      modify_core (set_decimationId id) ;;
      newMaxBw <- index maxBandwidths id ;;
      p <- get ;;
      when (f64_gt (f64_of_f32 (bandwidthHz (core p))) newMaxBw)
        (modify_core (set_bandwidthHz (f32_of_f64 newMaxBw))) ;;
      modify (set_configDirty true) ;;
      when wasRunning (invoke (on_core (updateBandwidth d)))
  | None => ret tt
  end ;;
  p <- get ;;
  _ <- index maxBandwidths (decimationId (core p)) ;;
  match bandwidth_slider fr with
  | Some (v, d) =>
      modify_core (set_bandwidthHz v) ;;
      modify (set_configDirty true) ;;
      when wasRunning (invoke (on_core (updateBandwidth d)))
  | None => ret tt
  end ;;
  p <- get ;;
  _ <- int_of (gain (core p) + 1) ;;
  match gain_combo fr with
  | Some (gainComboId, d) =>
      g <- int_of (gainComboId - 1) ;;
      modify_core (set_gain g) ;;
      modify (set_configDirty true) ;;
      when wasRunning
        (invoke (on_core (restartStreamWithNewParams d "gain change")))
  | None => ret tt
  end ;;
  p <- get ;;
  _ <- int_of (attenuation (core p) + 1) ;;
  match attenuation_combo fr with
  | Some (attenComboId, d) =>
      a <- int_of (attenComboId - 1) ;;
      modify_core (set_attenuation a) ;;
      modify (set_configDirty true) ;;
      when wasRunning
        (invoke (on_core (restartStreamWithNewParams d "attenuation change")))
  | None => ret tt
  end ;;
  match refLevel_slider fr with
  | Some (v, d) =>
      modify_core (set_refLevel v) ;;
      modify (set_configDirty true) ;;
      when wasRunning (invoke (on_core (updateRefLevel d)))
  | None => ret tt
  end ;;
  match purge_checkbox fr with
  | Some b => modify (set_purgeIQ b)
  | None => ret tt
  end ;;
  save_if_dirty.

(** The life of an instance: the constructor, the requests [rs] of the
    source manager in turn, the destructor. *)
Definition lifetime (l : listing) (stored : config) (rs : list request)
  : list pevent * panel * outcome unit :=
  match constructor l stored with
  | (t0, p0, _) =>
      match on_core (handle_all rs) p0 with
      | (t1, p1, Undefined) => (t0 ++ t1, p1, Undefined)
      | (t1, p1, _) =>
          match destructor p1 with
          | (t2, p2, o) => (t0 ++ t1 ++ t2, p2, o)
          end
      end
  end.

End Vendor.

(** A frame in which no widget changed. *)
Definition idle : frame :=
  {| device_combo := None; refresh_button := None; decimation_combo := None;
     bandwidth_slider := None; gain_combo := None; attenuation_combo := None;
     refLevel_slider := None; purge_checkbox := None |}.

(** The controller calls of a panel trace. *)
Definition core_events (t : list pevent) : list event :=
  flat_map (fun e => match e with Core e => [e] | _ => [] end) t.

End SignalHoundPanel.

(** *** A SignalHound panel *)

Module PanelExamples.
Import Float Examples.

(** Two devices listed, the first one selected, nothing stored. *)
Definition bb_panel : SignalHoundPanel.panel :=
  {| SignalHoundPanel.core := SignalHound.constructed 12345 (-1) (-1);
     SignalHoundPanel.devId := 0;
     SignalHoundPanel.devList := [12345; 23456];
     SignalHoundPanel.selectedSerStr := Some 12345;
     SignalHoundPanel.configDirty := false;
     SignalHoundPanel.purgeIQ := false;
     SignalHoundPanel.conf :=
       {| SignalHoundPanel.device := None;
          SignalHoundPanel.devices := fun _ => None |} |}.

Definition bb_listing : SignalHoundPanel.listing :=
  {| SignalHoundPanel.list_status := 0;
     SignalHoundPanel.serials := [12345; 23456] |}.

(** The bandwidth slider moved to 500 Hz. *)
Definition bb_narrow : SignalHoundPanel.frame :=
  {| SignalHoundPanel.device_combo := None;
     SignalHoundPanel.refresh_button := None;
     SignalHoundPanel.decimation_combo := None;
     SignalHoundPanel.bandwidth_slider := Some (f32_of_Z 500, bb_accepts);
     SignalHoundPanel.gain_combo := None;
     SignalHoundPanel.attenuation_combo := None;
     SignalHoundPanel.refLevel_slider := None;
     SignalHoundPanel.purge_checkbox := None |}.

(** The panel of a running instance. *)
Definition bb_panel_running : SignalHoundPanel.panel :=
  SignalHoundPanel.set_core bb_running bb_panel.

(** A configuration file edited by hand: decimation index 14 for the
    device 23456. *)
Definition bb_bad_config : SignalHoundPanel.config :=
  {| SignalHoundPanel.device := Some 23456;
     SignalHoundPanel.devices :=
       SignalHoundPanel.store (Some 23456)
         {| SignalHoundPanel.c_decimationId := Some 14;
            SignalHoundPanel.c_refLevel := None;
            SignalHoundPanel.c_bandwidth := None;
            SignalHoundPanel.c_gain := None;
            SignalHoundPanel.c_attenuation := None |}
         (fun _ => None) |}.

(** The first device with decimation index 3 chosen for it. *)
Definition bb_panel_tuned : SignalHoundPanel.panel :=
  SignalHoundPanel.set_core
    (SignalHoundPanel.set_decimationId 3 (SignalHoundPanel.core bb_panel))
    bb_panel.

End PanelExamples.
Import PanelExamples.

(** * Properties *)

Import Float.

(** ** Traces *)

Section Traces.
Context {E St : Type}.
Variables spawn join : E -> bool.

Local Abbreviation alive := (threads_alive spawn join).
Local Abbreviation peak := (threads_peak spawn join).

Lemma peak_ge n t : n <= peak n t.
Proof. destruct t; simpl; lia. Qed.

Lemma peak_app n t1 t2 :
  peak n (t1 ++ t2) = Z.max (peak n t1) (peak (alive n t1) t2).
Proof.
  revert n; induction t1 as [|e t1 IH]; intro n; simpl.
  - pose proof (peak_ge n t2). lia.
  - rewrite IH. unfold threads_alive; simpl. lia.
Qed.

Lemma alive_le_peak n t1 t2 : alive n t1 <= peak n (t1 ++ t2).
Proof.
  rewrite peak_app. pose proof (peak_ge (alive n t1) t2). lia.
Qed.

(** Handlers that each keep an invariant [Q] of the instance, keep the
    counter at most 1 along their trace, end with it at the number of
    threads the instance owns and stay inside defined behaviour, do so
    together in any sequence. *)
Lemma sequence_counter
    (Q : St -> Prop) (threads : St -> Z) (hs : list (@ctl E St unit)) :
  (forall h s, In h hs -> Q s ->
     Q (state_of (h s)) /\
     peak (threads s) (trace_of (h s)) <= 1 /\
     alive (threads s) (trace_of (h s)) = threads (state_of (h s)) /\
     outcome_of (h s) <> Undefined) ->
  forall s, Q s -> threads s <= 1 ->
  peak (threads s) (trace_of (sequence hs s)) <= 1 /\
  outcome_of (sequence hs s) <> Undefined.
Proof.
  induction hs as [|h hs IH]; intros Hh s Hq Hs.
  - simpl. split; [exact Hs|discriminate].
  - destruct (Hh h s (or_introl eq_refl) Hq) as (Hq' & Hp & Ha & Ho).
    assert (Hs' : threads (state_of (h s)) <= 1).
    { rewrite <- Ha. pose proof (alive_le_peak (threads s) (trace_of (h s)) []).
      rewrite app_nil_r in H. lia. }
    destruct (IH (fun h' s' Hin => Hh h' s' (or_intror Hin)) _ Hq' Hs')
      as [IHp IHo].
    simpl. unfold trace_of, state_of, outcome_of in *.
    destruct (h s) as [[t s'] o]; simpl in *.
    destruct (sequence hs s') as [[t' s''] o']; simpl in *.
    destruct o as [[]| |]; simpl; try congruence;
      (split; [rewrite peak_app, Ha; lia|assumption]).
Qed.

(** The counter alone, whatever the outcome: handlers that keep it at
    most 1 along their trace, and that keep [Q] and end with the counter
    at the number of threads the instance owns when they stay inside
    defined behaviour, keep it at most 1 in any sequence. *)
Lemma sequence_peak
    (Q : St -> Prop) (threads : St -> Z) (hs : list (@ctl E St unit)) :
  (forall h s, In h hs -> Q s ->
     peak (threads s) (trace_of (h s)) <= 1 /\
     (outcome_of (h s) <> Undefined ->
      Q (state_of (h s)) /\
      alive (threads s) (trace_of (h s)) = threads (state_of (h s)))) ->
  forall s, Q s -> threads s <= 1 ->
  peak (threads s) (trace_of (sequence hs s)) <= 1.
Proof.
  induction hs as [|h hs IH]; intros Hh s Hq Hs.
  - simpl. exact Hs.
  - destruct (Hh h s (or_introl eq_refl) Hq) as (Hp & Hd).
    specialize (IH (fun h' s' Hin => Hh h' s' (or_intror Hin))).
    simpl. unfold trace_of, state_of, outcome_of in *.
    destruct (h s) as [[t s'] o]; simpl in *.
    assert (Hnext : o <> Undefined ->
              peak (threads s) (t ++ fst (fst (sequence hs s'))) <= 1).
    { intros Ho. destruct (Hd Ho) as [Hq' Ha].
      assert (Hs' : threads s' <= 1).
      { rewrite <- Ha. pose proof (alive_le_peak (threads s) t []) as H.
        rewrite app_nil_r in H. lia. }
      specialize (IH _ Hq' Hs'). rewrite peak_app, Ha. lia. }
    destruct (sequence hs s') as [[t' s''] o']; simpl in *.
    destruct o as [[]| |]; simpl;
      [apply Hnext; discriminate|apply Hnext; discriminate|exact Hp].
Qed.

End Traces.

(** ** Lookups and conversions *)

Section Lookups.
Context {E St : Type}.

Lemma index_run {A : Type} (v : list A) (i : Z) (a : A) (s : St) :
  0 <= i -> nth_error v (Z.to_nat i) = Some a ->
  @index E St A v i s = ([], s, Value a).
Proof.
  intros Hi Hn. unfold index. apply Z.ltb_ge in Hi. rewrite Hi, Hn.
  reflexivity.
Qed.

Lemma uint64_of_run (x : double) (z : Z) (s : St) :
  to_uint64 x = Some z -> @uint64_of E St x s = ([], s, Value z).
Proof. intros H. unfold uint64_of. rewrite H. reflexivity. Qed.

End Lookups.

Lemma to_uint64_range (x : double) (z : Z) :
  to_uint64 x = Some z -> 0 <= z < 2 ^ 64.
Proof.
  unfold to_uint64. destruct (truncate x) as [t|]; [|discriminate].
  destruct ((0 <=? t) && (t <? 2 ^ 64)) eqn:E; [|discriminate].
  intros H. injection H as <-. apply andb_prop in E. destruct E as [E1 E2].
  apply Z.leb_le in E1. apply Z.ltb_lt in E2. split; assumption.
Qed.

(** ** KC SDR: the controller *)

Module KCSDRFacts.
Import KCSDR.

Ltac run :=
  cbv [start stop tune handle coreSetInputSampleRate spawn_worker
       index uint64_of
       bind ret get modify call return_ undefined when
       trace_of state_of outcome_of is_null negb andb orb fst snd app
       api currentDevice running run sampleRate freq devId selectedPort
       att gain extGain workerThread
       set_currentDevice set_running set_run set_freq set_workerThread
       actions filter is_log].

(** Decide the lookups and conversions a handler has reached: by a
    hypothesis, or in both ways. *)
Ltac settle :=
  repeat
    (first
       [ match goal with
         | H : ?b = _ |- context [if ?b then _ else _] => rewrite H
         | H : ?b = _ |- context [match ?b with Some _ => _ | None => _ end] =>
             rewrite H
         end
       | match goal with
         | |- context [if (?i <? 0) then _ else _] => destruct (i <? 0)
         | |- context [match nth_error ?v ?n with Some _ => _ | None => _ end] =>
             destruct (nth_error v n)
         | |- context [match to_uint64 ?x with Some _ => _ | None => _ end] =>
             destruct (to_uint64 x)
         end ];
     run).

Lemma deviceTypes_lookup (i : Z) :
  0 <= i < 2 -> exists ty, nth_error deviceTypes (Z.to_nat i) = Some ty.
Proof.
  intros Hi. assert (H : i = 0 \/ i = 1) by lia.
  destruct H as [-> | ->]; eexists; reflexivity.
Qed.

Lemma quiescent_handle r s :
  quiescent s -> quiescent (state_of (handle r s)).
Proof.
  destruct s as [a d rg rn sr f di sp at_ g eg wt].
  unfold quiescent; simpl. intros (-> & -> & H).
  destruct r as [found| |f']; destruct rg, a, d as [d|];
    try destruct found; run; settle; repeat split; intros;
    try discriminate; try congruence;
    try (destruct H as [H1 H2]; [reflexivity|]; congruence).
Qed.

Lemma reachable_quiescent s : reachable s -> quiescent s.
Proof.
  induction 1 as [s Hd Hg Hn Hw|r s _ IH].
  - unfold quiescent. rewrite Hg, Hn, Hw. repeat split; discriminate.
  - apply quiescent_handle, IH.
Qed.

(** A request with a frequency that has a [uint64_t] value keeps the
    instance well formed. *)
Lemma well_formed_handle r s :
  well_formed s -> tunable r -> well_formed (state_of (handle r s)).
Proof.
  destruct s as [a d rg rn sr f di sp at_ g eg wt].
  unfold well_formed; simpl. intros (Hi & Hf & Hs) Ht.
  destruct (to_uint64 f) as [vf|] eqn:Ef; [|congruence].
  destruct (to_uint64 sr) as [vs|] eqn:Es; [|congruence].
  destruct r as [found| |f']; simpl in Ht;
    try (destruct (to_uint64 f') as [vf'|] eqn:Ef'; [|congruence]);
    destruct rg, rn, a, d as [d|], wt;
    try destruct found; run; settle; repeat split;
    try apply Hi; try assumption; rewrite ?Ef, ?Es, ?Ef'; discriminate.
Qed.

(** *** The spawn/join counter *)

(** One handler call from a quiescent, well-formed state: the counter
    stays at most 1 along its trace, ends at the number of threads the
    instance holds, and the call stays inside defined behaviour. *)
Lemma handle_counter r s :
  quiescent s -> well_formed s -> tunable r ->
  peak (threads s) (trace_of (handle r s)) <= 1 /\
  alive (threads s) (trace_of (handle r s)) = threads (state_of (handle r s)) /\
  outcome_of (handle r s) <> Undefined.
Proof.
  destruct s as [a d rg rn sr f di sp at_ g eg wt].
  unfold quiescent, well_formed, threads; simpl.
  intros (-> & -> & H) (Hi & Hf & Hs) Ht.
  destruct (deviceTypes_lookup di Hi) as [ty Hty].
  assert (Hlt : (di <? 0) = false) by (apply Z.ltb_ge; lia).
  destruct (to_uint64 f) as [vf|] eqn:Ef; [|congruence].
  destruct (to_uint64 sr) as [vs|] eqn:Es; [|congruence].
  destruct r as [found| |f']; simpl in Ht;
    try (destruct (to_uint64 f') as [vf'|] eqn:Ef'; [|congruence]);
    destruct rg, a, d as [d|];
    try destruct found; run; settle;
    cbv [peak alive threads_peak threads_alive fold_left thread_count
         is_spawn is_join];
    repeat split; try lia; try discriminate;
    try (destruct H as [H1 H2]; [reflexivity|]; congruence).
Qed.

Lemma handle_all_counter rs s :
  quiescent s -> well_formed s -> Forall tunable rs ->
  peak (threads s) (trace_of (handle_all rs s)) <= 1 /\
  outcome_of (handle_all rs s) <> Undefined.
Proof.
  intros Hq Hw Hrs. unfold handle_all.
  apply (sequence_counter is_spawn is_join
           (fun s => quiescent s /\ well_formed s) threads);
    [|split; assumption|].
  - intros h s' Hin [Hq' Hw']. apply in_map_iff in Hin.
    destruct Hin as (r & <- & Hr).
    pose proof (proj1 (Forall_forall _ _) Hrs r Hr) as Ht.
    split; [split; [apply quiescent_handle, Hq'
                   |apply well_formed_handle; assumption]
           |apply handle_counter; assumption].
  - unfold threads. destruct (workerThread s); lia.
Qed.

(** The counter alone, on any quiescent instance: a lookup outside the
    list of device types or a rate without a [uint64_t] value ends the
    trace where it is, with the counter as it was. *)
Lemma handle_peak r s :
  quiescent s ->
  peak (threads s) (trace_of (handle r s)) <= 1 /\
  (outcome_of (handle r s) <> Undefined ->
   alive (threads s) (trace_of (handle r s)) = threads (state_of (handle r s))).
Proof.
  destruct s as [a d rg rn sr f di sp at_ g eg wt].
  unfold quiescent, threads; simpl.
  intros (-> & -> & H).
  destruct r as [found| |f'];
    destruct rg, a, d as [d|];
    try destruct found; run; settle;
    cbv [peak alive threads_peak threads_alive fold_left thread_count
         is_spawn is_join];
    (split; [|intros Ho]); try lia; try reflexivity;
    try (exfalso; apply Ho; reflexivity);
    try (destruct H as [H1 H2]; [reflexivity|]; congruence).
Qed.

Lemma handle_all_peak rs s :
  quiescent s -> peak (threads s) (trace_of (handle_all rs s)) <= 1.
Proof.
  intros Hq. unfold handle_all.
  apply (sequence_peak is_spawn is_join quiescent threads); [|exact Hq|].
  - intros h s' Hin Hq'. apply in_map_iff in Hin.
    destruct Hin as (r & <- & Hr).
    destruct (handle_peak r s' Hq') as [Hp Ha].
    split; [exact Hp|]. intros Ho.
    split; [apply quiescent_handle, Hq'|exact (Ha Ho)].
  - unfold threads. destruct (workerThread s); lia.
Qed.

(** *** The handlers on a quiescent instance *)

Lemma kc_stop_actions (s : instance) :
  quiescent s -> running s = true ->
  actions (trace_of (stop s)) =
    [RxStop (currentDevice s); StopWriter; Join; ClearWriteStop] /\
  currentDevice s <> None /\
  running (state_of (stop s)) = false /\
  run (state_of (stop s)) = false /\
  workerThread (state_of (stop s)) = false /\
  outcome_of (stop s) = Value tt.
Proof.
  destruct s as [a d rg rn sr f di sp at_ g eg wt].
  unfold quiescent; simpl. intros (-> & -> & H) ->.
  destruct (H eq_refl) as [-> Hd]. destruct d as [d|]; [|congruence].
  run. repeat split. discriminate.
Qed.


Lemma kc_start_noop (found : option sdr_obj) (s : instance) :
  running s = true \/ api s = false ->
  state_of (start found s) = s /\
  actions (trace_of (start found s)) = [] /\
  outcome_of (start found s) = Returned.
Proof.
  destruct s as [a d rg rn sr f di sp at_ g eg wt]. simpl.
  intros [-> | ->]; [|destruct rg]; run; repeat split.
Qed.

(** [start] from a stopped, well-formed instance: it ends running, with
    a worker, exactly when the API table is there and a device is held
    or found; otherwise it returns with an error line written. *)
Lemma kc_start_outcome (found : option sdr_obj) (s : instance) :
  quiescent s -> well_formed s -> running s = false ->
  let ok := api s && (negb (is_null (currentDevice s)) || negb (is_null found)) in
  running (state_of (start found s)) = ok /\
  run (state_of (start found s)) = ok /\
  workerThread (state_of (start found s)) = ok /\
  api (state_of (start found s)) = api s /\
  existsb is_spawn (trace_of (start found s)) = ok /\
  existsb is_error_log (trace_of (start found s)) = negb ok /\
  outcome_of (start found s) = (if ok then Value tt else Returned) /\
  (ok = false -> state_of (start found s) = s) /\
  well_formed (state_of (start found s)).
Proof.
  destruct s as [a d rg rn sr f di sp at_ g eg wt].
  unfold quiescent, well_formed; simpl.
  intros (-> & -> & _) (Hi & Hf & Hs) ->.
  destruct (deviceTypes_lookup di Hi) as [ty Hty].
  assert (Hlt : (di <? 0) = false) by (apply Z.ltb_ge; lia).
  destruct (to_uint64 f) as [vf|] eqn:Ef; [|congruence].
  destruct (to_uint64 sr) as [vs|] eqn:Es; [|congruence].
  destruct a, d as [d|], found as [d'|]; run; settle; repeat split;
    intros; try discriminate; try apply Hi; congruence.
Qed.

(** [start] on a stopped instance that has no API table, or holds no
    device and finds none: it returns with an error line written and the
    instance as it was. *)
Lemma kc_start_error (found : option sdr_obj) (s : instance) :
  quiescent s -> running s = false ->
  api s = false \/
  (currentDevice s = None /\ found = None /\ 0 <= devId s < 2) ->
  state_of (start found s) = s /\
  existsb is_spawn (trace_of (start found s)) = false /\
  existsb is_error_log (trace_of (start found s)) = true /\
  outcome_of (start found s) = Returned.
Proof.
  destruct s as [a d rg rn sr f di sp at_ g eg wt].
  unfold quiescent; simpl. intros (-> & -> & _) ->.
  intros [-> | (-> & -> & Hi)].
  - run. repeat split.
  - destruct (deviceTypes_lookup di Hi) as [ty Hty].
    assert (Hlt : (di <? 0) = false) by (apply Z.ltb_ge; lia).
    destruct a; run; settle; repeat split.
Qed.

End KCSDRFacts.

(** ** KC SDR: the worker *)

Module KCSDRWorkerFacts.
Import KCSDR.

Lemma holds_from_spec (p : Z -> bool) (count : nat) : forall lo z,
  holds_from p count lo = true ->
  lo <= z < lo + Z.of_nat count -> p z = true.
Proof.
  induction count as [|count IH]; intros lo z H Hz; [lia|].
  simpl in H. destruct (p lo) eqn:Hp; [|discriminate].
  destruct (Z.eq_dec z lo) as [->|Hne]; [assumption|].
  apply (IH (lo + 1)); [assumption|lia].
Qed.

Lemma for_all_int16_spec (p : Z -> bool) (z : Z) :
  for_all_int16 p = true -> -32768 <= z <= 32767 -> p z = true.
Proof.
  unfold for_all_int16. intros H Hz.
  assert (Hc : Z.of_nat (Z.to_nat 65536) = 65536) by (apply Z2Nat.id; lia).
  revert H Hc. generalize (Z.to_nat 65536). intros c H Hc.
  apply (holds_from_spec p c (-32768) z H). lia.
Qed.

Lemma length_convert (readBuffer : list Z) :
  Z.of_nat (List.length (convert readBuffer)) = SAMPLES_PER_READ.
Proof.
  unfold convert. rewrite length_map, length_seq, Z2Nat.id; [reflexivity|].
  unfold SAMPLES_PER_READ; lia.
Qed.

Lemma iteration_swap (o : observation) (n : Z) (buf : list complex_t) :
  In (Swap n buf) (fst (iteration o)) ->
  n = SAMPLES_PER_READ /\ exists readBuffer, buf = convert readBuffer.
Proof.
  unfold iteration.
  destruct (run_at_test o), (device o), (read o) as [b|]; simpl;
    intros H; repeat (destruct H as [H|H]; try discriminate); try contradiction.
  inversion H; subst. split; [reflexivity|]. exists b; reflexivity.
Qed.

Lemma loop_swap (os : list observation) (n : Z) (buf : list complex_t) :
  In (Swap n buf) (fst (loop os)) ->
  n = SAMPLES_PER_READ /\ exists readBuffer, buf = convert readBuffer.
Proof.
  induction os as [|o os IH]; simpl; [contradiction|].
  pose proof (iteration_swap o n buf) as Hi.
  destruct (iteration o) as [t [|]]; simpl in *.
  - destruct (loop os) as [t' nx]; simpl in *.
    intros H. apply in_app_or in H. destruct H; auto.
  - assumption.
Qed.

Lemma worker_swap (os : list observation) (n : Z) (buf : list complex_t) :
  In (Swap n buf) (fst (worker os)) -> In (Swap n buf) (fst (loop os)).
Proof.
  unfold worker. destruct (loop os) as [t [|]]; simpl.
  - intros [H|H]; [discriminate|assumption].
  - intros [H|H]; [discriminate|].
    apply in_app_or in H. destruct H as [H|[H|[]]]; [assumption|discriminate].
Qed.

(** The loop has been left exactly when one of its iterations saw a
    shutdown signal. *)
Lemma iteration_exit (o : observation) :
  snd (iteration o) = Exit <-> shutdown_signal o = true.
Proof.
  unfold iteration, shutdown_signal.
  destruct (run_at_test o), (device o), (read o),
    (run_after_failure o), (swap o); simpl; split;
    intros; try reflexivity; try discriminate.
Qed.

Lemma loop_exit (os : list observation) :
  snd (loop os) = Exit <-> existsb shutdown_signal os = true.
Proof.
  induction os as [|o os IH]; simpl; [split; discriminate|].
  pose proof (iteration_exit o) as Hi.
  destruct (iteration o) as [t [|]]; simpl in *.
  - destruct (loop os) as [t' nx]; simpl in *.
    destruct (shutdown_signal o); simpl.
    + destruct Hi as [_ Hi]. specialize (Hi eq_refl). discriminate.
    + exact IH.
  - destruct Hi as [Hi _]. rewrite (Hi eq_refl). simpl. tauto.
Qed.

Lemma worker_exit (os : list observation) :
  snd (worker os) = snd (loop os).
Proof. unfold worker. destruct (loop os) as [t [|]]; reflexivity. Qed.

(** A read that succeeds in an iteration the loop reaches is published
    whole. *)
Lemma iteration_publishes (o : observation) (readBuffer : list Z) :
  run_at_test o = true -> device o <> None -> read o = Some readBuffer ->
  fst (iteration o) =
    [ApiRead (device o) BYTES_PER_READ;
     Swap SAMPLES_PER_READ (convert readBuffer)].
Proof.
  intros Hr Hd Hb. unfold iteration. rewrite Hr, Hb.
  destruct (device o); [reflexivity|congruence].
Qed.

Lemma loop_publishes (pre post : list observation) (o : observation)
    (readBuffer : list Z) :
  existsb shutdown_signal pre = false ->
  run_at_test o = true -> device o <> None -> read o = Some readBuffer ->
  In (Swap SAMPLES_PER_READ (convert readBuffer)) (fst (loop (pre ++ o :: post))).
Proof.
  intros Hpre Hr Hd Hb.
  induction pre as [|x pre IH]; simpl in *.
  - pose proof (iteration_publishes o readBuffer Hr Hd Hb) as Hi.
    destruct (iteration o) as [t [|]]; simpl in *.
    + destruct (loop post) as [t' nx]; simpl. apply in_or_app. left.
      rewrite Hi. right. left. reflexivity.
    + rewrite Hi. right. left. reflexivity.
  - apply orb_false_elim in Hpre. destruct Hpre as [Hx Hpre].
    pose proof (iteration_exit x) as Hi.
    destruct (iteration x) as [t [|]]; simpl in *.
    + specialize (IH Hpre).
      destruct (loop (pre ++ o :: post)) as [t' nx]; simpl in *.
      apply in_or_app. right. exact IH.
    + destruct Hi as [Hi _]. rewrite (Hi eq_refl) in Hx. discriminate.
Qed.

Lemma worker_publishes (os : list observation) (e : wevent) :
  In e (fst (loop os)) -> In e (fst (worker os)).
Proof.
  unfold worker. destruct (loop os) as [t [|]]; simpl; intros H.
  - right. exact H.
  - right. apply in_or_app. left. exact H.
Qed.

End KCSDRWorkerFacts.

(** ** Order of floating-point values *)


(** ** SignalHound: unfolding the handlers *)

Module SignalHoundFacts.
Import SignalHound.

Lemma check_status_run (st : Z) (context : string) (s : instance) :
  check_status st context s = (status_log st context, s, Value (0 <=? st)).
Proof.
  unfold check_status, status_log, bind, when, call, ret.
  destruct (Z.ltb_spec st 0), (Z.ltb_spec 0 st), (Z.leb_spec 0 st);
    try lia; reflexivity.
Qed.

Lemma actions_app (t1 t2 : list event) :
  actions (t1 ++ t2) = actions t1 ++ actions t2.
Proof. apply filter_app. Qed.

Lemma actions_cons (e : event) (t : list event) :
  actions (e :: t) = if is_log e then actions t else e :: actions t.
Proof. unfold actions; simpl. destruct (is_log e); reflexivity. Qed.

Lemma actions_nil : actions [] = [].
Proof. reflexivity. Qed.

Lemma actions_status_log (st : Z) (context : string) :
  actions (status_log st context) = [].
Proof.
  unfold status_log. destruct (st <? 0), (0 <? st); reflexivity.
Qed.


Lemma configured_bw_actions (t : list event) :
  configured_bw (actions t) = configured_bw t.
Proof.
  induction t as [|e t IH]; [reflexivity|].
  rewrite actions_cons. destruct e; simpl; rewrite ?IH; reflexivity.
Qed.

Lemma existsb_actions (p : event -> bool) (t : list event) :
  (forall l m, p (Log l m) = false) ->
  existsb p (actions t) = existsb p t.
Proof.
  intros Hp. induction t as [|e t IH]; [reflexivity|].
  rewrite actions_cons. destruct e; simpl; rewrite ?IH, ?Hp; reflexivity.
Qed.

Ltac run_in E :=
  cbv [start stop tune restartStreamWithNewParams updateBandwidth
       configure spawn_rx close_device at_
       bind ret get modify call return_ undefined when
       negb andb orb fst snd
       running rxThread deviceHandle freq selectedSerial decimationId
       bandwidthHz refLevel gain attenuation actualSampleRate
       set_running set_rxThread set_deviceHandle set_freq set_bandwidthHz
       set_actualSampleRate
       open_status opened_handle refLevel_status gainAtten_status
       iqCenter_status configureIQ_status initiate_status query_status
       actual_sample_rate actual_bw] in E.

(** Resolve the next step of the handler whose result is [E]: the
    verdict of [check_status], a table lookup, or a test, which a
    hypothesis decides or which is split in two cases. *)
Ltac branch_in E :=
  first
    [ rewrite check_status_run in E
    | match goal with
      | H : ?b = _ |- _ =>
          match type of E with
          | context [if b then _ else _] => rewrite H in E
          | context [match b with Some _ => _ | None => _ end] => rewrite H in E
          end
      end
    | match type of E with
      | context [if ?b then _ else _] =>
          lazymatch b with
          | context [if _ then _ else _] => fail
          | _ => let Hb := fresh "Hb" in
                 destruct b eqn:Hb; try rewrite Hb in E
          end
      end ].

(** Log messages play no part in what follows: name them. *)
Ltac hide_messages E :=
  unfold handle, tune, updateBandwidth, start, stop,
    restartStreamWithNewParams, configure in E;
  repeat match type of E with
    | context [String ?c ?m] =>
        let msg := fresh "msg" in
        set (msg := String c m) in E; clearbody msg
    end.

Ltac run_all E := hide_messages E; run_in E; repeat (branch_in E; run_in E).

(** The calls of a computed trace that are not log lines. *)
Ltac actions_of :=
  cbn [trace_of state_of outcome_of fst snd app];
  repeat (rewrite ?actions_app, ?actions_cons, ?actions_nil,
            ?actions_status_log;
          cbn [is_log app]).

(** Every tier's maximum is above the 200 Hz minimum and is a binary32
    value: storing it in [bandwidthHz] does not round. *)
Lemma maxBandwidths_exact (M : double) :
  In M maxBandwidths ->
  f64_lt (f64_of_Z 200) M = true /\ f64_of_f32 (f32_of_f64 M) = M.
Proof.
  revert M. apply Forall_forall.
  repeat constructor; vm_compute; reflexivity.
Qed.




Lemma status_log_error (st : Z) (context : string) :
  existsb is_error_log (status_log st context) = negb (0 <=? st).
Proof.
  unfold status_log.
  destruct (Z.ltb_spec st 0), (Z.ltb_spec 0 st), (Z.leb_spec 0 st);
    try lia; reflexivity.
Qed.

(** Whether a computed trace holds an error line. *)
Ltac errors_of :=
  cbn [trace_of state_of outcome_of fst snd app];
  repeat (rewrite ?existsb_app, ?status_log_error;
          cbn [existsb is_error_log orb app]).

Ltac decide_statuses :=
  cbv [start_ok restart_ok configured_ok open_status refLevel_status
       gainAtten_status iqCenter_status configureIQ_status initiate_status
       query_status actual_sample_rate];
  repeat match goal with
    | H : (0 <=? _) = _ |- _ => rewrite !H; clear H
    end.

(** [start] from a stopped instance: it ends running, with a worker,
    exactly when no vendor call reports an error; otherwise it returns
    with an error line written, no thread, and the instance stopped. *)
Lemma start_outcome (d : answers) (s : instance) (M : double) :
  running s = false -> rxThread s = false -> selectedSerial s <> 0 ->
  0 <= decimationId s ->
  nth_error maxBandwidths (Z.to_nat (decimationId s)) = Some M ->
  forall r, start d s = r ->
  running (state_of r) = start_ok d /\
  rxThread (state_of r) = start_ok d /\
  selectedSerial (state_of r) = selectedSerial s /\
  decimationId (state_of r) = decimationId s /\
  existsb is_spawn (actions (trace_of r)) = start_ok d /\
  existsb is_error_log (trace_of r) = negb (start_ok d) /\
  notified (actions (trace_of r)) =
    (if start_ok d then [actual_sample_rate d] else []) /\
  outcome_of r = (if start_ok d then Value tt else Returned).
Proof.
  intros Hr Ht Hs Hd HM r E.
  destruct s as [rg th h f ser dec bw ref g a rate].
  destruct d as [os oh s1 s2 s3 s4 s5 s6 ar ab].
  cbv [running rxThread selectedSerial decimationId] in *.
  subst rg th. apply Z.eqb_neq in Hs. apply Z.ltb_ge in Hd.
  run_all E; subst r; errors_of; actions_of; decide_statuses;
    repeat split; reflexivity.
Qed.

(** [restartStreamWithNewParams] on a running instance: the worker is
    stopped and joined and the stream aborted; the instance runs again,
    with a new worker, exactly when the configuration calls and
    [bbInitiate] report no error. *)
Lemma restart_outcome (d : answers) (reason : string) (s : instance) (M : double) :
  running s = true -> rxThread s = true -> deviceHandle s <> -1 ->
  0 <= decimationId s ->
  nth_error maxBandwidths (Z.to_nat (decimationId s)) = Some M ->
  forall r, restartStreamWithNewParams d reason s = r ->
  running (state_of r) = restart_ok d /\
  rxThread (state_of r) = restart_ok d /\
  firstn 3 (actions (trace_of r)) = [StopWriter; Join; BbAbort (deviceHandle s)] /\
  existsb is_spawn (actions (trace_of r)) = restart_ok d /\
  existsb is_clearWriteStop (actions (trace_of r)) = restart_ok d /\
  last (actions (trace_of r)) StopWriter =
    (if restart_ok d then Spawn else last (actions (trace_of r)) StopWriter) /\
  notified (actions (trace_of r)) =
    (if restart_ok d && (0 <=? query_status d)
     then [actual_sample_rate d] else []) /\
  outcome_of r = (if restart_ok d then Value tt else Returned).
Proof.
  intros Hr Ht Hh Hd HM r E.
  destruct s as [rg th h f ser dec bw ref g a rate].
  destruct d as [os oh s1 s2 s3 s4 s5 s6 ar ab].
  cbv [running rxThread deviceHandle decimationId] in *.
  subst rg th. apply Z.eqb_neq in Hh. apply Z.ltb_ge in Hd.
  run_all E; subst r; actions_of; decide_statuses;
    repeat split; reflexivity.
Qed.

(** What a restart reports: an error line exactly when a vendor call
    reports an error, and the queried rate kept exactly when none
    does. *)
Lemma restart_report (d : answers) (reason : string) (s : instance) (M : double) :
  running s = true -> rxThread s = true -> deviceHandle s <> -1 ->
  0 <= decimationId s ->
  nth_error maxBandwidths (Z.to_nat (decimationId s)) = Some M ->
  forall r, restartStreamWithNewParams d reason s = r ->
  existsb is_error_log (trace_of r) =
    negb (restart_ok d && (0 <=? query_status d)) /\
  actualSampleRate (state_of r) =
    (if restart_ok d && (0 <=? query_status d)
     then actual_sample_rate d else actualSampleRate s).
Proof.
  intros Hr Ht Hh Hd HM r E.
  destruct s as [rg th h f ser dec bw ref g a rate].
  destruct d as [os oh s1 s2 s3 s4 s5 s6 ar ab].
  cbv [running rxThread deviceHandle decimationId] in *.
  subst rg th. apply Z.eqb_neq in Hh. apply Z.ltb_ge in Hd.
  run_all E; subst r; errors_of; decide_statuses;
    cbv [actualSampleRate state_of fst snd];
    repeat split; reflexivity.
Qed.

Lemma stop_actions (s : instance) :
  running s = true -> rxThread s = true -> deviceHandle s <> -1 ->
  actions (trace_of (stop s)) =
    [StopWriter; Join; BbAbort (deviceHandle s);
     BbCloseDevice (deviceHandle s); ClearWriteStop] /\
  running (state_of (stop s)) = false /\
  rxThread (state_of (stop s)) = false /\
  outcome_of (stop s) = Value tt.
Proof.
  intros Hr Ht Hh.
  destruct s as [rg th h f ser dec bw ref g a rate].
  cbv [running rxThread deviceHandle] in *.
  subst rg th. apply Z.eqb_neq in Hh.
  remember (stop _) as r eqn:E. symmetry in E.
  run_all E; subst r; actions_of; repeat split; reflexivity.
Qed.



Lemma maxBandwidths_lookup (i : Z) :
  0 <= i < 14 -> exists M, nth_error maxBandwidths (Z.to_nat i) = Some M.
Proof.
  intros Hi. destruct (nth_error maxBandwidths (Z.to_nat i)) as [M|] eqn:E.
  - exists M. reflexivity.
  - apply nth_error_None in E. unfold maxBandwidths in E.
    rewrite length_map in E. simpl in E. lia.
Qed.

Lemma start_noop (d : answers) (s : instance) :
  running s = true \/ selectedSerial s = 0 ->
  start d s = ([], s, Returned).
Proof.
  intros H.
  assert (Hc : running s || (selectedSerial s =? 0) = true).
  { destruct H as [->| ->]; [reflexivity|apply orb_true_r]. }
  unfold start, bind, get, when. rewrite Hc. reflexivity.
Qed.

(** *** The spawn/join counter *)

Lemma peak_actions (n : Z) (t : list event) : peak n (actions t) = peak n t.
Proof.
  revert n. induction t as [|e t IH]; intro n; [reflexivity|].
  rewrite actions_cons. unfold peak in *.
  destruct e; simpl; rewrite ?IH; try reflexivity.
  pose proof (peak_ge is_spawn is_join n t).
  unfold thread_count; simpl. lia.
Qed.

Lemma alive_actions (n : Z) (t : list event) : alive n (actions t) = alive n t.
Proof.
  revert n. induction t as [|e t IH]; intro n; [reflexivity|].
  rewrite actions_cons. unfold alive, threads_alive in *.
  destruct e; simpl; rewrite ?IH; reflexivity.
Qed.

(** One handler call from a quiescent state: the state it leaves is
    quiescent, the counter stays at most 1 along its trace and ends at the
    number of threads the instance holds, and the call stays inside
    defined behaviour. *)
Lemma bb_handle_counter (q : request) (s : instance) :
  quiescent s ->
  forall r, handle q s = r ->
  quiescent (state_of r) /\
  peak (threads s) (trace_of r) <= 1 /\
  alive (threads s) (trace_of r) = threads (state_of r) /\
  outcome_of r <> Undefined.
Proof.
  intros [Ht Hd] r E.
  destruct (maxBandwidths_lookup _ Hd) as [M HM].
  assert (Hd0 : (decimationId s <? 0) = false) by (apply Z.ltb_ge; lia).
  destruct s as [rg th h f ser dec bw ref g a rate].
  cbv [rxThread running decimationId] in *. subst th.
  destruct q as [d| |d f'|d reason];
    try destruct d as [os oh s1 s2 s3 s4 s5 s6 ar ab];
    destruct rg;
    run_all E; subst r;
    rewrite <- peak_actions, <- alive_actions; actions_of;
    cbv [quiescent threads peak alive threads_peak threads_alive fold_left
         thread_count is_spawn is_join rxThread running decimationId];
    repeat split; try lia; try discriminate.
Qed.

Lemma bb_handle_all_counter (rs : list request) (s : instance) :
  quiescent s ->
  peak (threads s) (trace_of (handle_all rs s)) <= 1 /\
  outcome_of (handle_all rs s) <> Undefined.
Proof.
  intros Hq. unfold handle_all.
  apply (sequence_counter is_spawn is_join quiescent threads); [|exact Hq|].
  - intros h s' Hin Hq'. apply in_map_iff in Hin.
    destruct Hin as (r & <- & _).
    apply (bb_handle_counter r s' Hq' _ eq_refl).
  - unfold threads. destruct (rxThread s); lia.
Qed.

End SignalHoundFacts.

(** ** SignalHound: the worker *)

Module SignalHoundWorkerFacts.
Import SignalHound.

Section Worker.
Variables bbNoError bbDeviceNotStreamingErr : Z.

Local Abbreviation iteration := (iteration bbNoError bbDeviceNotStreamingErr).
Local Abbreviation loop := (loop bbNoError bbDeviceNotStreamingErr).
Local Abbreviation rx_thread_func :=
  (rx_thread_func bbNoError bbDeviceNotStreamingErr).
Local Abbreviation shutdown_signal := (shutdown_signal bbNoError).
Local Abbreviation fatal_error :=
  (fatal_error bbNoError bbDeviceNotStreamingErr).

Lemma rx_iteration_exit (o : observation) :
  snd (iteration o) = Exit <->
  shutdown_signal o || fatal_error o = true.
Proof.
  unfold SignalHound.iteration, SignalHound.shutdown_signal,
    SignalHound.fatal_error.
  destruct (running_at_test o), (status o =? bbNoError),
    (status o =? bbDeviceNotStreamingErr), (0 <? iqCount o),
    (iqCount o <=? bufferSize), (swap o); simpl; split;
    intros; try reflexivity; try discriminate.
Qed.

Lemma rx_loop_exit (os : list observation) :
  snd (loop os) = Exit <->
  existsb (fun o => shutdown_signal o || fatal_error o) os = true.
Proof.
  induction os as [|o os IH]; simpl; [split; discriminate|].
  pose proof (rx_iteration_exit o) as Hi.
  destruct (iteration o) as [t [|]]; simpl in *.
  - destruct (loop os) as [t' nx]; simpl in *.
    destruct (shutdown_signal o || fatal_error o); simpl.
    + destruct Hi as [_ Hi]. specialize (Hi eq_refl). discriminate.
    + exact IH.
  - destruct Hi as [Hi _]. rewrite (Hi eq_refl). simpl. tauto.
Qed.

Lemma rx_thread_exit (os : list observation) :
  snd (rx_thread_func os) = snd (loop os).
Proof.
  unfold SignalHound.rx_thread_func.
  destruct (loop os) as [t [|]]; reflexivity.
Qed.

Lemma rx_read_failure (o : observation) :
  running_at_test o = true -> status o <> bbNoError ->
  (status o = bbDeviceNotStreamingErr ->
     iteration o =
       ([BbGetIQ (device_handle o) (purgeIQ o);
         WLog Warn "SignalHound BB: Device not streaming, retrying...";
         Sleep 10], Continue)) /\
  (status o <> bbDeviceNotStreamingErr ->
     iteration o =
       ([BbGetIQ (device_handle o) (purgeIQ o);
         WLog Error "SignalHound BB: bbGetIQ failed: {0}"], Exit)).
Proof.
  intros Hr Hs. unfold SignalHound.iteration. rewrite Hr.
  apply Z.eqb_neq in Hs. rewrite Hs. simpl. split; intros Hn.
  - apply Z.eqb_eq in Hn. rewrite Hn. reflexivity.
  - apply Z.eqb_neq in Hn. rewrite Hn. reflexivity.
Qed.

End Worker.

End SignalHoundWorkerFacts.

(** * The claims *)

Import KCSDRFacts KCSDRWorkerFacts SignalHoundFacts SignalHoundWorkerFacts.
Import Examples.

(** C1, as stated, fails — In the SignalHound module [stop] on a running
    instance signals stop on the channel and joins the worker first, and
    halts the device ([bbAbort]) afterwards: the device halt precedes
    neither [stopWriter] nor the join. *)
Lemma stop_order_counterexample :
  SignalHound.running bb_running = true /\
  SignalHound.actions (trace_of (SignalHound.stop bb_running)) =
    [SignalHound.StopWriter; SignalHound.Join; SignalHound.BbAbort 7;
     SignalHound.BbCloseDevice 7; SignalHound.ClearWriteStop] /\
  precedes SignalHound.is_halt SignalHound.is_stopWriter
    (trace_of (SignalHound.stop bb_running)) = false /\
  precedes SignalHound.is_halt SignalHound.is_join
    (trace_of (SignalHound.stop bb_running)) = false.
Proof. vm_compute. repeat split. Qed.

(** C1, amended — [stop] on a running instance makes its calls in a fixed
    order.  KC SDR: halt the device stream ([rx_stop]), signal stop on the
    channel ([stopWriter]), join the worker, reset the channel
    ([clearWriteStop]).  SignalHound: signal stop on the channel, join the
    worker, halt and close the device ([bbAbort], [bbCloseDevice]), reset
    the channel.  In both the channel stop precedes the join and the join
    precedes the reset, and the instance is left not running with no
    thread to join. *)
Theorem stop_order (ks : KCSDR.instance) (ss : SignalHound.instance) :
  (KCSDR.reachable ks -> KCSDR.running ks = true ->
     KCSDR.actions (trace_of (KCSDR.stop ks)) =
       [KCSDR.RxStop (KCSDR.currentDevice ks); KCSDR.StopWriter;
        KCSDR.Join; KCSDR.ClearWriteStop] /\
     KCSDR.currentDevice ks <> None /\
     KCSDR.running (state_of (KCSDR.stop ks)) = false /\
     KCSDR.workerThread (state_of (KCSDR.stop ks)) = false) /\
  (SignalHound.running ss = true -> SignalHound.rxThread ss = true ->
   SignalHound.deviceHandle ss <> -1 ->
     SignalHound.actions (trace_of (SignalHound.stop ss)) =
       [SignalHound.StopWriter; SignalHound.Join;
        SignalHound.BbAbort (SignalHound.deviceHandle ss);
        SignalHound.BbCloseDevice (SignalHound.deviceHandle ss);
        SignalHound.ClearWriteStop] /\
     SignalHound.running (state_of (SignalHound.stop ss)) = false /\
     SignalHound.rxThread (state_of (SignalHound.stop ss)) = false).
Proof.
  split.
  - intros Hr Hg. apply reachable_quiescent in Hr.
    destruct (kc_stop_actions ks Hr Hg) as (Ha & Hd & Hg' & _ & Hw & _).
    auto.
  - intros Hg Ht Hh.
    destruct (stop_actions ss Hg Ht Hh) as (Ha & Hg' & Ht' & _). auto.
Qed.

Lemma stop_order_witness :
  KCSDR.actions (trace_of (KCSDR.stop kc_running)) =
    [KCSDR.RxStop (KCSDR.currentDevice kc_running); KCSDR.StopWriter;
     KCSDR.Join; KCSDR.ClearWriteStop] /\
  SignalHound.actions (trace_of (SignalHound.stop bb_running)) =
    [SignalHound.StopWriter; SignalHound.Join;
     SignalHound.BbAbort (SignalHound.deviceHandle bb_running);
     SignalHound.BbCloseDevice (SignalHound.deviceHandle bb_running);
     SignalHound.ClearWriteStop].
Proof.
  destruct (stop_order kc_running bb_running) as [Hk Hs].
  split.
  - refine (proj1 (Hk _ _)).
    + exact (KCSDR.reachable_handle (KCSDR.Start (Some 3)) kc_stopped
               (KCSDR.reachable_loaded kc_stopped
                  eq_refl eq_refl eq_refl eq_refl)).
    + vm_compute. reflexivity.
  - refine (proj1 (Hs _ _ _)).
    + vm_compute. reflexivity.
    + vm_compute. reflexivity.
    + vm_compute. discriminate.
Defined.




(** C3, as stated, fails — In the SignalHound worker a failed read with
    [running] true and no [swap] reporting stop ends the loop when the
    status is any error other than [bbDeviceNotStreamingErr]. *)
Lemma worker_retry_counterexample :
  SignalHound.running_at_test bb_read_error = true /\
  SignalHound.read_failed 0 bb_read_error = true /\
  SignalHound.shutdown_signal 0 bb_read_error = false /\
  SignalHound.rx_thread_func 0 (-2) [bb_read_error] =
    ([SignalHound.WLog Info "SignalHound BB: RX thread started";
      SignalHound.BbGetIQ 7 false;
      SignalHound.WLog Error "SignalHound BB: bbGetIQ failed: {0}";
      SignalHound.WLog Info "SignalHound BB: RX thread stopped"],
     SignalHound.Exit).
Proof. vm_compute. repeat split. Qed.

(** C3, amended — KC SDR worker: a failed read while [run] is true is
    retried without a log line or a [swap], and the loop is left exactly
    when an iteration sees [run] false (at the loop test or after a failed
    read) or [swap] reporting stop, whatever the number of failed reads.
    SignalHound worker: a failed read with status
    [bbDeviceNotStreamingErr] is retried after a warning and a 10 ms
    sleep; a failed read with another error status (a negative code) is
    logged as an error and ends the loop; and when every read reports
    success or an error status, the loop is left exactly when an
    iteration sees [running] false, [swap] reporting stop, or an error
    status other than [bbDeviceNotStreamingErr]. *)
Theorem worker_termination
    (o : KCSDR.observation) (os : list KCSDR.observation)
    (bbNoError bbDeviceNotStreamingErr : Z)
    (b : SignalHound.observation) (bs : list SignalHound.observation) :
  (KCSDR.run_at_test o = true -> KCSDR.read_failed o = true ->
   KCSDR.run_after_failure o = true ->
     KCSDR.iteration o = ([KCSDR.ApiRead (KCSDR.device o) 65536], KCSDR.Continue)) /\
  (snd (KCSDR.worker os) = KCSDR.Exit <->
     existsb KCSDR.shutdown_signal os = true) /\
  (SignalHound.running_at_test b = true ->
   SignalHound.status b <> bbNoError ->
   SignalHound.status b = bbDeviceNotStreamingErr ->
     SignalHound.iteration bbNoError bbDeviceNotStreamingErr b =
       ([SignalHound.BbGetIQ (SignalHound.device_handle b) (SignalHound.purgeIQ b);
         SignalHound.WLog Warn "SignalHound BB: Device not streaming, retrying...";
         SignalHound.Sleep 10], SignalHound.Continue)) /\
  (SignalHound.running_at_test b = true ->
   SignalHound.status b <> bbNoError -> SignalHound.status b < 0 ->
   SignalHound.status b <> bbDeviceNotStreamingErr ->
     SignalHound.iteration bbNoError bbDeviceNotStreamingErr b =
       ([SignalHound.BbGetIQ (SignalHound.device_handle b) (SignalHound.purgeIQ b);
         SignalHound.WLog Error "SignalHound BB: bbGetIQ failed: {0}"],
        SignalHound.Exit)) /\
  ((forall x, In x bs ->
      SignalHound.status x = bbNoError \/ SignalHound.status x < 0) ->
   (snd (SignalHound.rx_thread_func bbNoError bbDeviceNotStreamingErr bs)
      = SignalHound.Exit <->
    exists x, In x bs /\
      (SignalHound.shutdown_signal bbNoError x = true \/
       (SignalHound.running_at_test x = true /\
        SignalHound.status x <> bbNoError /\ SignalHound.status x < 0 /\
        SignalHound.status x <> bbDeviceNotStreamingErr)))).
Proof.
  split; [|split; [|split; [|split]]].
  - unfold KCSDR.read_failed, KCSDR.iteration. intros -> Hf ->.
    destruct (KCSDR.is_null (KCSDR.device o)); [discriminate|].
    destruct (KCSDR.read o); [discriminate|]. reflexivity.
  - rewrite worker_exit. apply loop_exit.
  - intros Hr Hs Hn.
    apply (proj1 (rx_read_failure _ _ b Hr Hs) Hn).
  - intros Hr Hs _ Hn.
    apply (proj2 (rx_read_failure _ _ b Hr Hs) Hn).
  - intros Hst. rewrite rx_thread_exit, rx_loop_exit, existsb_exists.
    split; intros (x & Hin & Hx); exists x; (split; [exact Hin|]).
    + apply orb_prop in Hx. destruct Hx as [Hx|Hx]; [left; exact Hx|right].
      unfold SignalHound.fatal_error in Hx.
      apply andb_prop in Hx. destruct Hx as [Hx H3].
      apply andb_prop in Hx. destruct Hx as [H1 H2].
      apply negb_true_iff, Z.eqb_neq in H2, H3.
      split; [exact H1|split; [exact H2|split; [|exact H3]]].
      destruct (Hst x Hin) as [E|E]; [contradiction|exact E].
    + destruct Hx as [Hx|(H1 & H2 & _ & H3)];
        [rewrite Hx; reflexivity|].
      unfold SignalHound.fatal_error.
      apply Z.eqb_neq in H2, H3. rewrite H1, H2, H3. apply orb_true_r.
Qed.

Lemma worker_termination_witness :
  KCSDR.iteration kc_read_timeout =
    ([KCSDR.ApiRead (KCSDR.device kc_read_timeout) 65536], KCSDR.Continue) /\
  SignalHound.iteration 0 (-2) bb_not_streaming =
    ([SignalHound.BbGetIQ (SignalHound.device_handle bb_not_streaming)
        (SignalHound.purgeIQ bb_not_streaming);
      SignalHound.WLog Warn "SignalHound BB: Device not streaming, retrying...";
      SignalHound.Sleep 10], SignalHound.Continue) /\
  SignalHound.iteration 0 (-2) bb_read_error =
    ([SignalHound.BbGetIQ (SignalHound.device_handle bb_read_error)
        (SignalHound.purgeIQ bb_read_error);
      SignalHound.WLog Error "SignalHound BB: bbGetIQ failed: {0}"],
     SignalHound.Exit) /\
  snd (SignalHound.rx_thread_func 0 (-2) [bb_not_streaming; bb_read_error])
    = SignalHound.Exit.
Proof.
  destruct (worker_termination kc_read_timeout [] 0 (-2) bb_not_streaming
              [bb_not_streaming; bb_read_error])
    as (Hk & _ & Hs & _ & Hl).
  destruct (worker_termination kc_read_timeout [] 0 (-2) bb_read_error [])
    as (_ & _ & _ & He & _).
  split; [|split; [|split]].
  - apply Hk; reflexivity.
  - apply Hs; [reflexivity|discriminate|reflexivity].
  - apply He; [reflexivity|discriminate|reflexivity|discriminate].
  - apply Hl.
    + intros x [<-|[<-|[]]]; right; reflexivity.
    + exists bb_read_error. split; [right; left; reflexivity|].
      right. split; [reflexivity|].
      split; [discriminate|split; [reflexivity|discriminate]].
Defined.

(** C4 — [start] on an instance that is already running, or whose device
    layer is not there (KC SDR: [kcsdr_init] gave no API table;
    SignalHound: no serial number is selected), does nothing: no device
    call, no thread, and the instance is left as it was.  The KC SDR
    module writes an error line when the API table is missing. *)
Theorem start_is_noop
    (found : option KCSDR.sdr_obj) (d : SignalHound.answers)
    (ks : KCSDR.instance) (ss : SignalHound.instance) :
  (KCSDR.running ks = true \/ KCSDR.api ks = false ->
     state_of (KCSDR.start found ks) = ks /\
     KCSDR.actions (trace_of (KCSDR.start found ks)) = [] /\
     outcome_of (KCSDR.start found ks) = Returned) /\
  (SignalHound.running ss = true \/ SignalHound.selectedSerial ss = 0 ->
     SignalHound.start d ss = ([], ss, Returned)).
Proof.
  split.
  - apply kc_start_noop.
  - apply start_noop.
Qed.

Lemma start_is_noop_witness :
  (state_of (KCSDR.start (Some 4) kc_running) = kc_running /\
   KCSDR.actions (trace_of (KCSDR.start (Some 4) kc_running)) = [] /\
   outcome_of (KCSDR.start (Some 4) kc_running) = Returned) /\
  (state_of (KCSDR.start (Some 4) kc_no_api) = kc_no_api /\
   KCSDR.actions (trace_of (KCSDR.start (Some 4) kc_no_api)) = [] /\
   outcome_of (KCSDR.start (Some 4) kc_no_api) = Returned) /\
  SignalHound.start bb_accepts bb_running = ([], bb_running, Returned).
Proof.
  split; [|split].
  - apply (proj1 (start_is_noop (Some 4) bb_accepts kc_running bb_running)).
    left. vm_compute. reflexivity.
  - apply (proj1 (start_is_noop (Some 4) bb_accepts kc_no_api bb_running)).
    right. reflexivity.
  - apply (proj2 (start_is_noop (Some 4) bb_accepts kc_running bb_running)).
    left. vm_compute. reflexivity.
Defined.

(** C5 — At most one worker: over every finite sequence of handler calls
    on a freshly constructed instance ([start], [stop] and [tune] for the
    KC SDR module; [start], [stop], [tune] and reconfigure for the
    SignalHound module), the number of worker threads spawned and not yet
    joined is at most 1 at every point of the trace of calls.  For the
    KC SDR module this holds of every such instance and sequence; and no
    call leaves defined behaviour (in particular no thread is assigned
    to a joinable handle) when [devId] is an index of [deviceTypes] and
    the sample rate, the frequency held and the frequencies tuned to
    have a [uint64_t] value.  For the SignalHound module the instance
    holds an index of [maxBandwidths] in [decimationId], and no call
    leaves defined behaviour. *)
Theorem at_most_one_worker
    (rs : list KCSDR.request) (s : KCSDR.instance) (t1 t2 : list KCSDR.event)
    (bs : list SignalHound.request) (b : SignalHound.instance)
    (u1 u2 : list SignalHound.event) :
  (KCSDR.currentDevice s = None -> KCSDR.running s = false ->
   KCSDR.run s = false -> KCSDR.workerThread s = false ->
   trace_of (KCSDR.handle_all rs s) = t1 ++ t2 ->
     KCSDR.alive 0 t1 <= 1 /\
     (KCSDR.well_formed s -> Forall KCSDR.tunable rs ->
      outcome_of (KCSDR.handle_all rs s) <> Undefined)) /\
  (SignalHound.running b = false -> SignalHound.rxThread b = false ->
   0 <= SignalHound.decimationId b < 14 ->
   trace_of (SignalHound.handle_all bs b) = u1 ++ u2 ->
     SignalHound.alive 0 u1 <= 1 /\
     outcome_of (SignalHound.handle_all bs b) <> Undefined).
Proof.
  split.
  - intros Hd Hg Hn Hw Ht.
    assert (Hq : KCSDR.quiescent s).
    { apply reachable_quiescent. constructor; assumption. }
    split.
    + pose proof (handle_all_peak rs s Hq) as Hp.
      unfold KCSDR.threads in Hp. rewrite Hw, Ht in Hp.
      pose proof (alive_le_peak KCSDR.is_spawn KCSDR.is_join 0 t1 t2).
      unfold KCSDR.alive, KCSDR.peak in *. lia.
    + intros Hwf Hrs. exact (proj2 (handle_all_counter rs s Hq Hwf Hrs)).
  - intros Hg Hw Hd Ht.
    assert (Hq : SignalHound.quiescent b).
    { split; [rewrite Hg, Hw; reflexivity|exact Hd]. }
    destruct (bb_handle_all_counter bs b Hq) as [Hp Ho].
    unfold SignalHound.threads in Hp. rewrite Hw, Ht in Hp.
    split; [|assumption].
    pose proof (alive_le_peak SignalHound.is_spawn SignalHound.is_join 0 u1 u2).
    unfold SignalHound.alive, SignalHound.peak in *. lia.
Qed.

Lemma at_most_one_worker_witness :
  (KCSDR.alive 0
     (firstn 14 (trace_of (KCSDR.handle_all kc_requests kc_stopped))) <= 1 /\
   outcome_of (KCSDR.handle_all kc_requests kc_stopped) <> Undefined) /\
  (SignalHound.alive 0
     (firstn 20 (trace_of (SignalHound.handle_all bb_requests bb_stopped))) <= 1 /\
   outcome_of (SignalHound.handle_all bb_requests bb_stopped) <> Undefined).
Proof.
  destruct (at_most_one_worker
              kc_requests kc_stopped
              (firstn 14 (trace_of (KCSDR.handle_all kc_requests kc_stopped)))
              (skipn 14 (trace_of (KCSDR.handle_all kc_requests kc_stopped)))
              bb_requests bb_stopped
              (firstn 20 (trace_of (SignalHound.handle_all bb_requests bb_stopped)))
              (skipn 20 (trace_of (SignalHound.handle_all bb_requests bb_stopped))))
    as [Hk Hs].
  split.
  - destruct (Hk eq_refl eq_refl eq_refl eq_refl) as [Ha Ho].
    + symmetry. apply firstn_skipn.
    + split; [exact Ha|]. apply Ho.
      * split; [split; [discriminate|reflexivity]|split; discriminate].
      * repeat constructor; discriminate.
  - apply (Hs eq_refl eq_refl (conj (Zle_0_pos 6) eq_refl)).
    symmetry. apply firstn_skipn.
Defined.

(** C6 — Normalisation in the KC SDR worker multiplies each raw 16-bit
    value by the one binary32 constant [1.0f / 32767.0f]: raw 32767 gives
    exactly 1.0, raw 0 gives exactly +0.0, raw -32768 gives a value within
    one quantisation step (1/32767) of -1.0, every raw value gives a finite
    result within 2^-24 of [raw / 32767] and (but for -32768, whose
    opposite is no [int16_t]) the opposite raw value gives the opposite
    result; sample [i] of the batch is that function of the raw values at
    [2 i] and [2 i + 1] and of nothing else. *)
Theorem normalization_correct (raw : Z) (readBuffer : list Z) (i : nat) :
  KCSDR.normalize 32767 = f32_of_Z 1 /\
  (to_Q (KCSDR.normalize 32767) == 1)%Q /\
  KCSDR.normalize 0 = S754_zero false /\
  (Qabs (to_Q (KCSDR.normalize (-32768)) - (-1)) <= 1 # 32767)%Q /\
  (-32768 <= raw <= 32767 ->
     is_finite (KCSDR.normalize raw) = true /\
     (Qabs (to_Q (KCSDR.normalize raw) - inject_Z raw / 32767) <= 1 # 16777216)%Q) /\
  (-32767 <= raw <= 32767 ->
     SFeqb (KCSDR.normalize (- raw)) (SFopp (KCSDR.normalize raw)) = true) /\
  (Z.of_nat i < 16384 ->
     nth_error (KCSDR.convert readBuffer) i =
       Some (KCSDR.normalize (nth (i * 2) readBuffer 0),
             KCSDR.normalize (nth (i * 2 + 1) readBuffer 0))).
Proof.
  split; [vm_compute; reflexivity|].
  split; [vm_compute; reflexivity|].
  split; [vm_compute; reflexivity|].
  split; [apply Qle_bool_iff; vm_compute; reflexivity|].
  split; [|split].
  - intros H.
    assert (H0 : KCSDR.for_all_int16 (KCSDR.close_to_linear (1 # 16777216)) = true)
      by (vm_compute; reflexivity).
    apply (for_all_int16_spec _ raw H0) in H.
    unfold KCSDR.close_to_linear in H. apply andb_prop in H.
    destruct H as [Hf Hq]. split; [exact Hf|].
    apply Qle_bool_iff. exact Hq.
  - intros H.
    assert (H0 : KCSDR.for_all_int16
                   (fun z => (z =? -32768) || KCSDR.odd_at z) = true)
      by (vm_compute; reflexivity).
    assert (Hr : -32768 <= raw <= 32767) by lia.
    apply (for_all_int16_spec _ raw H0) in Hr.
    apply orb_prop in Hr. destruct Hr as [Hr|Hr]; [|exact Hr].
    apply Z.eqb_eq in Hr. lia.
  - intros Hi. unfold KCSDR.convert.
    rewrite nth_error_map, nth_error_seq.
    assert (Hlt : (i <? Z.to_nat KCSDR.SAMPLES_PER_READ)%nat = true).
    { apply Nat.ltb_lt. unfold KCSDR.SAMPLES_PER_READ.
      apply Nat2Z.inj_lt. rewrite Z2Nat.id by lia. exact Hi. }
    rewrite Hlt. reflexivity.
Qed.

Lemma normalization_correct_witness :
  (is_finite (KCSDR.normalize 12345) = true /\
   (Qabs (to_Q (KCSDR.normalize 12345) - inject_Z 12345 / 32767)
      <= 1 # 16777216)%Q) /\
  SFeqb (KCSDR.normalize (- 12345)) (SFopp (KCSDR.normalize 12345)) = true /\
  nth_error (KCSDR.convert [100; -100; 32767; -32768]) 1 =
    Some (KCSDR.normalize (nth (1 * 2) [100; -100; 32767; -32768] 0),
          KCSDR.normalize (nth (1 * 2 + 1) [100; -100; 32767; -32768] 0)).
Proof.
  destruct (normalization_correct 12345 [100; -100; 32767; -32768] 1)
    as (_ & _ & _ & _ & H1 & H2 & H3).
  split; [|split].
  - apply H1. split; discriminate.
  - apply H2. split; discriminate.
  - apply H3. reflexivity.
Defined.




(** C8, as stated, fails — A reconfigure on a running SignalHound
    instance whose device rejects the reference level returns early: the
    worker has been joined, none is spawned, and the instance is left not
    running. *)
Lemma reconfigure_counterexample :
  SignalHound.running bb_running = true /\
  SignalHound.running
    (state_of (SignalHound.restartStreamWithNewParams
                 bb_rejects "reference level change" bb_running)) = false /\
  SignalHound.rxThread
    (state_of (SignalHound.restartStreamWithNewParams
                 bb_rejects "reference level change" bb_running)) = false /\
  SignalHound.actions
    (trace_of (SignalHound.restartStreamWithNewParams
                 bb_rejects "reference level change" bb_running)) =
    [SignalHound.StopWriter; SignalHound.Join; SignalHound.BbAbort 7;
     SignalHound.BbConfigureRefLevel 7 (f32_of_Z (-20))].
Proof. vm_compute. repeat split. Qed.

(** C8, amended — A reconfigure ([restartStreamWithNewParams]) received
    while running, with a device held and a decimation index in the table,
    first signals stop on the channel, joins the worker and aborts the
    stream.  When the four configuration calls and [bbInitiate] report no
    error it then resets the channel and spawns a worker as its last call,
    leaving the instance running with a joinable thread.  When one of them
    reports an error it writes an error line and returns early, leaving
    the instance not running with no thread and none spawned. *)
Theorem reconfigure_outcome
    (d : SignalHound.answers) (reason : string) (s : SignalHound.instance) :
  SignalHound.running s = true -> SignalHound.rxThread s = true ->
  SignalHound.deviceHandle s <> -1 ->
  0 <= SignalHound.decimationId s < 14 ->
  let r := SignalHound.restartStreamWithNewParams d reason s in
  firstn 3 (SignalHound.actions (trace_of r)) =
    [SignalHound.StopWriter; SignalHound.Join;
     SignalHound.BbAbort (SignalHound.deviceHandle s)] /\
  (SignalHound.restart_ok d = true ->
     SignalHound.running (state_of r) = true /\
     SignalHound.rxThread (state_of r) = true /\
     existsb SignalHound.is_clearWriteStop (trace_of r) = true /\
     last (SignalHound.actions (trace_of r)) SignalHound.StopWriter
       = SignalHound.Spawn /\
     outcome_of r = Value tt) /\
  (SignalHound.restart_ok d = false ->
     SignalHound.running (state_of r) = false /\
     SignalHound.rxThread (state_of r) = false /\
     existsb SignalHound.is_spawn (trace_of r) = false /\
     existsb SignalHound.is_error_log (trace_of r) = true /\
     outcome_of r = Returned).
Proof.
  intros Hr Ht Hh Hd r.
  destruct (maxBandwidths_lookup _ Hd) as [M HM].
  destruct (restart_outcome d reason s M Hr Ht Hh (proj1 Hd) HM r eq_refl)
    as (Hg & Hj & Hf & Hsp & Hc & Hl & _ & Ho).
  destruct (restart_report d reason s M Hr Ht Hh (proj1 Hd) HM r eq_refl)
    as (He & _).
  rewrite existsb_actions in Hsp, Hc by reflexivity.
  split; [exact Hf|]. split; intros Hok; rewrite Hok in *; auto.
Qed.

Lemma reconfigure_outcome_witness :
  (SignalHound.running
     (state_of (SignalHound.restartStreamWithNewParams
                  bb_accepts "gain change" bb_running)) = true /\
   last (SignalHound.actions
           (trace_of (SignalHound.restartStreamWithNewParams
                        bb_accepts "gain change" bb_running)))
        SignalHound.StopWriter = SignalHound.Spawn) /\
  existsb SignalHound.is_error_log
    (trace_of (SignalHound.restartStreamWithNewParams
                 bb_rejects "gain change" bb_running)) = true.
Proof.
  assert (Hr : SignalHound.running bb_running = true)
    by (vm_compute; reflexivity).
  assert (Ht : SignalHound.rxThread bb_running = true)
    by (vm_compute; reflexivity).
  assert (Hh : SignalHound.deviceHandle bb_running <> -1)
    by (vm_compute; discriminate).
  assert (Hd : 0 <= SignalHound.decimationId bb_running < 14)
    by (vm_compute; split; [discriminate|reflexivity]).
  destruct (reconfigure_outcome bb_accepts "gain change" bb_running
              Hr Ht Hh Hd) as (_ & Hok & _).
  destruct (reconfigure_outcome bb_rejects "gain change" bb_running
              Hr Ht Hh Hd) as (_ & _ & Hbad).
  destruct (Hok eq_refl) as (Hg & _ & _ & Hl & _).
  destruct (Hbad eq_refl) as (_ & _ & _ & He & _).
  split; [split; [exact Hg|exact Hl]|exact He].
Defined.

(** C9, as stated, fails — A SignalHound instance for which no device
    was found (none listed, so no serial number is selected): [start] is
    aborted and the instance stays stopped, but nothing is reported, no
    line is written at all. *)
Lemma start_error_counterexample :
  SignalHound.selectedSerial bb_unselected = 0 /\
  SignalHound.running bb_unselected = false /\
  SignalHound.start bb_accepts bb_unselected = ([], bb_unselected, Returned) /\
  existsb SignalHound.is_error_log
    (trace_of (SignalHound.start bb_accepts bb_unselected)) = false.
Proof. vm_compute. repeat split. Qed.

(** C9, amended — A [start] from a stopped instance that meets an
    initialisation error is aborted: it returns with no worker spawned and
    the instance still stopped, and a later [start] that meets no error
    brings the instance to running.  The error is reported by an error
    line in these cases.  KC SDR: the API table is missing, or no device
    is held and [find], asked for the type [devId] selects, yields none
    (the instance is left as it was; the retry needs the API table, and
    a sample rate and frequency that have a [uint64_t] value).
    SignalHound: [bbOpenDeviceBySerialNumber], a configuration call,
    [bbInitiate] or [bbQueryIQParameters] reports an error.  When no
    device is selected in the SignalHound module (serial number 0),
    [start] returns at once without a line written and with the instance
    as it was; a [start] after a device was selected runs as above. *)
Theorem start_error_aborts
    (found : option KCSDR.sdr_obj) (dev : KCSDR.sdr_obj)
    (d d' : SignalHound.answers)
    (ks : KCSDR.instance) (ss : SignalHound.instance) :
  (KCSDR.reachable ks -> KCSDR.running ks = false ->
   KCSDR.api ks = false \/
   (KCSDR.currentDevice ks = None /\ found = None /\
    0 <= KCSDR.devId ks < 2) ->
     let r := KCSDR.start found ks in
     state_of r = ks /\
     KCSDR.running (state_of r) = false /\
     KCSDR.run (state_of r) = false /\
     existsb KCSDR.is_spawn (trace_of r) = false /\
     existsb KCSDR.is_error_log (trace_of r) = true /\
     outcome_of r = Returned /\
     (KCSDR.api ks = true -> KCSDR.well_formed ks ->
        KCSDR.running (state_of (KCSDR.start (Some dev) (state_of r))) = true)) /\
  (SignalHound.running ss = false -> SignalHound.rxThread ss = false ->
   SignalHound.selectedSerial ss <> 0 ->
   0 <= SignalHound.decimationId ss < 14 ->
   SignalHound.start_ok d = false ->
     let r := SignalHound.start d ss in
     SignalHound.running (state_of r) = false /\
     SignalHound.rxThread (state_of r) = false /\
     existsb SignalHound.is_spawn (trace_of r) = false /\
     existsb SignalHound.is_error_log (trace_of r) = true /\
     outcome_of r = Returned /\
     (SignalHound.start_ok d' = true ->
        SignalHound.running (state_of (SignalHound.start d' (state_of r))) = true)) /\
  (SignalHound.running ss = false -> SignalHound.selectedSerial ss = 0 ->
     SignalHound.start d ss = ([], ss, Returned)).
Proof.
  split; [|split].
  - intros Hr Hg Herr r. apply reachable_quiescent in Hr.
    destruct (kc_start_error found ks Hr Hg Herr) as (H1 & H2 & H3 & H4).
    fold r in H1, H2, H3, H4.
    assert (Hrun : KCSDR.run ks = false).
    { destruct Hr as (Hrun & _). rewrite Hrun. exact Hg. }
    split; [exact H1|]. rewrite H1.
    split; [exact Hg|]. split; [exact Hrun|].
    split; [exact H2|]. split; [exact H3|]. split; [exact H4|].
    intros Ha Hwf.
    destruct (kc_start_outcome (Some dev) ks Hr Hwf Hg) as (H1' & _).
    rewrite H1', Ha. simpl. apply orb_true_r.
  - intros Hg Ht Hs Hd Hok r.
    destruct (maxBandwidths_lookup _ Hd) as [M HM].
    destruct (start_outcome d ss M Hg Ht Hs (proj1 Hd) HM r eq_refl)
      as (H1 & H2 & H3 & H4 & H5 & H6 & _ & H8).
    rewrite existsb_actions in H5 by reflexivity.
    rewrite Hok in *.
    repeat (split; [auto; fail|]).
    intros Hok'.
    assert (Hs' : SignalHound.selectedSerial (state_of r) <> 0)
      by (rewrite H3; exact Hs).
    assert (Hd' : 0 <= SignalHound.decimationId (state_of r))
      by (rewrite H4; exact (proj1 Hd)).
    rewrite <- H4 in HM.
    destruct (start_outcome d' (state_of r) M H1 H2 Hs' Hd' HM _ eq_refl)
      as (H1' & _).
    rewrite H1'. exact Hok'.
  - intros _ Hs. apply start_noop. right. exact Hs.
Qed.

Lemma start_error_aborts_witness :
  (existsb KCSDR.is_error_log (trace_of (KCSDR.start None kc_stopped)) = true /\
   KCSDR.running
     (state_of (KCSDR.start (Some 3) (state_of (KCSDR.start None kc_stopped))))
     = true) /\
  (existsb SignalHound.is_error_log
     (trace_of (SignalHound.start bb_absent bb_stopped)) = true /\
   SignalHound.running
     (state_of (SignalHound.start bb_accepts
                  (state_of (SignalHound.start bb_absent bb_stopped)))) = true) /\
  SignalHound.start bb_accepts bb_unselected = ([], bb_unselected, Returned).
Proof.
  destruct (start_error_aborts None 3 bb_absent bb_accepts kc_stopped bb_stopped)
    as (Hk & Hs & _).
  destruct (start_error_aborts None 3 bb_accepts bb_accepts kc_stopped
              bb_unselected) as (_ & _ & Hu).
  split; [|split].
  - destruct Hk as (_ & _ & _ & _ & He & _ & Hretry).
    + apply KCSDR.reachable_loaded; reflexivity.
    + reflexivity.
    + right. split; [reflexivity|split; [reflexivity|]].
      split; [discriminate|reflexivity].
    + split; [exact He|apply Hretry; [reflexivity|]].
      split; [split; [discriminate|reflexivity]|split; discriminate].
  - destruct Hs as (_ & _ & _ & He & _ & Hretry).
    + reflexivity.
    + reflexivity.
    + discriminate.
    + split; [discriminate|reflexivity].
    + reflexivity.
    + split; [exact He|apply Hretry; reflexivity].
  - apply Hu; reflexivity.
Defined.

(** C10 — Every batch the KC SDR worker commits holds exactly 16384
    samples: each [swap] call in the worker's trace has count 16384 and a
    write buffer of 16384 converted samples; an iteration whose read
    succeeds asks for 65536 bytes and publishes the whole converted batch
    with [swap(16384)]; and in the running loop every read that succeeds
    before a shutdown signal is seen is published so, whole. *)
Theorem worker_batch_size
    (os : list KCSDR.observation) (n : Z) (writeBuf : list KCSDR.complex_t)
    (o : KCSDR.observation) (readBuffer : list Z)
    (pre post : list KCSDR.observation) :
  (In (KCSDR.Swap n writeBuf) (fst (KCSDR.worker os)) ->
     n = 16384 /\ Z.of_nat (List.length writeBuf) = 16384) /\
  (KCSDR.run_at_test o = true -> KCSDR.device o <> None ->
   KCSDR.read o = Some readBuffer ->
     fst (KCSDR.iteration o) =
       [KCSDR.ApiRead (KCSDR.device o) 65536;
        KCSDR.Swap 16384 (KCSDR.convert readBuffer)] /\
     (existsb KCSDR.shutdown_signal pre = false ->
        In (KCSDR.Swap 16384 (KCSDR.convert readBuffer))
           (fst (KCSDR.worker (pre ++ o :: post))) /\
        Z.of_nat (List.length (KCSDR.convert readBuffer)) = 16384)).
Proof.
  split.
  - intros H. apply worker_swap, loop_swap in H.
    destruct H as (-> & b & ->). split; [reflexivity|].
    apply length_convert.
  - intros Hr Hd Hb. split.
    + exact (iteration_publishes o readBuffer Hr Hd Hb).
    + intros Hpre. split; [|apply length_convert].
      apply worker_publishes.
      exact (loop_publishes pre post o readBuffer Hpre Hr Hd Hb).
Qed.

Lemma worker_batch_size_witness :
  Z.of_nat (List.length (KCSDR.convert [100; -100; 32767; -32768])) = 16384 /\
  fst (KCSDR.iteration kc_read_ok) =
    [KCSDR.ApiRead (Some 3) 65536;
     KCSDR.Swap 16384 (KCSDR.convert [100; -100; 32767; -32768])] /\
  In (KCSDR.Swap 16384 (KCSDR.convert [100; -100; 32767; -32768]))
     (fst (KCSDR.worker ([kc_read_timeout] ++ kc_read_ok :: [kc_read_timeout]))).
Proof.
  destruct (worker_batch_size [kc_read_ok] 16384
              (KCSDR.convert [100; -100; 32767; -32768])
              kc_read_ok [100; -100; 32767; -32768]
              [kc_read_timeout] [kc_read_timeout]) as [H1 H2].
  destruct H2 as [H2 H3]; [reflexivity|discriminate|reflexivity|].
  split; [|split].
  - apply H1. right. right. left. reflexivity.
  - exact H2.
  - apply H3. reflexivity.
Defined.

(** * Further properties of the two modules *)

Import MoreExamples.

(** ** KC SDR controller *)

Module KCSDRMore.
Import KCSDR KCSDRFacts KCSDRSession.

(** [start] on a stopped instance with the API table, a device held or
    found, and the lookup and the two conversions defined. *)
Lemma kc_start_run (found : option sdr_obj) (s : instance)
    (ty : device_type) (vf vs : Z) :
  quiescent s -> running s = false -> api s = true ->
  device_used found s <> None ->
  (currentDevice s = None ->
     0 <= devId s /\ nth_error deviceTypes (Z.to_nat (devId s)) = Some ty) ->
  to_uint64 (freq s) = Some vf -> to_uint64 (sampleRate s) = Some vs ->
  let dev := device_used found s in
  actions (trace_of (start found s)) =
    (if is_null (currentDevice s) then [ApiFind ty] else [])
    ++ [RxPort dev (selectedPort s); RxFreq dev vf; RxAtt dev (att s);
        RxAmp dev (gain s); RxExtAmp dev (extGain s); RxBw dev (to_uint32 vs);
        SetInputSampleRate (sampleRate s); RxStart dev; Spawn] /\
  state_of (start found s) =
    set_running true (set_workerThread true (set_run true (set_currentDevice dev s))) /\
  outcome_of (start found s) = Value tt.
Proof.
  destruct s as [a d rg rn sr f di sp at_ g eg wt].
  unfold quiescent, device_used; simpl.
  intros (-> & -> & _) -> -> Hd Hty Ef Es.
  destruct d as [d|]; [|destruct found as [d|]; [|congruence]].
  - run; settle; repeat split.
  - destruct (Hty eq_refl) as [Hi Hn].
    assert (Hlt : (di <? 0) = false) by (apply Z.ltb_ge; exact Hi).
    run; settle; repeat split.
Qed.

(** X1 — A KC SDR [start] from a stopped instance with the API table
    present and a device held or found configures the device in the order
    port, frequency, attenuation, gain, external gain, bandwidth, then
    notifies the sample rate, starts the stream and spawns the worker as
    its last call; [find] is called first, for the device type [devId]
    selects, and only when no device is held.  The frequency is passed as
    its [uint64_t] value and the sample rate as its [uint64_t] value
    reduced to [uint32_t]; [devId] is an id of [deviceTypes] and both
    conversions are defined.  The instance [start] leaves differs from the
    one it found in the device pointer, the two run flags and the thread
    handle only. *)
Theorem start_call_sequence (found : option sdr_obj) (s : instance)
    (ty : device_type) (vf vs : Z) :
  quiescent s -> running s = false -> api s = true ->
  device_used found s <> None ->
  (currentDevice s = None ->
     0 <= devId s /\ nth_error deviceTypes (Z.to_nat (devId s)) = Some ty) ->
  to_uint64 (freq s) = Some vf -> to_uint64 (sampleRate s) = Some vs ->
  let dev := device_used found s in
  actions (trace_of (start found s)) =
    (if is_null (currentDevice s) then [ApiFind ty] else [])
    ++ [RxPort dev (selectedPort s); RxFreq dev vf; RxAtt dev (att s);
        RxAmp dev (gain s); RxExtAmp dev (extGain s); RxBw dev (to_uint32 vs);
        SetInputSampleRate (sampleRate s); RxStart dev; Spawn] /\
  state_of (start found s) =
    set_running true (set_workerThread true (set_run true (set_currentDevice dev s))) /\
  outcome_of (start found s) = Value tt /\
  0 <= vf < 2 ^ 64 /\ 0 <= to_uint32 vs < 2 ^ 32.
Proof.
  intros Hq Hr Ha Hd Hty Ef Es dev.
  destruct (kc_start_run found s ty vf vs Hq Hr Ha Hd Hty Ef Es)
    as (H1 & H2 & H3).
  split; [exact H1|split; [exact H2|split; [exact H3|split]]].
  - exact (to_uint64_range _ _ Ef).
  - unfold to_uint32. apply Z.mod_pos_bound. reflexivity.
Qed.

Lemma start_call_sequence_witness :
  actions (trace_of (start (Some 3) Examples.kc_stopped)) =
    [ApiFind KC_908_1; RxPort (Some 3) 1; RxFreq (Some 3) 100000000;
     RxAtt (Some 3) 0; RxAmp (Some 3) 15; RxExtAmp (Some 3) 1;
     RxBw (Some 3) 10000000;
     SetInputSampleRate (Float.f64_of_Z 10000000); RxStart (Some 3); Spawn].
Proof.
  refine (proj1 (start_call_sequence (Some 3) Examples.kc_stopped KC_908_1
                   100000000 10000000 _ eq_refl eq_refl _ _ eq_refl eq_refl)).
  - repeat split; intros; discriminate.
  - discriminate.
  - intros _. split; [discriminate|reflexivity].
Defined.

(** X2 — Clean restart: from a stopped KC SDR instance with the API table
    present, a device held or found, [devId] an id of [deviceTypes] and a
    frequency and sample rate that have a [uint64_t] value, a [start]
    followed by a [stop] leaves the instance as it was but for the device
    pointer, which now holds the device; the same holds after any number
    of such cycles, and a cycle ends with no thread spawned and not
    joined. *)
Theorem restart_cycles (found : option sdr_obj) (s : instance) (n : nat) :
  quiescent s -> well_formed s -> running s = false -> api s = true ->
  device_used found s <> None ->
  Nat.iter (S n) (cycle found) s = set_currentDevice (device_used found s) s /\
  alive 0 (cycle_trace found s) = 0.
Proof.
  intros Hq Hw Hr Ha Hd.
  assert (H1 : forall s', quiescent s' -> well_formed s' ->
               running s' = false -> api s' = true ->
               device_used found s' <> None ->
               cycle found s' = set_currentDevice (device_used found s') s' /\
               alive 0 (cycle_trace found s') = 0).
  { clear. intros s'.
    destruct s' as [a d rg rn sr f di sp at_ g eg wt].
    unfold quiescent, well_formed, device_used, cycle, cycle_trace; simpl.
    intros (-> & -> & _) (Hi & Hf & Hs) -> -> Hd.
    destruct (deviceTypes_lookup di Hi) as [ty Hty].
    assert (Hlt : (di <? 0) = false) by (apply Z.ltb_ge; lia).
    destruct (to_uint64 f) as [vf|] eqn:Ef; [|congruence].
    destruct (to_uint64 sr) as [vs|] eqn:Es; [|congruence].
    destruct d as [d|]; [|destruct found as [d|]; [|congruence]];
      run; settle; split; reflexivity. }
  split; [|apply H1; assumption].
  induction n as [|n IH].
  - simpl. apply H1; assumption.
  - change (Nat.iter (S (S n)) (cycle found) s)
      with (cycle found (Nat.iter (S n) (cycle found) s)).
    rewrite IH.
    destruct (H1 (set_currentDevice (device_used found s) s)) as [H2 _].
    + destruct s as [a d rg rn sr f di sp at_ g eg wt].
      unfold quiescent in *; simpl in *.
      destruct Hq as (-> & -> & _). subst rg.
      repeat split; intros; discriminate.
    + exact Hw.
    + destruct s; exact Hr.
    + destruct s; exact Ha.
    + destruct s as [a d rg rn sr f di sp at_ g eg wt].
      unfold device_used in *; simpl in *.
      destruct d as [d|]; [discriminate|].
      destruct found; [discriminate|congruence].
    + rewrite H2.
      destruct s as [a d rg rn sr f di sp at_ g eg wt].
      unfold device_used; simpl. destruct d as [d|]; [reflexivity|].
      destruct found; reflexivity.
Qed.

Lemma restart_cycles_witness :
  Nat.iter 3 (cycle (Some 3)) Examples.kc_stopped =
    set_currentDevice (device_used (Some 3) Examples.kc_stopped) Examples.kc_stopped /\
  alive 0 (cycle_trace (Some 3) Examples.kc_stopped) = 0.
Proof.
  refine (restart_cycles (Some 3) Examples.kc_stopped 2 _ _ eq_refl eq_refl _).
  - repeat split; intros; discriminate.
  - split; [split; [discriminate|reflexivity]|split; discriminate].
  - discriminate.
Defined.

Lemma kc_stop_twice (s : instance) :
  (running s = false -> run s = false -> stop s = ([], s, Returned)) /\
  (quiescent s ->
     stop (state_of (stop s)) = ([], state_of (stop s), Returned)).
Proof.
  destruct s as [a d rg rn sr f di sp at_ g eg wt].
  unfold quiescent; simpl. split.
  - intros -> ->. reflexivity.
  - intros (-> & -> & _). destruct rg, a, d as [d|]; reflexivity.
Qed.

End KCSDRMore.

(** ** SignalHound controller *)

Module SignalHoundMore.
Import SignalHound SignalHoundFacts SignalHoundSession.

(** Replace the clamping tests of a goal by what the hypotheses say. *)
Ltac decide_clamp :=
  cbv [clamped];
  repeat match goal with
    | H : ?b = _ |- context [if ?b then _ else _] => rewrite H
    end.

Ltac use_statuses :=
  cbv [start_ok restart_ok configured_ok open_status refLevel_status
       gainAtten_status iqCenter_status configureIQ_status initiate_status
       query_status actual_sample_rate];
  repeat match goal with
    | H : (0 <=? _) = _ |- _ => rewrite !H
    end.

Ltac split_ok H :=
  cbv [start_ok restart_ok configured_ok open_status refLevel_status
       gainAtten_status iqCenter_status configureIQ_status initiate_status
       query_status] in H;
  repeat match goal with
    | H' : _ && _ = true |- _ =>
        apply andb_prop in H'; let H2 := fresh "Hok" in destruct H' as [H' H2]
    end.

(** The calls, final instance and outcome of a [start] no vendor call of
    which reports an error. *)
Lemma start_run_ok (d : answers) (s : instance) (M : double) :
  running s = false -> rxThread s = false -> selectedSerial s <> 0 ->
  0 <= decimationId s ->
  nth_error maxBandwidths (Z.to_nat (decimationId s)) = Some M ->
  start_ok d = true ->
  let h := opened_handle d in
  let bw := clamped M (bandwidthHz s) in
  actions (trace_of (start d s)) =
    [BbOpenDeviceBySerialNumber (selectedSerial s);
     BbConfigureRefLevel h (refLevel s);
     BbConfigureGainAtten h (gain s) (attenuation s);
     BbConfigureIQCenter h (freq s);
     BbConfigureIQ h (2 ^ decimationId s) bw;
     BbInitiate h; BbQueryIQParameters h;
     SetInputSampleRate (actual_sample_rate d); Spawn] /\
  state_of (start d s) =
    set_rxThread true (set_running true
      (set_actualSampleRate (actual_sample_rate d)
         (set_bandwidthHz bw (set_deviceHandle h s)))) /\
  outcome_of (start d s) = Value tt.
Proof.
  intros Hr Ht Hs Hd HM Hok.
  remember (start d s) as r eqn:E. symmetry in E.
  destruct s as [rg th h0 f ser dec bw0 ref g a rate].
  destruct d as [os oh s1 s2 s3 s4 s5 s6 ar ab].
  cbv [running rxThread selectedSerial decimationId] in *.
  subst rg th. apply Z.eqb_neq in Hs. apply Z.ltb_ge in Hd.
  split_ok Hok.
  run_all E; subst r; actions_of;
    cbv [bandwidthHz opened_handle actual_sample_rate selectedSerial refLevel
         gain attenuation freq decimationId
         set_rxThread set_running set_actualSampleRate set_bandwidthHz
         set_deviceHandle running rxThread deviceHandle actualSampleRate];
    decide_clamp; repeat split; reflexivity.
Qed.

(** X4 — A SignalHound [start] from a stopped instance (a serial number
    selected, a decimation index in the table) during which no vendor call
    reports an error opens the device, configures reference level,
    gain/attenuation, centre frequency and I/Q decimation with the clamped
    bandwidth in this order, initiates streaming, queries the parameters,
    notifies the queried sample rate and spawns the worker as its last
    call. *)
Theorem bb_start_call_sequence (d : answers) (s : instance) (M : double) :
  running s = false -> rxThread s = false -> selectedSerial s <> 0 ->
  0 <= decimationId s ->
  nth_error maxBandwidths (Z.to_nat (decimationId s)) = Some M ->
  start_ok d = true ->
  let h := opened_handle d in
  let bw := clamped M (bandwidthHz s) in
  actions (trace_of (start d s)) =
    [BbOpenDeviceBySerialNumber (selectedSerial s);
     BbConfigureRefLevel h (refLevel s);
     BbConfigureGainAtten h (gain s) (attenuation s);
     BbConfigureIQCenter h (freq s);
     BbConfigureIQ h (2 ^ decimationId s) bw;
     BbInitiate h; BbQueryIQParameters h;
     SetInputSampleRate (actual_sample_rate d); Spawn] /\
  state_of (start d s) =
    set_rxThread true (set_running true
      (set_actualSampleRate (actual_sample_rate d)
         (set_bandwidthHz bw (set_deviceHandle h s)))) /\
  outcome_of (start d s) = Value tt.
Proof.
  intros Hr Ht Hs Hd HM Hok.
  remember (start d s) as r eqn:E. symmetry in E.
  destruct s as [rg th h0 f ser dec bw0 ref g a rate].
  destruct d as [os oh s1 s2 s3 s4 s5 s6 ar ab].
  cbv [running rxThread selectedSerial decimationId] in *.
  subst rg th. apply Z.eqb_neq in Hs. apply Z.ltb_ge in Hd.
  split_ok Hok.
  run_all E; subst r; actions_of;
    cbv [bandwidthHz opened_handle actual_sample_rate selectedSerial refLevel
         gain attenuation freq decimationId
         set_rxThread set_running set_actualSampleRate set_bandwidthHz
         set_deviceHandle running rxThread deviceHandle actualSampleRate];
    decide_clamp; repeat split; reflexivity.
Qed.

Lemma bb_start_call_sequence_witness :
  actions (trace_of (start Examples.bb_accepts Examples.bb_wide_stopped)) =
    [BbOpenDeviceBySerialNumber (selectedSerial Examples.bb_wide_stopped);
     BbConfigureRefLevel 7 (refLevel Examples.bb_wide_stopped);
     BbConfigureGainAtten 7 (gain Examples.bb_wide_stopped)
       (attenuation Examples.bb_wide_stopped);
     BbConfigureIQCenter 7 (freq Examples.bb_wide_stopped);
     BbConfigureIQ 7 (2 ^ decimationId Examples.bb_wide_stopped)
       (clamped (Float.f64_of_Z 500000) (bandwidthHz Examples.bb_wide_stopped));
     BbInitiate 7; BbQueryIQParameters 7;
     SetInputSampleRate (actual_sample_rate Examples.bb_accepts); Spawn].
Proof.
  refine (proj1 (bb_start_call_sequence Examples.bb_accepts
                   Examples.bb_wide_stopped (Float.f64_of_Z 500000)
                   eq_refl eq_refl _ _ eq_refl eq_refl)).
  - discriminate.
  - discriminate.
Defined.

(** The bandwidth a [start] that opens the device, or a restart, adopts
    and passes to [bbConfigureIQ] is the clamped one, whatever the vendor
    calls answer. *)
Lemma start_adopts_clamped (d : answers) (s : instance) (M : double) :
  running s = false -> selectedSerial s <> 0 -> 0 <= open_status d ->
  0 <= decimationId s ->
  nth_error maxBandwidths (Z.to_nat (decimationId s)) = Some M ->
  forall r, start d s = r ->
  bandwidthHz (state_of r) = clamped M (bandwidthHz s) /\
  forall bw, In bw (configured_bw (actions (trace_of r))) ->
             bw = clamped M (bandwidthHz s).
Proof.
  intros Hr Hs Ho Hd HM r E.
  destruct s as [rg th h f ser dec bw0 ref g a rate].
  destruct d as [os oh s1 s2 s3 s4 s5 s6 ar ab].
  cbv [running selectedSerial decimationId bandwidthHz open_status] in *.
  subst rg. apply Z.eqb_neq in Hs. apply Z.ltb_ge in Hd.
  apply Z.leb_le in Ho.
  run_all E; subst r; actions_of;
    cbv [bandwidthHz configured_bw notified flat_map app];
    decide_clamp;
    (split; [reflexivity|]);
    intros ? Hin; repeat (destruct Hin as [Hin|Hin]; try (symmetry; exact Hin));
    try contradiction.
Qed.

Lemma restart_adopts_clamped (d : answers) (reason : string) (s : instance) (M : double) :
  running s = true -> deviceHandle s <> -1 ->
  0 <= decimationId s ->
  nth_error maxBandwidths (Z.to_nat (decimationId s)) = Some M ->
  forall r, restartStreamWithNewParams d reason s = r ->
  bandwidthHz (state_of r) = clamped M (bandwidthHz s) /\
  forall bw, In bw (configured_bw (actions (trace_of r))) ->
             bw = clamped M (bandwidthHz s).
Proof.
  intros Hr Hh Hd HM r E.
  destruct s as [rg th h f ser dec bw0 ref g a rate].
  destruct d as [os oh s1 s2 s3 s4 s5 s6 ar ab].
  cbv [running deviceHandle decimationId bandwidthHz] in *.
  subst rg. apply Z.eqb_neq in Hh. apply Z.ltb_ge in Hd.
  run_all E; subst r; actions_of;
    cbv [bandwidthHz configured_bw notified flat_map app];
    decide_clamp;
    (split; [reflexivity|]);
    intros ? Hin; repeat (destruct Hin as [Hin|Hin]; try (symmetry; exact Hin));
    try contradiction.
Qed.

(** Facts of the table the clamp relies on. *)
Lemma maxBandwidths_order (M : double) :
  In M maxBandwidths ->
  f64_gt (f64_of_f32 (f32_of_f64 (f64_of_Z 200))) M = false /\
  f64_lt M (f64_of_Z 200) = false /\
  f64_gt M M = false /\
  f64_of_f32 (f32_of_f64 M) = M.
Proof.
  revert M. apply Forall_forall.
  repeat constructor; vm_compute; reflexivity.
Qed.

Lemma clamped_in_range (M : double) (bw : float) :
  In M maxBandwidths ->
  f64_lt (f64_of_f32 (clamped M bw)) (f64_of_Z 200) = false /\
  f64_gt (f64_of_f32 (clamped M bw)) M = false.
Proof.
  intros HM. destruct (maxBandwidths_order M HM) as (H1 & H2 & H3 & H4).
  unfold clamped.
  destruct (f64_lt (f64_of_f32 bw) (f64_of_Z 200)) eqn:Hlt.
  - rewrite H1. split; [vm_compute; reflexivity|exact H1].
  - destruct (f64_gt (f64_of_f32 bw) M) eqn:Hgt.
    + rewrite H4. split; assumption.
    + split; assumption.
Qed.

Lemma clamped_idempotent (M : double) (bw : float) :
  In M maxBandwidths -> clamped M (clamped M bw) = clamped M bw.
Proof.
  intros HM. destruct (clamped_in_range M bw HM) as [Hlt Hgt].
  unfold clamped at 1. rewrite Hlt, Hgt. reflexivity.
Qed.

(** X5 — Whatever bandwidth the instance holds (also one that is not a
    number) and whatever the vendor calls answer, the bandwidth a [start]
    that opens the device or a restart keeps in the snapshot and passes to
    [bbConfigureIQ] is neither below 200 Hz nor above the maximum of the
    selected decimation tier, and it is the bandwidth held when that one
    was already in this range. *)
Theorem configured_bandwidth_in_range
    (d : answers) (reason : string) (s : instance) (M : double) (bw : float) :
  0 <= decimationId s ->
  nth_error maxBandwidths (Z.to_nat (decimationId s)) = Some M ->
  let ok (r : list event * instance * outcome unit) :=
    (bw = bandwidthHz (state_of r) \/ In bw (configured_bw (trace_of r))) ->
    f64_lt (f64_of_f32 bw) (f64_of_Z 200) = false /\
    f64_gt (f64_of_f32 bw) M = false /\
    (f64_lt (f64_of_f32 (bandwidthHz s)) (f64_of_Z 200) = false ->
     f64_gt (f64_of_f32 (bandwidthHz s)) M = false ->
     bw = bandwidthHz s) in
  (running s = false -> selectedSerial s <> 0 -> 0 <= open_status d ->
     ok (start d s)) /\
  (running s = true -> deviceHandle s <> -1 ->
     ok (restartStreamWithNewParams d reason s)).
Proof.
  intros Hd HM ok.
  assert (Hc : bw = clamped M (bandwidthHz s) ->
               f64_lt (f64_of_f32 bw) (f64_of_Z 200) = false /\
               f64_gt (f64_of_f32 bw) M = false /\
               (f64_lt (f64_of_f32 (bandwidthHz s)) (f64_of_Z 200) = false ->
                f64_gt (f64_of_f32 (bandwidthHz s)) M = false ->
                bw = bandwidthHz s)).
  { intros ->.
    destruct (clamped_in_range M (bandwidthHz s) (nth_error_In _ _ HM)) as [H1 H2].
    split; [exact H1|]. split; [exact H2|].
    intros Hlt Hgt. unfold clamped. rewrite Hlt, Hgt. reflexivity. }
  split.
  - intros Hr Hs Ho.
    destruct (start_adopts_clamped d s M Hr Hs Ho Hd HM _ eq_refl) as [Hb Hin].
    rewrite configured_bw_actions in Hin.
    intros [-> | H]; apply Hc; [exact Hb|apply Hin, H].
  - intros Hr Hh.
    destruct (restart_adopts_clamped d reason s M Hr Hh Hd HM _ eq_refl) as [Hb Hin].
    rewrite configured_bw_actions in Hin.
    intros [-> | H]; apply Hc; [exact Hb|apply Hin, H].
Qed.

Lemma configured_bandwidth_in_range_witness :
  f64_lt (f64_of_f32 (bandwidthHz (state_of (start Examples.bb_accepts Examples.bb_wide_stopped))))
         (f64_of_Z 200) = false /\
  f64_gt (f64_of_f32 (bandwidthHz (state_of (start Examples.bb_accepts Examples.bb_wide_stopped))))
         (f64_of_Z 500000) = false.
Proof.
  destruct (configured_bandwidth_in_range Examples.bb_accepts "" Examples.bb_wide_stopped
              (f64_of_Z 500000)
              (bandwidthHz (state_of (start Examples.bb_accepts Examples.bb_wide_stopped)))
              (Zle_0_pos 6) eq_refl) as [Hs _].
  destruct Hs as (H1 & H2 & _).
  - reflexivity.
  - discriminate.
  - discriminate.
  - left. reflexivity.
  - split; [exact H1|exact H2].
Defined.

(** X6 — A SignalHound [start] from a stopped instance that meets an
    error gives the device back: when [bbOpenDeviceBySerialNumber] itself
    fails nothing else is called; when a later call fails the last call
    made is [bbCloseDevice] on the opened handle, [deviceHandle] is reset
    to -1, and the stream is aborted first exactly when [bbInitiate] had
    succeeded. *)
Theorem start_failure_releases_device (d : answers) (s : instance) :
  running s = false -> selectedSerial s <> 0 ->
  0 <= decimationId s < 14 ->
  start_ok d = false ->
  let r := start d s in
  (open_status d < 0 ->
     actions (trace_of r) = [BbOpenDeviceBySerialNumber (selectedSerial s)] /\
     deviceHandle (state_of r) = opened_handle d) /\
  (0 <= open_status d ->
     last (actions (trace_of r)) StopWriter = BbCloseDevice (opened_handle d) /\
     deviceHandle (state_of r) = -1 /\
     existsb is_halt (actions (trace_of r)) =
       configured_ok d && (0 <=? initiate_status d)).
Proof.
  intros Hr Hs Hd Hok r.
  destruct (maxBandwidths_lookup _ Hd) as [M HM]. destruct Hd as [Hd _].
  remember (start d s) as r0 eqn:E. symmetry in E. subst r.
  destruct s as [rg th h f ser dec bw0 ref g a rate].
  destruct d as [os oh s1 s2 s3 s4 s5 s6 ar ab].
  cbv [running selectedSerial decimationId open_status opened_handle] in *.
  subst rg. apply Z.eqb_neq in Hs. apply Z.ltb_ge in Hd.
  run_all E; subst r0; actions_of;
    revert Hok; use_statuses; intros Hok; try discriminate Hok;
    (split; intros Ho;
     [apply Z.leb_gt in Ho|apply Z.leb_le in Ho]);
    try congruence; repeat split; reflexivity.
Qed.

Lemma start_failure_releases_device_witness :
  last (actions (trace_of (start Examples.bb_rejects Examples.bb_stopped))) StopWriter
    = BbCloseDevice (opened_handle Examples.bb_rejects) /\
  deviceHandle (state_of (start Examples.bb_rejects Examples.bb_stopped)) = -1.
Proof.
  destruct (start_failure_releases_device Examples.bb_rejects Examples.bb_stopped)
    as [_ H].
  - reflexivity.
  - discriminate.
  - split; [discriminate|reflexivity].
  - reflexivity.
  - destruct H as (H1 & H2 & _); [discriminate|]. split; [exact H1|exact H2].
Defined.

Lemma bb_stop_twice (s : instance) :
  (running s = false -> stop s = ([], s, Returned)) /\
  stop (state_of (stop s)) = ([], state_of (stop s), Returned).
Proof.
  assert (H : forall s', running s' = false -> stop s' = ([], s', Returned)).
  { intros s' Hr. unfold stop, bind, get, when. rewrite Hr. reflexivity. }
  split; [apply H|]. apply H.
  destruct s as [rg th h f ser dec bw0 ref g a rate].
  remember (stop _) as r eqn:E. symmetry in E.
  destruct rg; run_all E; subst r; reflexivity.
Qed.

(** X7 — A restart on a running SignalHound instance during which a
    configuration call or [bbInitiate] reports an error returns without
    resetting the channel ([clearWriteStop] is not called) and without
    closing the device: [deviceHandle] still holds the handle, and a
    following [stop] makes no call at all, since the instance is no longer
    running. *)
Theorem failed_restart_keeps_device
    (d : answers) (reason : string) (s : instance) :
  running s = true -> rxThread s = true -> deviceHandle s <> -1 ->
  0 <= decimationId s < 14 ->
  restart_ok d = false ->
  let r := restartStreamWithNewParams d reason s in
  deviceHandle (state_of r) = deviceHandle s /\
  existsb is_close (trace_of r) = false /\
  existsb is_clearWriteStop (trace_of r) = false /\
  stop (state_of r) = ([], state_of r, Returned).
Proof.
  intros Hr Ht Hh Hd Hok r.
  destruct (maxBandwidths_lookup _ Hd) as [M HM].
  assert (Hstop : stop (state_of r) = ([], state_of r, Returned)).
  { apply bb_stop_twice.
    destruct (restart_outcome d reason s M Hr Ht Hh (proj1 Hd) HM r eq_refl)
      as (Hg & _). rewrite Hg. exact Hok. }
  rewrite <- (existsb_actions is_close (trace_of r)) by reflexivity.
  rewrite <- (existsb_actions is_clearWriteStop (trace_of r)) by reflexivity.
  split; [|split; [|split; [|exact Hstop]]]; clear Hstop;
    destruct Hd as [Hd _];
    remember (restartStreamWithNewParams d reason s) as r0 eqn:E;
    symmetry in E; subst r;
    destruct s as [rg th h f ser dec bw0 ref g a rate];
    destruct d as [os oh s1 s2 s3 s4 s5 s6 ar ab];
    cbv [running rxThread deviceHandle decimationId] in *;
    subst rg th; apply Z.eqb_neq in Hh; apply Z.ltb_ge in Hd;
    run_all E; subst r0; actions_of;
    revert Hok; use_statuses; intros Hok; try discriminate Hok; reflexivity.
Qed.

Lemma failed_restart_keeps_device_witness :
  deviceHandle (state_of (restartStreamWithNewParams Examples.bb_rejects "gain change"
                            Examples.bb_running))
    = deviceHandle Examples.bb_running /\
  stop (state_of (restartStreamWithNewParams Examples.bb_rejects "gain change"
                    Examples.bb_running))
    = ([], state_of (restartStreamWithNewParams Examples.bb_rejects "gain change"
                       Examples.bb_running), Returned).
Proof.
  assert (Hr : running Examples.bb_running = true) by (vm_compute; reflexivity).
  assert (Ht : rxThread Examples.bb_running = true) by (vm_compute; reflexivity).
  assert (Hh : deviceHandle Examples.bb_running <> -1) by (vm_compute; discriminate).
  assert (Hd : 0 <= decimationId Examples.bb_running < 14)
    by (vm_compute; split; [discriminate|reflexivity]).
  destruct (failed_restart_keeps_device Examples.bb_rejects "gain change"
              Examples.bb_running Hr Ht Hh Hd eq_refl) as (H1 & _ & _ & H4).
  split; [exact H1|exact H4].
Defined.

(** X8 — Clean restart: from a stopped SignalHound instance (a serial
    number selected, a decimation index in the table), a [start] during
    which no vendor call reports an error followed by a [stop] leaves the
    instance stopped with no thread and no device handle; of the snapshot
    only the bandwidth (clamped) and the reported sample rate may have
    changed.  The same instance results from any number of such cycles,
    and a cycle ends with no thread spawned and not joined. *)
Theorem bb_restart_cycles (d : answers) (s : instance) (M : double) (n : nat) :
  running s = false -> rxThread s = false -> selectedSerial s <> 0 ->
  0 <= decimationId s ->
  nth_error maxBandwidths (Z.to_nat (decimationId s)) = Some M ->
  start_ok d = true ->
  Nat.iter (S n) (cycle d) s =
    set_deviceHandle (-1)
      (set_actualSampleRate (actual_sample_rate d)
         (set_bandwidthHz (clamped M (bandwidthHz s)) s)) /\
  alive 0 (cycle_trace d s) = 0.
Proof.
  intros Hr Ht Hs Hd HM Hok.
  assert (H1 : forall s', running s' = false -> rxThread s' = false ->
               selectedSerial s' <> 0 -> 0 <= decimationId s' ->
               nth_error maxBandwidths (Z.to_nat (decimationId s')) = Some M ->
               cycle d s' =
                 set_deviceHandle (-1)
                   (set_actualSampleRate (actual_sample_rate d)
                      (set_bandwidthHz (clamped M (bandwidthHz s')) s')) /\
               alive 0 (cycle_trace d s') = 0).
  { clear - Hok. intros s' Hr Ht Hs Hd HM.
    destruct (start_run_ok d s' M Hr Ht Hs Hd HM Hok) as (Ha & Hst & _).
    unfold cycle, cycle_trace. rewrite <- alive_actions, actions_app, Ha, Hst.
    remember (stop _) as r eqn:E. symmetry in E.
    destruct s' as [rg th h f ser dec bw0 ref g a rate].
    destruct d as [os oh s1 s2 s3 s4 s5 s6 ar ab].
    cbv [running rxThread] in Hr, Ht. subst rg th.
    cbv [set_rxThread set_running set_actualSampleRate set_bandwidthHz
         set_deviceHandle running rxThread deviceHandle freq selectedSerial
         decimationId bandwidthHz refLevel gain attenuation actualSampleRate
         opened_handle actual_sample_rate] in *.
    run_all E; subst r; actions_of;
      try match goal with
        | H : (_ =? -1) = true |- _ => apply Z.eqb_eq in H; subst oh
        end;
      split; reflexivity. }
  split; [|apply H1; assumption].
  induction n as [|n IH].
  - simpl. apply H1; assumption.
  - change (Nat.iter (S (S n)) (cycle d) s)
      with (cycle d (Nat.iter (S n) (cycle d) s)).
    rewrite IH.
    set (s1 := set_deviceHandle (-1)
                 (set_actualSampleRate (actual_sample_rate d)
                    (set_bandwidthHz (clamped M (bandwidthHz s)) s))).
    destruct (H1 s1 Hr Ht Hs Hd HM) as [Hc _]. rewrite Hc. subst s1.
    destruct s as [rg th h f ser dec bw0 ref g a rate].
    cbv [set_actualSampleRate set_bandwidthHz set_deviceHandle running rxThread
         deviceHandle freq selectedSerial decimationId bandwidthHz refLevel gain
         attenuation actualSampleRate] in *.
    rewrite (clamped_idempotent M bw0 (nth_error_In _ _ HM)). reflexivity.
Qed.

Lemma bb_restart_cycles_witness :
  Nat.iter 3 (cycle Examples.bb_accepts) Examples.bb_wide_stopped =
    set_deviceHandle (-1)
      (set_actualSampleRate (actual_sample_rate Examples.bb_accepts)
         (set_bandwidthHz
            (clamped (f64_of_Z 500000) (bandwidthHz Examples.bb_wide_stopped))
            Examples.bb_wide_stopped)) /\
  alive 0 (cycle_trace Examples.bb_accepts Examples.bb_wide_stopped) = 0.
Proof.
  refine (bb_restart_cycles Examples.bb_accepts Examples.bb_wide_stopped
            (f64_of_Z 500000) 2 eq_refl eq_refl _ (Zle_0_pos 6) eq_refl eq_refl).
  discriminate.
Defined.

End SignalHoundMore.

(** X3 — [stop] on an instance that is not running (KC SDR: neither
    running nor mid-start) makes no call and changes nothing; so a second
    [stop] after a [stop] does nothing, in both modules. *)
Theorem stop_is_idempotent (ks : KCSDR.instance) (ss : SignalHound.instance) :
  (KCSDR.running ks = false -> KCSDR.run ks = false ->
     KCSDR.stop ks = ([], ks, Returned)) /\
  (KCSDR.reachable ks ->
     KCSDR.stop (state_of (KCSDR.stop ks)) =
       ([], state_of (KCSDR.stop ks), Returned)) /\
  (SignalHound.running ss = false -> SignalHound.stop ss = ([], ss, Returned)) /\
  SignalHound.stop (state_of (SignalHound.stop ss)) =
    ([], state_of (SignalHound.stop ss), Returned).
Proof.
  destruct (KCSDRMore.kc_stop_twice ks) as [H1 H2].
  destruct (SignalHoundMore.bb_stop_twice ss) as [H3 H4].
  split; [exact H1|]. split; [|split; [exact H3|exact H4]].
  intros Hr. apply H2, reachable_quiescent, Hr.
Qed.

Lemma stop_is_idempotent_witness :
  KCSDR.stop kc_stopped = ([], kc_stopped, Returned) /\
  KCSDR.stop (state_of (KCSDR.stop kc_running)) =
    ([], state_of (KCSDR.stop kc_running), Returned) /\
  SignalHound.stop bb_stopped = ([], bb_stopped, Returned).
Proof.
  destruct (stop_is_idempotent kc_stopped bb_stopped) as (H1 & _ & H3 & _).
  destruct (stop_is_idempotent kc_running bb_stopped) as (_ & H2 & _).
  split; [exact (H1 eq_refl eq_refl)|]. split; [|exact (H3 eq_refl)].
  apply H2.
  exact (KCSDR.reachable_handle (KCSDR.Start (Some 3)) kc_stopped
           (KCSDR.reachable_loaded kc_stopped eq_refl eq_refl eq_refl eq_refl)).
Defined.

(** ** The acquisition workers *)

Module SignalHoundWorkerMore.
Import SignalHound.

Section Worker.
Variables bbNoError bbDeviceNotStreamingErr : Z.

Local Abbreviation iteration := (iteration bbNoError bbDeviceNotStreamingErr).
Local Abbreviation loop := (loop bbNoError bbDeviceNotStreamingErr).
Local Abbreviation rx_thread_func :=
  (rx_thread_func bbNoError bbDeviceNotStreamingErr).

Lemma rx_iteration_swap (o : observation) (n : Z) (buf : list complex_t) :
  In (Swap n buf) (fst (iteration o)) ->
  0 < n <= bufferSize /\ Z.of_nat (List.length buf) <= n /\
  status o = bbNoError.
Proof.
  unfold SignalHound.iteration.
  destruct (running_at_test o); simpl; [|contradiction].
  destruct (Z.eqb_spec (status o) bbNoError) as [Hs|Hs]; simpl.
  - destruct (Z.ltb_spec 0 (iqCount o)) as [Hc|Hc].
    + destruct (Z.leb_spec (iqCount o) bufferSize) as [Hb|Hb].
      * assert (Hswap : forall l, In (Swap n buf)
                  (BbGetIQ (device_handle o) (purgeIQ o)
                   :: Swap (iqCount o) (firstn (Z.to_nat (iqCount o)) (iqData o)) :: l) ->
                  (forall e, In e l -> is_swap e = false) ->
                  0 < n <= bufferSize /\ Z.of_nat (List.length buf) <= n /\
                  status o = bbNoError).
        { intros l [H|[H|H]] Hl; [discriminate| |].
          - injection H as <- <-. split; [lia|]. split; [|exact Hs].
            rewrite length_firstn. lia.
          - apply Hl in H. discriminate. }
        destruct (swap o); simpl; intros H.
        -- apply (Hswap _ H). destruct (sampleLoss o); simpl;
             intros e He; [destruct He as [<-|[]]; reflexivity|contradiction].
        -- apply (Hswap [] H). intros e [].
      * destruct (sampleLoss o); simpl; intros H;
          repeat (destruct H as [H|H]; try discriminate); contradiction.
    + simpl. intros H.
      repeat (destruct H as [H|H]; try discriminate); contradiction.
  - destruct (status o =? bbDeviceNotStreamingErr); simpl; intros H;
      repeat (destruct H as [H|H]; try discriminate); contradiction.
Qed.

Lemma rx_loop_swap (os : list observation) (n : Z) (buf : list complex_t) :
  In (Swap n buf) (fst (loop os)) ->
  0 < n <= bufferSize /\ Z.of_nat (List.length buf) <= n.
Proof.
  induction os as [|o os IH]; simpl; [contradiction|].
  pose proof (rx_iteration_swap o n buf) as Hi.
  destruct (iteration o) as [t [|]]; simpl in *.
  - destruct (loop os) as [t' nx]; simpl in *.
    intros H. apply in_app_or in H. destruct H as [H|H]; [|auto].
    destruct (Hi H) as (H1 & H2 & _). auto.
  - intros H. destruct (Hi H) as (H1 & H2 & _). auto.
Qed.

End Worker.

End SignalHoundWorkerMore.

(** X9 — Every batch the SignalHound worker commits holds between 1 and
    16384 samples, the capacity of its buffer, and no more samples than
    the count it passes to [swap]; a packet reported larger than the
    buffer is not published: after the read the iteration writes the
    warning about the size, then the one about lost samples if the packet
    reports a loss, and goes on to the next iteration. *)
Theorem rx_batch_bounds
    (bbNoError bbDeviceNotStreamingErr : Z)
    (os : list SignalHound.observation) (n : Z)
    (buf : list SignalHound.complex_t) (o : SignalHound.observation) :
  (In (SignalHound.Swap n buf)
      (fst (SignalHound.rx_thread_func bbNoError bbDeviceNotStreamingErr os)) ->
     0 < n <= 16384 /\ Z.of_nat (List.length buf) <= n) /\
  (SignalHound.running_at_test o = true ->
   SignalHound.status o = bbNoError -> 16384 < SignalHound.iqCount o ->
     fst (SignalHound.iteration bbNoError bbDeviceNotStreamingErr o) =
       SignalHound.BbGetIQ (SignalHound.device_handle o) (SignalHound.purgeIQ o)
       :: SignalHound.WLog Warn
            "SignalHound BB: Received more data than buffer size: {0} > {1}"
       :: (if SignalHound.sampleLoss o
           then [SignalHound.WLog Warn
                   "SignalHound BB: Sample loss detected"]
           else []) /\
     existsb SignalHound.is_swap
       (fst (SignalHound.iteration bbNoError bbDeviceNotStreamingErr o)) = false /\
     snd (SignalHound.iteration bbNoError bbDeviceNotStreamingErr o)
       = SignalHound.Continue).
Proof.
  split.
  - intros H.
    apply (SignalHoundWorkerMore.rx_loop_swap bbNoError bbDeviceNotStreamingErr os).
    unfold SignalHound.rx_thread_func in H.
    destruct (SignalHound.loop _ _ os) as [t [|]]; simpl in *.
    + destruct H as [H|H]; [discriminate|exact H].
    + destruct H as [H|H]; [discriminate|].
      apply in_app_or in H. destruct H as [H|[H|[]]]; [exact H|discriminate].
  - intros Hr Hs Hc. unfold SignalHound.iteration. rewrite Hr, Hs, Z.eqb_refl.
    simpl.
    destruct (Z.ltb_spec 0 (SignalHound.iqCount o)); [|lia].
    destruct (Z.leb_spec (SignalHound.iqCount o) SignalHound.bufferSize) as [Hb|Hb];
      [unfold SignalHound.bufferSize in Hb; lia|].
    destruct (SignalHound.sampleLoss o); repeat split; reflexivity.
Qed.

Lemma rx_batch_bounds_witness :
  fst (SignalHound.iteration 0 (-2) bb_oversized) =
    [SignalHound.BbGetIQ 7 false;
     SignalHound.WLog Warn
       "SignalHound BB: Received more data than buffer size: {0} > {1}";
     SignalHound.WLog Warn "SignalHound BB: Sample loss detected"] /\
  existsb SignalHound.is_swap
    (fst (SignalHound.iteration 0 (-2) bb_oversized)) = false /\
  snd (SignalHound.iteration 0 (-2) bb_oversized) = SignalHound.Continue.
Proof.
  refine (proj2 (rx_batch_bounds 0 (-2) [] 0 [] bb_oversized) eq_refl eq_refl _).
  reflexivity.
Defined.

(** ** Normalisation *)

Module NormalizeMore.
Import KCSDR KCSDRSession.

Lemma normalize_step (raw : Z) :
  -32768 <= raw < 32767 ->
  (to_Q (normalize raw) < to_Q (normalize (raw + 1)))%Q.
Proof.
  intros Hr.
  assert (H0 : for_all_int16 increasing_at = true) by (vm_compute; reflexivity).
  assert (H : increasing_at raw = true)
    by (apply (for_all_int16_spec _ raw H0); lia).
  unfold increasing_at in H. apply orb_prop in H.
  destruct H as [H|H]; [apply Z.eqb_eq in H; lia|].
  apply Qnot_le_lt. intros Hle. apply Qle_bool_iff in Hle.
  rewrite Hle in H. discriminate.
Qed.

Lemma normalize_steps (raw : Z) (k : nat) :
  -32768 <= raw -> raw + 1 + Z.of_nat k <= 32767 ->
  (to_Q (normalize raw) < to_Q (normalize (raw + 1 + Z.of_nat k)))%Q.
Proof.
  intros Hlo. induction k as [|k IH]; intros Hhi.
  - rewrite Z.add_0_r. apply normalize_step. lia.
  - apply Qlt_trans with (to_Q (normalize (raw + 1 + Z.of_nat k))).
    + apply IH. lia.
    + replace (raw + 1 + Z.of_nat (S k)) with (raw + 1 + Z.of_nat k + 1) by lia.
      apply normalize_step. lia.
Qed.

End NormalizeMore.

(** X11 — Normalisation in the KC SDR worker (the raw [int16_t] value
    times [1.0f / 32767.0f], in single precision) loses nothing and keeps
    the order: for two raw 16-bit values, the smaller one gives the
    smaller sample, so different raw values give different samples, and
    every sample lies between -(1 + 2^-15) and 1. *)
Theorem normalization_increasing (a b : Z) :
  -32768 <= a <= 32767 -> -32768 <= b <= 32767 ->
  (a < b -> (to_Q (KCSDR.normalize a) < to_Q (KCSDR.normalize b))%Q) /\
  (KCSDR.normalize a = KCSDR.normalize b -> a = b) /\
  (- (32769 # 32768) <= to_Q (KCSDR.normalize a) <= 1)%Q.
Proof.
  intros Ha Hb.
  assert (Hlt : forall x y, -32768 <= x -> y <= 32767 -> x < y ->
                (to_Q (KCSDR.normalize x) < to_Q (KCSDR.normalize y))%Q).
  { intros x y Hx Hy Hxy.
    replace y with (x + 1 + Z.of_nat (Z.to_nat (y - x - 1)))
      by (rewrite Z2Nat.id; lia).
    apply NormalizeMore.normalize_steps; [exact Hx|].
    rewrite Z2Nat.id; lia. }
  split; [intros H; apply Hlt; lia|]. split.
  - intros Heq. destruct (Z.lt_trichotomy a b) as [H|[H|H]]; [|exact H|].
    + pose proof (Hlt a b (proj1 Ha) (proj2 Hb) H) as Hq.
      rewrite Heq in Hq. exfalso. exact (Qlt_irrefl _ Hq).
    + pose proof (Hlt b a (proj1 Hb) (proj2 Ha) H) as Hq.
      rewrite Heq in Hq. exfalso. exact (Qlt_irrefl _ Hq).
  - assert (Hmin : (- (32769 # 32768) <= to_Q (KCSDR.normalize (-32768)))%Q)
      by (apply Qle_bool_iff; vm_compute; reflexivity).
    assert (Hmax : (to_Q (KCSDR.normalize 32767) <= 1)%Q)
      by (apply Qle_bool_iff; vm_compute; reflexivity).
    split.
    + destruct (Z.eq_dec a (-32768)) as [->|Hne]; [exact Hmin|].
      apply Qle_trans with (to_Q (KCSDR.normalize (-32768))); [exact Hmin|].
      apply Qlt_le_weak, Hlt; lia.
    + destruct (Z.eq_dec a 32767) as [->|Hne]; [exact Hmax|].
      apply Qle_trans with (to_Q (KCSDR.normalize 32767)); [|exact Hmax].
      apply Qlt_le_weak, Hlt; lia.
Qed.

Lemma normalization_increasing_witness :
  (to_Q (KCSDR.normalize (-5)) < to_Q (KCSDR.normalize 7))%Q /\
  (- (32769 # 32768) <= to_Q (KCSDR.normalize (-5)) <= 1)%Q.
Proof.
  destruct (normalization_increasing (-5) 7) as (H1 & _ & H3).
  - split; discriminate.
  - split; discriminate.
  - split; [apply H1; reflexivity|exact H3].
Defined.

(** ** KC SDR: configuration, menu and destructor *)

Module KCSDRPanelFacts.
Import KCSDR KCSDRFacts KCSDRSession KCSDRPanel.

Ltac prun :=
  cbv [loadConfig saveConfig destructor combo_deviceType combo_sampleRate
       combo_port slider slider_att slider_gain slider_extGain
       on_core modify_core lift invoke fresh
       start stop tune coreSetInputSampleRate spawn_worker
       bind ret get modify call return_ undefined when value
       trace_of state_of outcome_of is_null negb andb orb fst snd app map
       core srId portId conf set_core set_srId set_portId set_conf
       api currentDevice running run sampleRate freq devId selectedPort
       att gain extGain workerThread
       set_currentDevice set_running set_run set_freq set_workerThread
       set_devId set_sampleRate set_selectedPort set_att set_gain set_extGain
       saved_devId saved_sampleRate saved_port saved_att saved_gain
       saved_extGain pactions filter].

(** [loadConfig] with an entry: the six members it assigns; the two
    loops touch the combo indices only. *)
Lemma loadConfig_core (q : panel) (cfg : saved) :
  conf q = Some cfg ->
  core (state_of (loadConfig q)) =
    set_extGain (to_uint8 (value (saved_extGain cfg) 1))
      (set_gain (to_uint8 (value (saved_gain cfg) 15))
         (set_att (to_uint8 (value (saved_att cfg) 0))
            (set_selectedPort (to_uint8 (value (saved_port cfg) 1))
               (set_sampleRate (value (saved_sampleRate cfg) (Float.f64_of_Z 10000000))
                  (set_devId (value (saved_devId cfg) 0) (core q)))))) /\
  conf (state_of (loadConfig q)) = conf q /\
  trace_of (loadConfig q) = [] /\
  outcome_of (loadConfig q) = Value tt.
Proof.
  destruct q as [c sr pt cf]. cbv [conf]. intros ->.
  cbv [loadConfig bind get modify_core modify ret set_core set_srId set_portId
       core conf srId portId state_of trace_of outcome_of fst snd app].
  repeat match goal with
    | |- context [first_match ?p ?v 0] =>
        destruct (first_match p v 0);
        cbv [bind get modify ret set_core set_srId set_portId
             core conf srId portId fst snd app]
    end; repeat split.
Qed.

End KCSDRPanelFacts.

(** X12 — Configuration round trip of the KC SDR module: what
    [saveConfig] stores, [loadConfig] reads back.  A fresh instance given
    the stored entry takes the device type, sample rate, port,
    attenuation, gain and external gain of the instance that saved them
    (whose 8-bit members hold 8-bit values); its other members, the tuned
    frequency among them, are not touched, and nothing is called. *)
Theorem config_round_trip (p : KCSDRPanel.panel) (c : KCSDR.instance) :
  KCSDRPanel.well_typed (KCSDRPanel.core p) ->
  let stored := KCSDRPanel.conf (state_of (KCSDRPanel.saveConfig p)) in
  let q := state_of (KCSDRPanel.loadConfig (KCSDRPanel.fresh c stored)) in
  KCSDRPanel.core q =
    KCSDRPanel.set_extGain (KCSDR.extGain (KCSDRPanel.core p))
      (KCSDRPanel.set_gain (KCSDR.gain (KCSDRPanel.core p))
         (KCSDRPanel.set_att (KCSDR.att (KCSDRPanel.core p))
            (KCSDRPanel.set_selectedPort (KCSDR.selectedPort (KCSDRPanel.core p))
               (KCSDRPanel.set_sampleRate (KCSDR.sampleRate (KCSDRPanel.core p))
                  (KCSDRPanel.set_devId (KCSDR.devId (KCSDRPanel.core p)) c))))) /\
  KCSDRPanel.conf q = stored /\
  trace_of (KCSDRPanel.loadConfig (KCSDRPanel.fresh c stored)) = [].
Proof.
  intros (Hp & Ha & Hg & He) stored q.
  destruct (KCSDRPanelFacts.loadConfig_core (KCSDRPanel.fresh c stored)
              {| KCSDRPanel.saved_devId := Some (KCSDR.devId (KCSDRPanel.core p));
                 KCSDRPanel.saved_sampleRate := Some (KCSDR.sampleRate (KCSDRPanel.core p));
                 KCSDRPanel.saved_port := Some (KCSDR.selectedPort (KCSDRPanel.core p));
                 KCSDRPanel.saved_att := Some (KCSDR.att (KCSDRPanel.core p));
                 KCSDRPanel.saved_gain := Some (KCSDR.gain (KCSDRPanel.core p));
                 KCSDRPanel.saved_extGain := Some (KCSDR.extGain (KCSDRPanel.core p)) |}
              eq_refl) as (Hc & Hf & Ht & _).
  split; [|split; [exact Hf|exact Ht]].
  unfold q. rewrite Hc. simpl. unfold KCSDRPanel.to_uint8.
  rewrite !Z.mod_small by assumption. reflexivity.
Qed.

Lemma config_round_trip_witness :
  KCSDRPanel.core
    (state_of (KCSDRPanel.loadConfig
       (KCSDRPanel.fresh kc_stopped
          (KCSDRPanel.conf (state_of (KCSDRPanel.saveConfig kc_panel)))))) =
    KCSDRPanel.set_extGain (KCSDR.extGain (KCSDRPanel.core kc_panel))
      (KCSDRPanel.set_gain (KCSDR.gain (KCSDRPanel.core kc_panel))
         (KCSDRPanel.set_att (KCSDR.att (KCSDRPanel.core kc_panel))
            (KCSDRPanel.set_selectedPort (KCSDR.selectedPort (KCSDRPanel.core kc_panel))
               (KCSDRPanel.set_sampleRate (KCSDR.sampleRate (KCSDRPanel.core kc_panel))
                  (KCSDRPanel.set_devId (KCSDR.devId (KCSDRPanel.core kc_panel))
                     kc_stopped))))).
Proof.
  refine (proj1 (config_round_trip kc_panel kc_stopped _)).
  repeat split; try discriminate; reflexivity.
Defined.


Module KCSDRMenuFacts.
Import KCSDR KCSDRFacts KCSDRSession KCSDRPanel KCSDRPanelFacts.

Lemma first_match_none {A} (p : A -> bool) (v : list A) : forall i,
  (forall x, In x v -> p x = false) -> first_match p v i = None.
Proof.
  induction v as [|x v IH]; intros i H; [reflexivity|].
  simpl. rewrite (H x (or_introl eq_refl)). apply IH.
  intros y Hy. apply H. right. exact Hy.
Qed.

(** Between handler calls a device is held only if the API table is
    there. *)
Lemma reachable_device_needs_api (s : instance) :
  reachable s -> api s = false -> currentDevice s = None.
Proof.
  induction 1 as [s Hd Hg Hn Hw|r s Hr IH]; [intros _; exact Hd|].
  pose proof (reachable_quiescent s Hr) as Hq.
  destruct s as [a d rg rn sr f di sp at_ g eg wt].
  unfold quiescent in Hq; simpl in *. destruct Hq as (-> & -> & Hq).
  destruct r as [found| |f']; destruct rg, a, d as [d|];
    try destruct found; run; settle; intros; try discriminate;
    try reflexivity;
    try (apply IH; reflexivity);
    try (destruct (Hq eq_refl); discriminate).
Qed.

(** The combo indices [loadConfig] leaves. *)
Lemma loadConfig_indices (q : panel) (cfg : saved) :
  conf q = Some cfg ->
  srId (state_of (loadConfig q)) =
    match first_match
            (fun v => SFeqb v (value (saved_sampleRate cfg) (Float.f64_of_Z 10000000)))
            samplerates 0 with
    | Some i => i
    | None => srId q
    end /\
  portId (state_of (loadConfig q)) =
    match first_match (fun v => v =? to_uint8 (value (saved_port cfg) 1)) ports 0 with
    | Some i => i
    | None => portId q
    end.
Proof.
  destruct q as [[a d rg rn r f di sp at_ g eg wt] sr pt cf]. cbv [conf]. intros ->.
  cbv [loadConfig bind get modify_core modify ret set_core set_srId set_portId
       core conf srId portId state_of trace_of outcome_of fst snd app
       api currentDevice running run sampleRate freq devId selectedPort att
       gain extGain workerThread set_devId set_sampleRate set_selectedPort
       set_att set_gain set_extGain].
  repeat match goal with
    | |- context [first_match ?p ?v 0] =>
        destruct (first_match p v 0);
        cbv [bind get modify ret set_core set_srId set_portId
             core conf srId portId fst snd app]
    end; split; reflexivity.
Qed.

End KCSDRMenuFacts.

(** X13 — The KC SDR combo indices are found again from what is stored: a
    sample rate (or a port) chosen in the menu by its index and saved is,
    when a fresh instance loads the entry, adopted together with that same
    index.  A stored sample rate that equals no entry of the table is
    adopted too, and the combo index stays where it was. *)
Theorem menu_choice_round_trip
    (p : KCSDRPanel.panel) (c : KCSDR.instance) (id : Z)
    (cfg : KCSDRPanel.saved) (q : KCSDRPanel.panel) :
  (0 <= id < 8 ->
     let stored := KCSDRPanel.conf (state_of (KCSDRPanel.combo_sampleRate id p)) in
     let l := state_of (KCSDRPanel.loadConfig (KCSDRPanel.fresh c stored)) in
     KCSDRPanel.srId l = id /\
     nth_error KCSDRPanel.samplerates (Z.to_nat id)
       = Some (KCSDR.sampleRate (KCSDRPanel.core l))) /\
  (0 <= id < 2 ->
     let stored := KCSDRPanel.conf (state_of (KCSDRPanel.combo_port id p)) in
     let l := state_of (KCSDRPanel.loadConfig (KCSDRPanel.fresh c stored)) in
     KCSDRPanel.portId l = id /\
     nth_error KCSDRPanel.ports (Z.to_nat id)
       = Some (KCSDR.selectedPort (KCSDRPanel.core l))) /\
  (KCSDRPanel.conf q = Some cfg ->
   (forall x, In x KCSDRPanel.samplerates ->
      SFeqb x (KCSDRPanel.value (KCSDRPanel.saved_sampleRate cfg)
                 (f64_of_Z 10000000)) = false) ->
     KCSDRPanel.srId (state_of (KCSDRPanel.loadConfig q)) = KCSDRPanel.srId q /\
     KCSDR.sampleRate (KCSDRPanel.core (state_of (KCSDRPanel.loadConfig q)))
       = KCSDRPanel.value (KCSDRPanel.saved_sampleRate cfg) (f64_of_Z 10000000)).
Proof.
  split; [|split].
  - intros Hid stored l.
    assert (Hs : stored =
              Some {| KCSDRPanel.saved_devId := Some (KCSDR.devId (KCSDRPanel.core p));
                      KCSDRPanel.saved_sampleRate :=
                        nth_error KCSDRPanel.samplerates (Z.to_nat id);
                      KCSDRPanel.saved_port := Some (KCSDR.selectedPort (KCSDRPanel.core p));
                      KCSDRPanel.saved_att := Some (KCSDR.att (KCSDRPanel.core p));
                      KCSDRPanel.saved_gain := Some (KCSDR.gain (KCSDRPanel.core p));
                      KCSDRPanel.saved_extGain := Some (KCSDR.extGain (KCSDRPanel.core p)) |}).
    { assert (H : id = 0 \/ id = 1 \/ id = 2 \/ id = 3 \/ id = 4 \/ id = 5
                  \/ id = 6 \/ id = 7) by lia.
      destruct H as [->|[->|[->|[->|[->|[->|[->| ->]]]]]]]; reflexivity. }
    destruct (KCSDRMenuFacts.loadConfig_indices (KCSDRPanel.fresh c stored) _ Hs)
      as [Hi _].
    destruct (KCSDRPanelFacts.loadConfig_core (KCSDRPanel.fresh c stored) _ Hs)
      as [Hc _].
    fold l in Hi, Hc. rewrite Hi, Hc. clear - Hid.
    assert (H : id = 0 \/ id = 1 \/ id = 2 \/ id = 3 \/ id = 4 \/ id = 5
                \/ id = 6 \/ id = 7) by lia.
    destruct H as [->|[->|[->|[->|[->|[->|[->| ->]]]]]]];
      split; vm_compute; reflexivity.
  - intros Hid stored l.
    assert (Hs : stored =
              Some {| KCSDRPanel.saved_devId := Some (KCSDR.devId (KCSDRPanel.core p));
                      KCSDRPanel.saved_sampleRate := Some (KCSDR.sampleRate (KCSDRPanel.core p));
                      KCSDRPanel.saved_port :=
                        option_map KCSDRPanel.to_uint8
                          (nth_error KCSDRPanel.ports (Z.to_nat id));
                      KCSDRPanel.saved_att := Some (KCSDR.att (KCSDRPanel.core p));
                      KCSDRPanel.saved_gain := Some (KCSDR.gain (KCSDRPanel.core p));
                      KCSDRPanel.saved_extGain := Some (KCSDR.extGain (KCSDRPanel.core p)) |}).
    { assert (H : id = 0 \/ id = 1) by lia.
      destruct H as [->| ->]; reflexivity. }
    destruct (KCSDRMenuFacts.loadConfig_indices (KCSDRPanel.fresh c stored) _ Hs)
      as [_ Hi].
    destruct (KCSDRPanelFacts.loadConfig_core (KCSDRPanel.fresh c stored) _ Hs)
      as [Hc _].
    fold l in Hi, Hc. rewrite Hi, Hc. clear - Hid.
    assert (H : id = 0 \/ id = 1) by lia.
    destruct H as [->| ->]; split; vm_compute; reflexivity.
  - intros Hc Hnone.
    destruct (KCSDRPanelFacts.loadConfig_core q cfg Hc) as (Hcore & _).
    destruct (KCSDRMenuFacts.loadConfig_indices q cfg Hc) as (Hi & _).
    split; [|rewrite Hcore; reflexivity].
    rewrite Hi, (KCSDRMenuFacts.first_match_none _ KCSDRPanel.samplerates 0)
      by exact Hnone.
    reflexivity.
Qed.

Lemma menu_choice_round_trip_witness :
  KCSDRPanel.srId
    (state_of (KCSDRPanel.loadConfig
       (KCSDRPanel.fresh kc_stopped
          (KCSDRPanel.conf (state_of (KCSDRPanel.combo_sampleRate 5 kc_panel))))))
  = 5 /\
  KCSDRPanel.portId
    (state_of (KCSDRPanel.loadConfig
       (KCSDRPanel.fresh kc_stopped
          (KCSDRPanel.conf (state_of (KCSDRPanel.combo_port 1 kc_panel))))))
  = 1.
Proof.
  destruct (menu_choice_round_trip kc_panel kc_stopped 5
              {| KCSDRPanel.saved_devId := None;
                 KCSDRPanel.saved_sampleRate := None;
                 KCSDRPanel.saved_port := None; KCSDRPanel.saved_att := None;
                 KCSDRPanel.saved_gain := None;
                 KCSDRPanel.saved_extGain := None |} kc_panel) as (H5 & _ & _).
  destruct (menu_choice_round_trip kc_panel kc_stopped 1
              {| KCSDRPanel.saved_devId := None;
                 KCSDRPanel.saved_sampleRate := None;
                 KCSDRPanel.saved_port := None; KCSDRPanel.saved_att := None;
                 KCSDRPanel.saved_gain := None;
                 KCSDRPanel.saved_extGain := None |} kc_panel) as (_ & H1 & _).
  split.
  - apply H5. split; [discriminate|reflexivity].
  - apply H1. split; [discriminate|reflexivity].
Defined.

(** X14 — A value chosen with one of the three KC SDR sliders reaches the
    device: with the stream running by one call of the matching setter on
    the device held, and with the stream stopped by no call at all until
    the next [start], which passes the chosen value to the device it
    configures ([devId] being an id of [deviceTypes], and the frequency
    and sample rate having a [uint64_t] value, so that this [start] is
    defined). *)
Theorem slider_reaches_device
    (sl : Z -> KCSDRPanel.P unit) (ev : option KCSDR.sdr_obj -> Z -> KCSDR.event)
    (p : KCSDRPanel.panel) (v : Z) (found : option KCSDR.sdr_obj) :
  In (sl, ev) [(KCSDRPanel.slider_att, KCSDR.RxAtt);
               (KCSDRPanel.slider_gain, KCSDR.RxAmp);
               (KCSDRPanel.slider_extGain, KCSDR.RxExtAmp)] ->
  0 <= v < 256 ->
  KCSDR.quiescent (KCSDRPanel.core p) ->
  trace_of (sl v p) =
    (if KCSDR.running (KCSDRPanel.core p)
     then [KCSDRPanel.Core (ev (KCSDR.currentDevice (KCSDRPanel.core p)) v)]
     else []) /\
  outcome_of (sl v p) = Value tt /\
  (KCSDR.running (KCSDRPanel.core p) = false ->
   KCSDR.api (KCSDRPanel.core p) = true ->
   KCSDR.well_formed (KCSDRPanel.core p) ->
   KCSDRSession.device_used found (KCSDRPanel.core p) <> None ->
   In (ev (KCSDRSession.device_used found (KCSDRPanel.core p)) v)
      (KCSDR.actions
         (trace_of (KCSDR.start found (KCSDRPanel.core (state_of (sl v p)))))) /\
   outcome_of (KCSDR.start found (KCSDRPanel.core (state_of (sl v p))))
     = Value tt).
Proof.
  intros Hin Hv Hq.
  destruct p as [[a d rg rn sr f di sp at_ g eg wt] si pi cf].
  unfold KCSDR.quiescent, KCSDR.well_formed in *; simpl in *.
  destruct Hq as (-> & -> & Hq).
  assert (Hm : KCSDRPanel.to_uint8 v = v)
    by (unfold KCSDRPanel.to_uint8; apply Z.mod_small; exact Hv).
  split; [|split].
  - destruct Hin as [H|[H|[H|[]]]]; injection H as <- <-;
      (destruct rg; [destruct (Hq eq_refl) as [-> _]|]);
      KCSDRPanelFacts.prun; rewrite ?Hm; reflexivity.
  - destruct Hin as [H|[H|[H|[]]]]; injection H as <- <-;
      (destruct rg; [destruct (Hq eq_refl) as [-> _]|]);
      KCSDRPanelFacts.prun; reflexivity.
  - intros -> -> (Hi & Hf & Hs) Hd.
    destruct (KCSDRFacts.deviceTypes_lookup di Hi) as [ty Hty].
    assert (Hlt : (di <? 0) = false) by (apply Z.ltb_ge; lia).
    destruct (to_uint64 f) as [vf|] eqn:Ef; [|congruence].
    destruct (to_uint64 sr) as [vs|] eqn:Es; [|congruence].
    unfold KCSDRSession.device_used in *; simpl in *.
    destruct Hin as [H|[H|[H|[]]]]; injection H as <- <-;
      KCSDRPanelFacts.prun; rewrite ?Hm;
      (destruct d as [d|]; [|destruct found as [d|]; [|congruence]]);
      KCSDRFacts.run; KCSDRFacts.settle; simpl; (split; [tauto|reflexivity]).
Qed.

Lemma slider_reaches_device_witness :
  trace_of (KCSDRPanel.slider_gain 24 kc_panel) = [] /\
  In (KCSDR.RxAmp (Some 3) 24)
     (KCSDR.actions
        (trace_of (KCSDR.start (Some 3)
           (KCSDRPanel.core (state_of (KCSDRPanel.slider_gain 24 kc_panel)))))).
Proof.
  destruct (slider_reaches_device KCSDRPanel.slider_gain KCSDR.RxAmp kc_panel 24
              (Some 3)) as (Ht & _ & Hs).
  - right; left; reflexivity.
  - split; [discriminate|reflexivity].
  - repeat split; intros; discriminate.
  - split; [exact Ht|].
    apply Hs; [reflexivity|reflexivity| |discriminate].
    split; [split; [discriminate|reflexivity]|split; discriminate].
Defined.

(** The sample rates of the table are whole numbers of hertz: the rate
    at id [i] is 5 MHz times [i + 1], as a [double] and as [uint64_t]. *)
Lemma samplerates_uint64 (id : Z) (r : double) :
  0 <= id -> nth_error KCSDRPanel.samplerates (Z.to_nat id) = Some r ->
  id < 8 /\ to_uint64 r = Some (5000000 * (id + 1)).
Proof.
  intros Hid Hr.
  assert (Hlt : id < 8).
  { assert (H : nth_error KCSDRPanel.samplerates (Z.to_nat id) <> None)
      by congruence.
    apply nth_error_Some in H. unfold KCSDRPanel.samplerates in H.
    rewrite length_map in H. simpl in H. lia. }
  split; [exact Hlt|].
  assert (H : id = 0 \/ id = 1 \/ id = 2 \/ id = 3 \/ id = 4 \/ id = 5
              \/ id = 6 \/ id = 7) by lia.
  destruct H as [->|[->|[->|[->|[->|[->|[->| ->]]]]]]];
    injection Hr as <-; vm_compute; reflexivity.
Qed.

(** X15 — "Stop and Start to apply changes": a sample rate, a port or a
    device type chosen in the KC SDR menu makes no call at all when it is
    chosen; the next [start] of the stopped instance sets the chosen sample
    rate (5 MHz times the id plus one) as the device bandwidth and
    notifies it to the core, selects the chosen port, and looks for a
    device of the chosen type if none is held.  The instance holds an id
    of [deviceTypes] and a frequency and sample rate with a [uint64_t]
    value, and the ids chosen are ids of their tables. *)
Theorem combo_applied_at_start
    (p : KCSDRPanel.panel) (id : Z) (found : option KCSDR.sdr_obj) :
  KCSDR.quiescent (KCSDRPanel.core p) ->
  KCSDR.well_formed (KCSDRPanel.core p) ->
  KCSDR.running (KCSDRPanel.core p) = false ->
  KCSDR.api (KCSDRPanel.core p) = true ->
  KCSDRSession.device_used found (KCSDRPanel.core p) <> None ->
  let dev := KCSDRSession.device_used found (KCSDRPanel.core p) in
  let started (c : KCSDRPanel.P unit) :=
    KCSDR.start found (KCSDRPanel.core (state_of (c p))) in
  (forall r, 0 <= id -> nth_error KCSDRPanel.samplerates (Z.to_nat id) = Some r ->
     trace_of (KCSDRPanel.combo_sampleRate id p) = [] /\
     In (KCSDR.RxBw dev (5000000 * (id + 1)))
        (trace_of (started (KCSDRPanel.combo_sampleRate id))) /\
     In (KCSDR.SetInputSampleRate r)
        (trace_of (started (KCSDRPanel.combo_sampleRate id))) /\
     outcome_of (started (KCSDRPanel.combo_sampleRate id)) = Value tt) /\
  (forall v, 0 <= id -> nth_error KCSDRPanel.ports (Z.to_nat id) = Some v ->
     trace_of (KCSDRPanel.combo_port id p) = [] /\
     In (KCSDR.RxPort dev v) (trace_of (started (KCSDRPanel.combo_port id))) /\
     outcome_of (started (KCSDRPanel.combo_port id)) = Value tt) /\
  trace_of (KCSDRPanel.combo_deviceType id p) = [] /\
  (forall ty, 0 <= id ->
     nth_error KCSDR.deviceTypes (Z.to_nat id) = Some ty ->
     KCSDR.currentDevice (KCSDRPanel.core p) = None ->
     In (KCSDR.ApiFind ty) (trace_of (started (KCSDRPanel.combo_deviceType id))) /\
     outcome_of (started (KCSDRPanel.combo_deviceType id)) = Value tt).
Proof.
  destruct p as [[a d rg rn sr f di sp at_ g eg wt] si pi cf].
  unfold KCSDR.quiescent, KCSDR.well_formed, KCSDRSession.device_used; simpl.
  intros (-> & -> & _) (Hi & Hf & Hs) -> -> Hd.
  destruct (KCSDRFacts.deviceTypes_lookup di Hi) as [ty0 Hty0].
  assert (Hlt0 : (di <? 0) = false) by (apply Z.ltb_ge; lia).
  destruct (to_uint64 f) as [vf|] eqn:Ef; [|congruence].
  destruct (to_uint64 sr) as [vs|] eqn:Es; [|congruence].
  assert (Hlt : forall z, 0 <= z -> (z <? 0) = false)
    by (intros z Hz; apply Z.ltb_ge; exact Hz).
  split; [|split; [|split]].
  - intros r Hid Hr.
    destruct (samplerates_uint64 id r Hid Hr) as [Hid8 Er].
    assert (Hm : KCSDR.to_uint32 (5000000 * (id + 1)) = 5000000 * (id + 1)).
    { unfold KCSDR.to_uint32. apply Z.mod_small.
      change (2 ^ 32) with 4294967296. lia. }
    unfold KCSDRPanel.combo_sampleRate, index. rewrite (Hlt id Hid), Hr.
    destruct d as [d|]; [|destruct found as [d|]; [|congruence]];
      KCSDRPanelFacts.prun; KCSDRFacts.run; KCSDRFacts.settle; rewrite Hm;
      simpl; tauto.
  - intros v Hid Hv.
    assert (Hm : KCSDRPanel.to_uint8 v = v).
    { assert (H : id = 0 \/ id = 1 \/ 2 <= id) by lia.
      destruct H as [->|[->|H]];
        [injection Hv as <-; reflexivity|injection Hv as <-; reflexivity|].
      exfalso. assert (H2 : (2 <= Z.to_nat id)%nat) by lia.
      apply (nth_error_None KCSDRPanel.ports) in H2. congruence. }
    unfold KCSDRPanel.combo_port, index. rewrite (Hlt id Hid), Hv.
    destruct d as [d|]; [|destruct found as [d|]; [|congruence]];
      KCSDRPanelFacts.prun; rewrite Hm; KCSDRFacts.run; KCSDRFacts.settle;
      simpl; tauto.
  - reflexivity.
  - intros ty Hid Hty ->. destruct found as [d|]; [|congruence].
    pose proof (Hlt id Hid) as Hlt1.
    KCSDRPanelFacts.prun; KCSDRFacts.run; KCSDRFacts.settle; simpl; tauto.
Qed.

Lemma combo_applied_at_start_witness :
  In (KCSDR.RxBw (Some 3) 30000000)
     (trace_of (KCSDR.start (Some 3)
        (KCSDRPanel.core (state_of (KCSDRPanel.combo_sampleRate 5 kc_panel))))).
Proof.
  destruct (combo_applied_at_start kc_panel 5 (Some 3)) as (H & _).
  - repeat split; intros; discriminate.
  - split; [split; [discriminate|reflexivity]|split; discriminate].
  - reflexivity.
  - reflexivity.
  - discriminate.
  - apply (H (f64_of_Z 30000000)); [discriminate|reflexivity].
Defined.

(** X16 — The KC SDR destructor on an instance as the handlers leave it:
    a running stream is stopped and its worker joined before the device
    is closed; a held device is closed by exactly one [close], after which
    no device is held; the source is unregistered last, whatever the
    state; and no thread, run flag or running flag is left set. *)
Theorem destructor_releases (p : KCSDRPanel.panel) :
  KCSDR.reachable (KCSDRPanel.core p) ->
  let c := KCSDRPanel.core p in
  let d := KCSDR.currentDevice c in
  let r := KCSDRPanel.destructor p in
  KCSDRPanel.pactions (trace_of r) =
    (if KCSDR.running c
     then map KCSDRPanel.Core
            [KCSDR.RxStop d; KCSDR.StopWriter; KCSDR.Join; KCSDR.ClearWriteStop]
     else [])
    ++ (if KCSDR.is_null d then [] else [KCSDRPanel.ApiClose d])
    ++ [KCSDRPanel.UnregisterSource] /\
  KCSDRPanel.core (state_of r) =
    KCSDR.set_running false
      (KCSDR.set_workerThread false
         (KCSDR.set_run false (KCSDR.set_currentDevice None c))) /\
  outcome_of r = Value tt.
Proof.
  intros Hr c d r.
  pose proof (KCSDRFacts.reachable_quiescent _ Hr) as Hq.
  pose proof (KCSDRMenuFacts.reachable_device_needs_api _ Hr) as Ha.
  subst r d c.
  destruct p as [[a d rg rn sr f di sp at_ g eg wt] si pi cf].
  unfold KCSDR.quiescent in Hq; simpl in *. destruct Hq as (-> & -> & Hq).
  destruct rg.
  - destruct (Hq eq_refl) as [-> Hd].
    destruct d as [d|]; [|congruence].
    KCSDRPanelFacts.prun. repeat split.
  - destruct a.
    + destruct d as [d|]; KCSDRPanelFacts.prun; repeat split.
    + rewrite (Ha eq_refl). KCSDRPanelFacts.prun. repeat split.
Qed.

Lemma destructor_releases_witness :
  KCSDRPanel.pactions
    (trace_of (KCSDRPanel.destructor (KCSDRPanel.fresh kc_running None))) =
    [KCSDRPanel.Core (KCSDR.RxStop (KCSDR.currentDevice kc_running));
     KCSDRPanel.Core KCSDR.StopWriter; KCSDRPanel.Core KCSDR.Join;
     KCSDRPanel.Core KCSDR.ClearWriteStop;
     KCSDRPanel.ApiClose (KCSDR.currentDevice kc_running);
     KCSDRPanel.UnregisterSource].
Proof.
  refine (proj1 (destructor_releases (KCSDRPanel.fresh kc_running None) _)).
  apply (KCSDR.reachable_handle (KCSDR.Start (KCSDR.currentDevice kc_running))
           kc_stopped).
  apply KCSDR.reachable_loaded; reflexivity.
Defined.

Module KCSDRLifetimeFacts.
Import KCSDR KCSDRFacts KCSDRPanel KCSDRPanelFacts.

Lemma handle_all_reachable rs : forall s,
  reachable s -> reachable (state_of (handle_all rs s)).
Proof.
  induction rs as [|r rs IH]; intros s Hs; [exact Hs|].
  pose proof (reachable_handle r s Hs) as Hr.
  specialize (IH _ Hr). revert Hr IH.
  unfold handle_all, state_of; simpl.
  destruct (handle r s) as [[t s'] o]; simpl.
  destruct (sequence (map handle rs) s') as [[t' s''] o']; simpl.
  destruct o as [[]| |]; simpl; auto.
Qed.

Lemma handle_all_alive rs : forall s,
  quiescent s -> well_formed s -> Forall tunable rs ->
  alive (threads s) (trace_of (handle_all rs s)) =
    threads (state_of (handle_all rs s)).
Proof.
  induction rs as [|r rs IH]; intros s Hs Hw Hrs; [reflexivity|].
  inversion Hrs as [|r' rs' Hr Hrs']; subst r' rs'.
  pose proof (quiescent_handle r s Hs) as Hq.
  pose proof (well_formed_handle r s Hw Hr) as Hw'.
  destruct (handle_counter r s Hs Hw Hr) as (_ & Ha & _).
  specialize (IH _ Hq Hw' Hrs'). revert Ha IH.
  unfold handle_all, state_of, trace_of; simpl.
  destruct (handle r s) as [[t s'] o]; simpl.
  destruct (sequence (map handle rs) s') as [[t' s''] o']; simpl.
  intros Ha IH.
  destruct o as [[]| |]; simpl; try exact Ha;
    unfold alive, threads_alive in *; rewrite fold_left_app, Ha; exact IH.
Qed.

Lemma core_events_app t1 t2 :
  core_events (t1 ++ t2) = core_events t1 ++ core_events t2.
Proof. unfold core_events. apply flat_map_app. Qed.

Lemma core_events_map t : core_events (map Core t) = t.
Proof.
  induction t as [|e t IH]; [reflexivity|]. simpl. rewrite IH. reflexivity.
Qed.

Lemma constructor_reachable api_ok stored :
  reachable (core (state_of (constructor api_ok stored))) /\
  core_events (trace_of (constructor api_ok stored)) =
    (if api_ok then [] else [Log Error "KC SDR: Failed to initialize API"]) /\
  threads (core (state_of (constructor api_ok stored))) = 0.
Proof.
  destruct stored as [cfg|], api_ok;
    unfold constructor; prun; cbv [constructed];
    repeat match goal with
      | |- context [first_match ?p ?v 0] =>
          destruct (first_match p v 0);
          cbv [bind get modify ret call set_core set_srId set_portId
               core conf srId portId fst snd app]
      end;
    (split; [apply reachable_loaded; reflexivity|split; reflexivity]).
Qed.

(** The constructor leaves a device type id of the list and rates with a
    [uint64_t] value when the stored configuration holds such values. *)
Lemma constructor_well_formed api_ok stored :
  (forall cfg, stored = Some cfg ->
     0 <= value (saved_devId cfg) 0 < 2 /\
     to_uint64 (value (saved_sampleRate cfg) (f64_of_Z 10000000)) <> None) ->
  well_formed (core (state_of (constructor api_ok stored))).
Proof.
  intros H. unfold well_formed.
  destruct stored as [cfg|].
  - destruct (H cfg eq_refl) as (Hi & Hs).
    destruct cfg as [[di|] [sr|] po ao go eo];
      unfold value, saved_devId, saved_sampleRate in Hi, Hs;
    destruct api_ok;
      unfold constructor; prun; cbv [constructed];
      repeat match goal with
        | |- context [first_match ?p ?v 0] =>
            destruct (first_match p v 0);
            cbv [bind get modify ret call set_core set_srId set_portId
                 core conf srId portId fst snd app]
        end;
      cbv [devId freq sampleRate];
      (split; [exact Hi|split; [discriminate|exact Hs]]).
  - destruct api_ok; unfold constructor; prun; cbv [constructed devId freq sampleRate];
      (split; [split; [discriminate|reflexivity]|split; discriminate]).
Qed.

(** The destructor on an instance as the handlers leave it. *)
Lemma destructor_counter (p : panel) :
  reachable (core p) ->
  let r := destructor p in
  peak (threads (core p)) (core_events (trace_of r)) <= 1 /\
  alive (threads (core p)) (core_events (trace_of r)) = 0 /\
  outcome_of r = Value tt /\
  running (core (state_of r)) = false /\
  workerThread (core (state_of r)) = false /\
  currentDevice (core (state_of r)) = None.
Proof.
  intros Hr r.
  pose proof (reachable_quiescent _ Hr) as Hq.
  pose proof (KCSDRMenuFacts.reachable_device_needs_api _ Hr) as Ha.
  subst r.
  destruct p as [[a d rg rn sr f di sp at_ g eg wt] si pi cf].
  unfold quiescent, threads in *; simpl in *. destruct Hq as (-> & -> & Hq).
  destruct rg.
  - destruct (Hq eq_refl) as [-> Hd].
    destruct d as [d|]; [|congruence].
    prun. cbv. repeat split; discriminate.
  - destruct a.
    + destruct d as [d|]; prun; cbv; repeat split; discriminate.
    + rewrite (Ha eq_refl). prun. cbv. repeat split; discriminate.
Qed.

End KCSDRLifetimeFacts.

(** X17 — A whole life of a KC SDR instance: constructed with or without
    the API table and with a stored configuration, if any, whose device
    type id is one of the list and whose sample rate has a [uint64_t]
    value, driven by any sequence of [start], [stop] and [tune] requests
    with any answers of [find] and frequencies that have a [uint64_t]
    value, then destroyed.  The run stays inside defined behaviour and
    ends normally; along it never more than one worker thread exists, and
    none is left at the end; and the instance ends stopped and holding no
    device. *)
Theorem lifetime_is_clean
    (api_ok : bool) (stored : option KCSDRPanel.saved)
    (rs : list KCSDR.request) :
  (forall cfg, stored = Some cfg ->
     0 <= KCSDRPanel.value (KCSDRPanel.saved_devId cfg) 0 < 2 /\
     to_uint64 (KCSDRPanel.value (KCSDRPanel.saved_sampleRate cfg)
                  (f64_of_Z 10000000)) <> None) ->
  Forall KCSDR.tunable rs ->
  let r := KCSDRPanel.lifetime api_ok stored rs in
  outcome_of r = Value tt /\
  KCSDR.peak 0 (KCSDRPanel.core_events (trace_of r)) <= 1 /\
  KCSDR.alive 0 (KCSDRPanel.core_events (trace_of r)) = 0 /\
  KCSDR.running (KCSDRPanel.core (state_of r)) = false /\
  KCSDR.workerThread (KCSDRPanel.core (state_of r)) = false /\
  KCSDR.currentDevice (KCSDRPanel.core (state_of r)) = None.
Proof.
  intros Hst Hrs.
  pose proof (KCSDRLifetimeFacts.constructor_reachable api_ok stored)
    as (Hr0 & Ht0 & Hn0).
  pose proof (KCSDRLifetimeFacts.constructor_well_formed api_ok stored Hst)
    as Hw0.
  unfold KCSDRPanel.lifetime.
  destruct (KCSDRPanel.constructor api_ok stored) as [[t0 p0] o0].
  unfold state_of, trace_of in Hr0, Ht0, Hn0, Hw0; simpl in Hr0, Ht0, Hn0, Hw0.
  pose proof (KCSDRFacts.reachable_quiescent _ Hr0) as Hq0.
  destruct (KCSDRFacts.handle_all_counter rs _ Hq0 Hw0 Hrs) as (Hp1 & Ho1).
  pose proof (KCSDRLifetimeFacts.handle_all_alive rs _ Hq0 Hw0 Hrs) as Ha1.
  pose proof (KCSDRLifetimeFacts.handle_all_reachable rs _ Hr0) as Hr1.
  rewrite Hn0 in Hp1, Ha1.
  unfold KCSDRPanel.on_core, lift.
  unfold state_of, trace_of, outcome_of in Hp1, Ho1, Ha1, Hr1.
  destruct (KCSDR.handle_all rs (KCSDRPanel.core p0)) as [[t1 s1] o1];
    simpl in Hp1, Ho1, Ha1, Hr1.
  set (p1 := KCSDRPanel.set_core s1 p0).
  assert (Hc1 : KCSDRPanel.core p1 = s1) by reflexivity.
  pose proof (KCSDRLifetimeFacts.destructor_counter p1) as Hd.
  rewrite Hc1 in Hd. specialize (Hd Hr1).
  unfold state_of, trace_of, outcome_of in Hd.
  destruct (KCSDRPanel.destructor p1) as [[t2 p2] o2]; simpl in Hd.
  destruct Hd as (Hp2 & Ha2 & Ho2 & Hrun & Hwt & Hdev).
  assert (Hce : KCSDRPanel.core_events (t0 ++ map KCSDRPanel.Core t1 ++ t2) =
                KCSDRPanel.core_events t0 ++ t1 ++ KCSDRPanel.core_events t2).
  { rewrite !KCSDRLifetimeFacts.core_events_app,
            KCSDRLifetimeFacts.core_events_map. reflexivity. }
  assert (H0 : KCSDR.peak 0 (KCSDRPanel.core_events t0) = 0 /\
               KCSDR.alive 0 (KCSDRPanel.core_events t0) = 0).
  { rewrite Ht0. destruct api_ok; split; reflexivity. }
  destruct H0 as (Hp0 & Ha0).
  destruct o1 as [[]| |]; [| |congruence];
    cbv [state_of trace_of outcome_of fst snd]; rewrite Hce;
    (split; [exact Ho2|]);
    (split;
     [ unfold KCSDR.peak, KCSDR.alive in *;
       rewrite (peak_app KCSDR.is_spawn KCSDR.is_join), Hp0, Ha0;
       rewrite (peak_app KCSDR.is_spawn KCSDR.is_join), Ha1; lia
     | split;
       [ unfold KCSDR.alive, threads_alive in *;
         rewrite fold_left_app, Ha0, fold_left_app, Ha1; exact Ha2
       | repeat split; assumption ] ]).
Qed.

Lemma lifetime_is_clean_witness :
  let r := KCSDRPanel.lifetime true None
             [KCSDR.Start (Some 3); KCSDR.Tune (f64_of_Z 433000000);
              KCSDR.Start (Some 3); KCSDR.Stop; KCSDR.Start None] in
  outcome_of r = Value tt /\
  KCSDR.peak 0 (KCSDRPanel.core_events (trace_of r)) <= 1 /\
  KCSDR.alive 0 (KCSDRPanel.core_events (trace_of r)) = 0.
Proof.
  destruct (lifetime_is_clean true None
              [KCSDR.Start (Some 3); KCSDR.Tune (f64_of_Z 433000000);
               KCSDR.Start (Some 3); KCSDR.Stop; KCSDR.Start None])
    as (Ho & Hp & Ha & _).
  - intros cfg H. discriminate H.
  - repeat constructor. discriminate.
  - split; [exact Ho|split; [exact Hp|exact Ha]].
Defined.

(** ** SignalHound BB: device list, selection, configuration and menu *)

Module SignalHoundPanelFacts.
Import SignalHound SignalHoundFacts SignalHoundSession SignalHoundPanel.

Lemma first_match_some {A} (p : A -> bool) (v : list A) : forall i k,
  first_match p v i = Some k ->
  i <= k /\
  (exists x, nth_error v (Z.to_nat (k - i)) = Some x /\ p x = true) /\
  (forall j x, (j < Z.to_nat (k - i))%nat -> nth_error v j = Some x -> p x = false).
Proof.
  induction v as [|y v IH]; intros i k H; [discriminate|].
  simpl in H. destruct (p y) eqn:Hy.
  - injection H as <-. rewrite Z.sub_diag. split; [lia|]. split.
    + exists y. split; [reflexivity|exact Hy].
    + intros j x Hj. simpl in Hj. lia.
  - destruct (IH _ _ H) as (Hle & (x & Hx & Hpx) & Hb).
    assert (E : Z.to_nat (k - i) = S (Z.to_nat (k - (i + 1)))) by lia.
    split; [lia|]. rewrite E. split.
    + exists x. split; [exact Hx|exact Hpx].
    + intros [|j] x' Hj Hn.
      * injection Hn as <-. exact Hy.
      * apply (Hb j x'); [lia|exact Hn].
Qed.

Lemma first_match_in {A} (p : A -> bool) (v : list A) (i : Z) (x : A) :
  In x v -> p x = true -> exists k, first_match p v i = Some k.
Proof.
  revert i. induction v as [|y v IH]; intros i Hin Hp; [contradiction|].
  simpl. destruct (p y) eqn:Hy; [eexists; reflexivity|].
  destruct Hin as [->|Hin]; [congruence|apply IH; assumption].
Qed.

(** The loop of [selectBySerial]: the first index holding [serial]. *)
Lemma find_serial (serial : Z) (v : list Z) :
  match first_match (fun x => x =? serial) v 0 with
  | Some k =>
      0 <= k /\ nth_error v (Z.to_nat k) = Some serial /\
      (forall j, (j < Z.to_nat k)%nat -> nth_error v j <> Some serial)
  | None => ~ In serial v
  end.
Proof.
  destruct (first_match _ v 0) as [k|] eqn:E.
  - destruct (first_match_some _ _ _ _ E) as (Hle & (x & Hx & Hp) & Hb).
    rewrite Z.sub_0_r in *. apply Z.eqb_eq in Hp. subst x.
    split; [exact Hle|split; [exact Hx|]].
    intros j Hj Hn. specialize (Hb j serial Hj Hn).
    rewrite Z.eqb_refl in Hb. discriminate.
  - intros Hin.
    destruct (first_match_in (fun x => x =? serial) v 0 serial Hin
                (Z.eqb_refl serial)) as [k Hk].
    congruence.
Qed.

Lemma int_of_run (z : Z) (p : panel) :
  is_int z = true -> int_of z p = ([], p, Value z).
Proof. intros H. unfold int_of. rewrite H. reflexivity. Qed.

Ltac srun :=
  cbv [refresh selectBySerial constructor destructor menuSelected
       updateRefLevel save_if_dirty menuHandler initial default_entry idle
       on_core modify_core lift invoke
       bind ret get modify call return_ undefined when
       trace_of state_of outcome_of negb andb orb fst snd app map
       core devId devList selectedSerStr configDirty purgeIQ conf
       set_core set_devId set_devList set_selectedSerStr set_configDirty
       set_purgeIQ set_conf device devices set_device set_devices
       device_combo refresh_button decimation_combo bandwidth_slider
       gain_combo attenuation_combo refLevel_slider purge_checkbox
       c_decimationId c_refLevel c_bandwidth c_gain c_attenuation
       running rxThread deviceHandle freq selectedSerial decimationId
       bandwidthHz refLevel gain attenuation actualSampleRate
       set_running set_rxThread set_deviceHandle set_freq set_bandwidthHz
       set_actualSampleRate set_selectedSerial set_decimationId set_refLevel
       set_gain set_attenuation].

(** The [int] computations of the combos, settled by the hypotheses. *)
Ltac ints :=
  repeat match goal with
  | H : is_int ?z = true |- context [int_of ?z ?s] =>
      rewrite (int_of_run z s H); cbv beta iota zeta
  end.

Section Vendor.
Variables bbNoError BB_AUTO_GAIN BB_AUTO_ATTEN : Z.

Local Abbreviation selectBySerial := (selectBySerial BB_AUTO_GAIN BB_AUTO_ATTEN).
Local Abbreviation default_entry := (default_entry BB_AUTO_GAIN BB_AUTO_ATTEN).

(** What [selectBySerial] does once the index is settled on [k], the
    device at that index being [v]. *)
Lemma select_settled (serial : Z) (p : panel) (k v : Z) :
  0 <= k -> nth_error (devList p) (Z.to_nat k) = Some v ->
  (first_match (fun x => x =? serial) (devList p) 0 = Some k \/
   first_match (fun x => x =? serial) (devList p) 0 = None /\ k = 0) ->
  let q := state_of (selectBySerial serial p) in
  devId q = k /\ devList q = devList p /\
  selectedSerial (core q) = v /\ selectedSerStr q = Some v /\
  configDirty q = configDirty p /\ purgeIQ q = purgeIQ p /\
  device (conf q) = device (conf p) /\
  running (core q) = running (core p) /\
  rxThread (core q) = rxThread (core p) /\
  deviceHandle (core q) = deviceHandle (core p) /\
  freq (core q) = freq (core p) /\
  actualSampleRate (core q) = actualSampleRate (core p) /\
  outcome_of (selectBySerial serial p) = Value tt /\
  actions (core_events (trace_of (selectBySerial serial p))) = [] /\
  match devices (conf p) (Some v) with
  | None =>
      devices (conf q) = store (Some v) default_entry (devices (conf p)) /\
      core q = set_selectedSerial v (core p) /\
      trace_of (selectBySerial serial p) = []
  | Some e =>
      conf q = conf p /\
      decimationId (core q) =
        match c_decimationId e with Some x => x | None => decimationId (core p) end /\
      refLevel (core q) =
        match c_refLevel e with Some x => x | None => refLevel (core p) end /\
      bandwidthHz (core q) =
        match c_bandwidth e with
        | Some x =>
            if Float.f64_lt (Float.f64_of_f32 x) (Float.f64_of_Z 1000)
            then Float.f32_of_f64 (Float.f64_of_Z 500000) else x
        | None => bandwidthHz (core p)
        end /\
      gain (core q) =
        match c_gain e with Some x => x | None => gain (core p) end /\
      attenuation (core q) =
        match c_attenuation e with Some x => x | None => attenuation (core p) end
  end.
Proof.
  destruct p as [[rg th h f ser dec bw ref g a rate] di dl ss cd pq [dv ds]].
  cbv [devList core conf devices]. intros Hk Hv Hfm.
  assert (Hk0 : (k <? 0) = false) by (apply Z.ltb_ge; exact Hk).
  assert (Hk1 : (k =? -1) = false) by (apply Z.eqb_neq; lia).
  unfold SignalHoundPanel.selectBySerial.
  cbv [bind get modify ret state_of outcome_of trace_of fst snd app
       set_devId devList core conf devId selectedSerStr configDirty purgeIQ].
  destruct Hfm as [->|[-> ->]].
  - cbv [bind get modify ret when return_ index fst snd app set_devId devList
         core conf devId selectedSerStr configDirty purgeIQ].
    rewrite Hk1, Hk0, Hv.
    srun.
    destruct (ds (Some v)) as [[e1 e2 e3 e4 e5]|]; cbv beta iota;
      [|repeat split].
    destruct e1, e2, e3 as [x|], e4, e5; cbv beta iota;
      try destruct (Float.f64_lt (Float.f64_of_f32 x) (Float.f64_of_Z 1000));
      cbv beta iota; repeat split.
  - destruct dl as [|v0 dl]; [discriminate|]. simpl in Hv. injection Hv as ->.
    change (-1 =? -1) with true.
    srun. cbv [index nth_error Z.to_nat Z.ltb Z.compare]. srun.
    destruct (ds (Some v)) as [[e1 e2 e3 e4 e5]|]; cbv beta iota;
      [|repeat split].
    destruct e1, e2, e3 as [x|], e4, e5; cbv beta iota;
      try destruct (Float.f64_lt (Float.f64_of_f32 x) (Float.f64_of_Z 1000));
      cbv beta iota; repeat split.
Qed.

(** [selectBySerial] makes no call: at most it writes the warning about
    a stored bandwidth. *)
Lemma select_quiet (serial : Z) (p : panel) (k v : Z) :
  0 <= k -> nth_error (devList p) (Z.to_nat k) = Some v ->
  (first_match (fun x => x =? serial) (devList p) 0 = Some k \/
   first_match (fun x => x =? serial) (devList p) 0 = None /\ k = 0) ->
  pactions (trace_of (selectBySerial serial p)) = [].
Proof.
  destruct p as [[rg th h f ser dec bw ref g a rate] di dl ss cd pq [dv ds]].
  cbv [devList core conf devices]. intros Hk Hv Hfm.
  assert (Hk0 : (k <? 0) = false) by (apply Z.ltb_ge; exact Hk).
  assert (Hk1 : (k =? -1) = false) by (apply Z.eqb_neq; lia).
  unfold SignalHoundPanel.selectBySerial.
  cbv [bind get modify ret state_of outcome_of trace_of fst snd app
       set_devId devList core conf devId selectedSerStr configDirty purgeIQ].
  destruct Hfm as [->|[-> ->]].
  - cbv [bind get modify ret when return_ index fst snd app set_devId devList
         core conf devId selectedSerStr configDirty purgeIQ].
    rewrite Hk1, Hk0, Hv.
    srun.
    destruct (ds (Some v)) as [[e1 e2 e3 e4 e5]|]; cbv beta iota;
      [|reflexivity].
    destruct e1, e2, e3 as [x|], e4, e5; cbv beta iota;
      try destruct (Float.f64_lt (Float.f64_of_f32 x) (Float.f64_of_Z 1000));
      cbv beta iota; reflexivity.
  - destruct dl as [|v0 dl]; [discriminate|]. simpl in Hv. injection Hv as ->.
    change (-1 =? -1) with true.
    srun. cbv [index nth_error Z.to_nat Z.ltb Z.compare]. srun.
    destruct (ds (Some v)) as [[e1 e2 e3 e4 e5]|]; cbv beta iota;
      [|reflexivity].
    destruct e1, e2, e3 as [x|], e4, e5; cbv beta iota;
      try destruct (Float.f64_lt (Float.f64_of_f32 x) (Float.f64_of_Z 1000));
      cbv beta iota; reflexivity.
Qed.

(** With no device listed [selectBySerial] returns at once. *)
Lemma select_none (serial : Z) (p : panel) :
  devList p = [] ->
  selectBySerial serial p = ([], set_devId (-1) p, Returned).
Proof.
  destruct p as [c di dl ss cd pq cf]. cbv [devList]. intros ->.
  reflexivity.
Qed.

(** [selectBySerial] keeps to defined behaviour and to the device list. *)
Lemma select_cases (serial : Z) (p : panel) :
  match devList p with
  | [] => True
  | v0 :: _ =>
      exists k v,
        0 <= k /\ nth_error (devList p) (Z.to_nat k) = Some v /\
        v = (if existsb (fun x => x =? serial) (devList p) then serial else v0) /\
        (first_match (fun x => x =? serial) (devList p) 0 = Some k \/
         first_match (fun x => x =? serial) (devList p) 0 = None /\ k = 0)
  end.
Proof.
  destruct (devList p) as [|v0 dl] eqn:E; [exact I|].
  pose proof (find_serial serial (v0 :: dl)) as H.
  destruct (first_match _ (v0 :: dl) 0) as [k|] eqn:Hfm.
  - destruct H as (Hk & Hn & _). exists k, serial.
    split; [exact Hk|split; [exact Hn|split; [|left; reflexivity]]].
    assert (Hex : existsb (fun x => x =? serial) (v0 :: dl) = true).
    { apply existsb_exists. exists serial.
      split; [eapply nth_error_In; exact Hn|apply Z.eqb_refl]. }
    rewrite Hex. reflexivity.
  - exists 0, v0.
    split; [lia|split; [reflexivity|split; [|right; split; reflexivity]]].
    assert (Hex : existsb (fun x => x =? serial) (v0 :: dl) = false).
    { destruct (existsb _ (v0 :: dl)) eqn:Hex; [|reflexivity].
      apply existsb_exists in Hex. destruct Hex as (x & Hin & Hx).
      apply Z.eqb_eq in Hx. subst x. contradiction. }
    rewrite Hex. reflexivity.
Qed.

(** [refresh]: the list the vendor gave, or none. *)
Lemma refresh_run (l : listing) (p : panel) :
  SignalHoundPanel.refresh bbNoError l p =
    ([BbGetSerialNumberList],
     set_devList (if (list_status l =? bbNoError)
                     && (0 <? Z.of_nat (List.length (serials l)))
                  then serials l else []) p,
     Value tt).
Proof.
  destruct p as [c di dl ss cd pq cf].
  unfold SignalHoundPanel.refresh.
  cbv [bind modify call when ret fst snd app set_devList core devId devList
       selectedSerStr configDirty purgeIQ conf].
  destruct ((list_status l =? bbNoError)
            && (0 <? Z.of_nat (List.length (serials l)))); reflexivity.
Qed.

Lemma select_defined (serial : Z) (p : panel) :
  outcome_of (selectBySerial serial p) <> Undefined.
Proof.
  destruct (devList p) as [|v0 dl] eqn:E.
  - rewrite (select_none serial p E). discriminate.
  - pose proof (select_cases serial p) as Hc.
    rewrite E in Hc. destruct Hc as (k & v & Hk & Hn & _ & Hfm).
    rewrite <- E in Hn, Hfm.
    pose proof (select_settled serial p k v Hk Hn Hfm) as Hs.
    cbv zeta in Hs.
    destruct Hs as (_ & _ & _ & _ & _ & _ & _ & _ & _ & _ & _ & _ & Ho & _ & _).
    rewrite Ho. discriminate.
Qed.

(** The constructor: the listing, the selection of the stored device,
    the registration. *)
Lemma constructor_run (l : listing) (stored : config) :
  let p1 :=
    set_devList (if (list_status l =? bbNoError)
                    && (0 <? Z.of_nat (List.length (serials l)))
                 then serials l else [])
      (SignalHoundPanel.initial BB_AUTO_GAIN BB_AUTO_ATTEN stored) in
  let wanted := match device stored with Some v => v | None => 0 end in
  SignalHoundPanel.constructor bbNoError BB_AUTO_GAIN BB_AUTO_ATTEN l stored =
    (BbGetSerialNumberList :: trace_of (selectBySerial wanted p1)
       ++ [RegisterSource],
     state_of (selectBySerial wanted p1), Value tt).
Proof.
  intros p1 wanted.
  pose proof (select_defined wanted p1) as Hd.
  unfold SignalHoundPanel.constructor. unfold bind at 1.
  rewrite refresh_run. fold p1.
  assert (Hw : match device (conf p1) with Some v => v | None => 0 end = wanted)
    by reflexivity.
  unfold bind at 1. unfold get at 1. cbv zeta. rewrite Hw.
  unfold bind, invoke, call, trace_of, state_of, outcome_of in *.
  destruct (selectBySerial wanted p1) as [[t p2] [[]| |]]; simpl in *;
    try congruence; rewrite ?app_nil_r; reflexivity.
Qed.

(** The entry the end of [menuHandler] writes for the instance [c]. *)
Local Abbreviation entry_of c :=
  {| c_decimationId := Some (decimationId c); c_refLevel := Some (refLevel c);
     c_bandwidth := Some (bandwidthHz c); c_gain := Some (gain c);
     c_attenuation := Some (attenuation c) |}.

(** [menuHandler] on a stopped instance when some setting changed: no
    call is made, and the settings it leaves are those it stores. *)
Lemma menu_stopped_saves (fr : frame) (p : panel) :
  running (core p) = false ->
  device_combo fr = None -> refresh_button fr = None ->
  0 <= decimationId (core p) < 14 ->
  (forall id d, decimation_combo fr = Some (id, d) -> 0 <= id < 14) ->
  combo_ids (core p) -> combo_choices fr ->
  configDirty p = true \/ decimation_combo fr <> None \/
  bandwidth_slider fr <> None \/ gain_combo fr <> None \/
  attenuation_combo fr <> None \/ refLevel_slider fr <> None ->
  let r := SignalHoundPanel.menuHandler bbNoError BB_AUTO_GAIN BB_AUTO_ATTEN fr p in
  let q := state_of r in
  trace_of r = [] /\ outcome_of r = Value tt /\
  selectedSerial (core q) = selectedSerial (core p) /\
  selectedSerStr q = selectedSerStr p /\
  device (conf q) = Some (selectedSerial (core q)) /\
  devices (conf q) =
    store (selectedSerStr p) (entry_of (core q)) (devices (conf p)).
Proof.
  destruct p as [[rg th h f ser dec bw ref g a rate] di dl ss cd pq [dv ds]].
  destruct fr as [fd fb fdec fbw fg fa fref fp].
  cbv [core running decimationId device_combo refresh_button decimation_combo
       bandwidth_slider gain_combo attenuation_combo refLevel_slider
       configDirty combo_ids combo_choices gain attenuation].
  intros -> -> -> Hdec Hid (Hg & Ha) (Hfg & Hfa) Hch.
  destruct (maxBandwidths_lookup dec Hdec) as [M HM].
  assert (Hfg' : match fg with Some (id, _) => is_int (id - 1) = true
                 | None => True end)
    by (destruct fg as [[? ?]|]; [eapply Hfg; reflexivity|exact I]).
  assert (Hfa' : match fa with Some (id, _) => is_int (id - 1) = true
                 | None => True end)
    by (destruct fa as [[? ?]|]; [eapply Hfa; reflexivity|exact I]).
  clear Hfg Hfa.
  destruct fdec as [[id d0]|].
  - destruct (maxBandwidths_lookup id (Hid id d0 eq_refl)) as [M' HM'].
    pose proof (proj1 (Hid id d0 eq_refl)) as Hid0.
    unfold SignalHoundPanel.menuHandler. srun.
    rewrite (index_run _ id M' _ Hid0 HM'). srun.
    destruct (Float.f64_gt (Float.f64_of_f32 bw) M'); srun;
      rewrite (index_run _ id M' _ Hid0 HM'); srun;
      destruct fbw as [[? ?]|], fg as [[? ?]|], fa as [[? ?]|],
               fref as [[? ?]|], fp; cbv beta iota; ints; repeat split.
  - unfold SignalHoundPanel.menuHandler. srun.
    rewrite (index_run _ dec M _ (proj1 Hdec) HM). srun.
    destruct fbw as [[? ?]|], fg as [[? ?]|], fa as [[? ?]|],
             fref as [[? ?]|], fp, cd; cbv beta iota; ints; repeat split;
      exfalso; repeat (destruct Hch as [Hch|Hch]; try discriminate;
                       try (apply Hch; reflexivity)); apply Hch; reflexivity.
Qed.

End Vendor.

End SignalHoundPanelFacts.

(** X18 — Device selection of the SignalHound module.  [selectBySerial]
    selects the listed device with the wanted serial number, at the first
    index where the list holds it; if the list does not hold it, the
    first device of the list; and with an empty list it selects nothing:
    the index is -1 and the serial number, settings and configuration
    stay as they were.  It never reads outside the list. *)
Theorem device_selection
    (BB_AUTO_GAIN BB_AUTO_ATTEN serial : Z) (p : SignalHoundPanel.panel) :
  let r := SignalHoundPanel.selectBySerial BB_AUTO_GAIN BB_AUTO_ATTEN serial p in
  let q := state_of r in
  outcome_of r <> Undefined /\
  (In serial (SignalHoundPanel.devList p) ->
     SignalHound.selectedSerial (SignalHoundPanel.core q) = serial /\
     0 <= SignalHoundPanel.devId q /\
     nth_error (SignalHoundPanel.devList p)
       (Z.to_nat (SignalHoundPanel.devId q)) = Some serial /\
     forall j, (j < Z.to_nat (SignalHoundPanel.devId q))%nat ->
       nth_error (SignalHoundPanel.devList p) j <> Some serial) /\
  (~ In serial (SignalHoundPanel.devList p) ->
   forall v rest, SignalHoundPanel.devList p = v :: rest ->
     SignalHound.selectedSerial (SignalHoundPanel.core q) = v /\
     SignalHoundPanel.devId q = 0) /\
  (SignalHoundPanel.devList p = [] ->
     SignalHoundPanel.devId q = -1 /\
     SignalHoundPanel.core q = SignalHoundPanel.core p /\
     SignalHoundPanel.conf q = SignalHoundPanel.conf p /\
     SignalHoundPanel.selectedSerStr q = SignalHoundPanel.selectedSerStr p /\
     trace_of r = []).
Proof.
  intros r q.
  pose proof (SignalHoundPanelFacts.find_serial serial (SignalHoundPanel.devList p))
    as Hf.
  split; [|split; [|split]].
  - apply SignalHoundPanelFacts.select_defined.
  - intros Hin.
    destruct (first_match _ (SignalHoundPanel.devList p) 0) as [k|] eqn:Hfm;
      [|contradiction].
    destruct Hf as (Hk & Hn & Hb).
    pose proof (SignalHoundPanelFacts.select_settled BB_AUTO_GAIN BB_AUTO_ATTEN
                  serial p k serial Hk Hn (or_introl Hfm)) as Hs.
    cbv zeta in Hs. destruct Hs as (Hd & _ & Hsel & _).
    subst q r. rewrite Hd. auto.
  - intros Hnin v rest E.
    destruct (first_match _ (SignalHoundPanel.devList p) 0) as [k|] eqn:Hfm.
    + destruct Hf as (_ & Hn & _). apply nth_error_In in Hn. contradiction.
    + assert (Hn : nth_error (SignalHoundPanel.devList p) (Z.to_nat 0) = Some v)
        by (rewrite E; reflexivity).
      pose proof (SignalHoundPanelFacts.select_settled BB_AUTO_GAIN BB_AUTO_ATTEN
                    serial p 0 v (Z.le_refl 0) Hn
                    (or_intror (conj Hfm eq_refl))) as Hs.
      cbv zeta in Hs. destruct Hs as (Hd & _ & Hsel & _).
      subst q r. auto.
  - intros E. subst q r.
    rewrite (SignalHoundPanelFacts.select_none BB_AUTO_GAIN BB_AUTO_ATTEN serial p E).
    destruct p; repeat split.
Qed.

Lemma device_selection_witness :
  SignalHound.selectedSerial
    (SignalHoundPanel.core
       (state_of (SignalHoundPanel.selectBySerial (-1) (-1) 23456 bb_panel)))
  = 23456 /\
  SignalHoundPanel.devId
    (state_of (SignalHoundPanel.selectBySerial (-1) (-1) 23456 bb_panel)) = 1.
Proof.
  destruct (device_selection (-1) (-1) 23456 bb_panel) as (_ & H & _).
  destruct H as (Hs & _ & _ & _); [right; left; reflexivity|].
  split; [exact Hs|reflexivity].
Defined.

(** X19 — What the SignalHound constructor selects.  With a usable
    device list it selects the device stored under ["device"] if listed
    and the first listed device otherwise; a device selected for the
    first time gets the default entry (written under its serial number,
    the other entries being left as they are), the instance is left with
    the member initialisers of the class, and a second construction from
    the configuration so written leaves the same instance.  With no usable
    list (the listing failed or is empty) nothing is selected, the
    configuration is not touched, and [start] does nothing at all. *)
Theorem constructor_selects
    (bbNoError BB_AUTO_GAIN BB_AUTO_ATTEN : Z)
    (l : SignalHoundPanel.listing) (stored : SignalHoundPanel.config)
    (d : SignalHound.answers) :
  let construct := SignalHoundPanel.constructor bbNoError BB_AUTO_GAIN BB_AUTO_ATTEN in
  let q := state_of (construct l stored) in
  let wanted :=
    match SignalHoundPanel.device stored with Some v => v | None => 0 end in
  outcome_of (construct l stored) = Value tt /\
  (forall v0 rest,
     SignalHoundPanel.list_status l = bbNoError ->
     SignalHoundPanel.serials l = v0 :: rest ->
     let sel :=
       if existsb (fun x => x =? wanted) (SignalHoundPanel.serials l)
       then wanted else v0 in
     SignalHound.selectedSerial (SignalHoundPanel.core q) = sel /\
     (SignalHoundPanel.devices stored (Some sel) = None ->
        SignalHoundPanel.devices (SignalHoundPanel.conf q) =
          SignalHoundPanel.store (Some sel)
            (SignalHoundPanel.default_entry BB_AUTO_GAIN BB_AUTO_ATTEN)
            (SignalHoundPanel.devices stored) /\
        SignalHoundPanel.devices (SignalHoundPanel.conf q) (Some sel) =
          Some (SignalHoundPanel.default_entry BB_AUTO_GAIN BB_AUTO_ATTEN) /\
        SignalHoundPanel.core q =
          SignalHound.constructed sel BB_AUTO_GAIN BB_AUTO_ATTEN /\
        SignalHoundPanel.core
          (state_of (construct l (SignalHoundPanel.conf q))) =
          SignalHoundPanel.core q)) /\
  (SignalHoundPanel.list_status l <> bbNoError \/
   SignalHoundPanel.serials l = [] ->
     SignalHoundPanel.core q =
       SignalHound.constructed 0 BB_AUTO_GAIN BB_AUTO_ATTEN /\
     SignalHoundPanel.conf q = stored /\
     SignalHound.start d (SignalHoundPanel.core q) =
       ([], SignalHoundPanel.core q, Returned)).
Proof.
  intros construct q wanted.
  pose proof (SignalHoundPanelFacts.constructor_run bbNoError BB_AUTO_GAIN
                BB_AUTO_ATTEN l stored) as Hc.
  cbv zeta in Hc. fold wanted in Hc.
  split; [unfold construct; rewrite Hc; reflexivity|split].
  - intros v0 rest Hst Hl sel.
    assert (Hu : (SignalHoundPanel.list_status l =? bbNoError)
                 && (0 <? Z.of_nat (List.length (SignalHoundPanel.serials l)))
                 = true).
    { rewrite Hst, Z.eqb_refl, Hl. reflexivity. }
    rewrite Hu in Hc.
    set (p1 := SignalHoundPanel.set_devList (SignalHoundPanel.serials l)
                 (SignalHoundPanel.initial BB_AUTO_GAIN BB_AUTO_ATTEN stored))
      in Hc.
    pose proof (SignalHoundPanelFacts.select_cases wanted p1) as Hk.
    change (SignalHoundPanel.devList p1) with (SignalHoundPanel.serials l) in Hk.
    rewrite Hl in Hk. destruct Hk as (k & v & Hk & Hn & Hv & Hfm).
    rewrite <- Hl in Hn, Hv, Hfm. fold sel in Hv. subst v.
    pose proof (SignalHoundPanelFacts.select_settled BB_AUTO_GAIN BB_AUTO_ATTEN
                  wanted p1 k sel Hk Hn Hfm) as Hs.
    cbv zeta in Hs.
    assert (Hq : q = state_of (SignalHoundPanel.selectBySerial BB_AUTO_GAIN
                                 BB_AUTO_ATTEN wanted p1)).
    { unfold q, construct. rewrite Hc. reflexivity. }
    rewrite <- Hq in Hs.
    destruct Hs as (_ & _ & Hsel & _ & _ & _ & Hdev & _ & _ & _ & _ & _ & _ & _ & He).
    split; [exact Hsel|]. intros Hnone.
    change (SignalHoundPanel.devices (SignalHoundPanel.conf p1) (Some sel))
      with (SignalHoundPanel.devices stored (Some sel)) in He.
    rewrite Hnone in He. destruct He as (Hds & Hcore & _).
    split; [exact Hds|].
    split; [rewrite Hds; unfold SignalHoundPanel.store;
            change (SignalHoundPanel.key_eqb (Some sel) (Some sel))
              with (sel =? sel);
            rewrite Z.eqb_refl; reflexivity|].
    split; [rewrite Hcore; reflexivity|].
    (* the second construction *)
    pose proof (SignalHoundPanelFacts.constructor_run bbNoError BB_AUTO_GAIN
                  BB_AUTO_ATTEN l (SignalHoundPanel.conf q)) as Hc2.
    cbv zeta in Hc2. rewrite Hu in Hc2.
    change (SignalHoundPanel.device (SignalHoundPanel.conf p1))
      with (SignalHoundPanel.device stored) in Hdev.
    rewrite Hdev in Hc2. fold wanted in Hc2.
    set (p2 := SignalHoundPanel.set_devList (SignalHoundPanel.serials l)
                 (SignalHoundPanel.initial BB_AUTO_GAIN BB_AUTO_ATTEN
                    (SignalHoundPanel.conf q))) in Hc2.
    pose proof (SignalHoundPanelFacts.select_settled BB_AUTO_GAIN BB_AUTO_ATTEN
                  wanted p2 k sel Hk Hn Hfm) as Hs2.
    cbv zeta in Hs2.
    unfold construct. rewrite Hc2.
    change (state_of (?a, ?b, ?c)) with b.
    destruct Hs2 as (_ & _ & Hsel2 & _ & _ & _ & _ & Hr2 & Ht2 & Hh2 & Hf2
                     & Ha2 & _ & _ & He2).
    change (SignalHoundPanel.devices (SignalHoundPanel.conf p2) (Some sel))
      with (SignalHoundPanel.devices (SignalHoundPanel.conf q) (Some sel)) in He2.
    rewrite Hds in He2. unfold SignalHoundPanel.store in He2.
    assert (Hkk : SignalHoundPanel.key_eqb (Some sel) (Some sel) = true)
      by apply Z.eqb_refl.
    rewrite Hkk in He2.
    destruct He2 as (_ & Hdec & Href & Hbw & Hg & Hatt).
    rewrite Hcore.
    destruct (SignalHoundPanel.core
                (state_of (SignalHoundPanel.selectBySerial BB_AUTO_GAIN
                             BB_AUTO_ATTEN wanted p2)))
      as [rg th h f ser dec bw ref g a rate].
    cbv [SignalHound.running SignalHound.rxThread SignalHound.deviceHandle
         SignalHound.freq SignalHound.selectedSerial SignalHound.decimationId
         SignalHound.bandwidthHz SignalHound.refLevel SignalHound.gain
         SignalHound.attenuation SignalHound.actualSampleRate] in *.
    subst. vm_compute. reflexivity.
  - intros Hbad.
    assert (Hu : (SignalHoundPanel.list_status l =? bbNoError)
                 && (0 <? Z.of_nat (List.length (SignalHoundPanel.serials l)))
                 = false).
    { destruct Hbad as [Hne| ->]; [|apply andb_false_r].
      apply Z.eqb_neq in Hne. rewrite Hne. reflexivity. }
    rewrite Hu in Hc.
    rewrite SignalHoundPanelFacts.select_none in Hc by reflexivity.
    assert (Hq : q = SignalHoundPanel.set_devId (-1)
                       (SignalHoundPanel.set_devList []
                          (SignalHoundPanel.initial BB_AUTO_GAIN BB_AUTO_ATTEN
                             stored))).
    { unfold q, construct. rewrite Hc. reflexivity. }
    rewrite Hq.
    split; [reflexivity|split; [reflexivity|]].
    apply SignalHoundFacts.start_noop. right. reflexivity.
Qed.

Lemma constructor_selects_witness :
  SignalHound.selectedSerial
    (SignalHoundPanel.core
       (state_of (SignalHoundPanel.constructor 0 (-1) (-1) bb_listing
                    (SignalHoundPanel.conf bb_panel)))) = 12345.
Proof.
  destruct (constructor_selects 0 (-1) (-1) bb_listing
              (SignalHoundPanel.conf bb_panel) bb_accepts) as (_ & H & _).
  exact (proj1 (H 12345 [23456] eq_refl eq_refl)).
Defined.

(** X20 — Settings round trip of the SignalHound module.  When the menu
    of a stopped instance changes a setting (decimation, bandwidth, gain,
    attenuation or reference level), the handler makes no call and stores
    the settings under the selected device; an instance constructed later
    from that configuration, the device still being listed, selects the
    same device and takes the same decimation, reference level, gain and
    attenuation.  The bandwidth comes back too unless it is below 1 kHz,
    in which case the new instance takes 500 kHz instead.  The gain and
    attenuation held and chosen are such that the [int] arithmetic of
    their combos ([gain + 1], [attenuation + 1], and the value chosen
    minus one) does not overflow. *)
Theorem settings_round_trip
    (bbNoError BB_AUTO_GAIN BB_AUTO_ATTEN : Z)
    (fr : SignalHoundPanel.frame) (p : SignalHoundPanel.panel)
    (l : SignalHoundPanel.listing) :
  SignalHound.running (SignalHoundPanel.core p) = false ->
  SignalHoundPanel.device_combo fr = None ->
  SignalHoundPanel.refresh_button fr = None ->
  0 <= SignalHound.decimationId (SignalHoundPanel.core p) < 14 ->
  (forall id d, SignalHoundPanel.decimation_combo fr = Some (id, d) ->
     0 <= id < 14) ->
  SignalHoundPanel.combo_ids (SignalHoundPanel.core p) ->
  SignalHoundPanel.combo_choices fr ->
  SignalHoundPanel.configDirty p = true \/
  SignalHoundPanel.decimation_combo fr <> None \/
  SignalHoundPanel.bandwidth_slider fr <> None \/
  SignalHoundPanel.gain_combo fr <> None \/
  SignalHoundPanel.attenuation_combo fr <> None \/
  SignalHoundPanel.refLevel_slider fr <> None ->
  SignalHoundPanel.selectedSerStr p =
    Some (SignalHound.selectedSerial (SignalHoundPanel.core p)) ->
  SignalHoundPanel.list_status l = bbNoError ->
  In (SignalHound.selectedSerial (SignalHoundPanel.core p))
     (SignalHoundPanel.serials l) ->
  let r := SignalHoundPanel.menuHandler bbNoError BB_AUTO_GAIN BB_AUTO_ATTEN fr p in
  let q := SignalHoundPanel.core (state_of r) in
  let n :=
    SignalHoundPanel.core
      (state_of (SignalHoundPanel.constructor bbNoError BB_AUTO_GAIN
                   BB_AUTO_ATTEN l (SignalHoundPanel.conf (state_of r)))) in
  trace_of r = [] /\
  SignalHound.selectedSerial n = SignalHound.selectedSerial q /\
  SignalHound.decimationId n = SignalHound.decimationId q /\
  SignalHound.refLevel n = SignalHound.refLevel q /\
  SignalHound.gain n = SignalHound.gain q /\
  SignalHound.attenuation n = SignalHound.attenuation q /\
  SignalHound.bandwidthHz n =
    (if f64_lt (f64_of_f32 (SignalHound.bandwidthHz q)) (f64_of_Z 1000)
     then f32_of_f64 (f64_of_Z 500000) else SignalHound.bandwidthHz q).
Proof.
  intros Hrun Hfd Hfb Hdec Hid Hci Hcc Hch Hss Hst Hin r q n.
  pose proof (SignalHoundPanelFacts.menu_stopped_saves bbNoError BB_AUTO_GAIN
                BB_AUTO_ATTEN fr p Hrun Hfd Hfb Hdec Hid Hci Hcc Hch) as Hm.
  cbv zeta in Hm. fold r in Hm.
  destruct Hm as (Ht & _ & Hser & _ & Hdev & Hds).
  split; [exact Ht|].
  pose proof (SignalHoundPanelFacts.constructor_run bbNoError BB_AUTO_GAIN
                BB_AUTO_ATTEN l (SignalHoundPanel.conf (state_of r))) as Hc.
  cbv zeta in Hc. rewrite Hdev in Hc. fold q in Hc.
  assert (Hu : (SignalHoundPanel.list_status l =? bbNoError)
               && (0 <? Z.of_nat (List.length (SignalHoundPanel.serials l)))
               = true).
  { rewrite Hst, Z.eqb_refl.
    destruct (SignalHoundPanel.serials l); [contradiction|reflexivity]. }
  rewrite Hu in Hc.
  set (p1 := SignalHoundPanel.set_devList (SignalHoundPanel.serials l)
               (SignalHoundPanel.initial BB_AUTO_GAIN BB_AUTO_ATTEN
                  (SignalHoundPanel.conf (state_of r)))) in Hc.
  fold q in Hser. rewrite <- Hser in Hin.
  pose proof (SignalHoundPanelFacts.find_serial (SignalHound.selectedSerial q)
                (SignalHoundPanel.serials l)) as Hf.
  destruct (first_match _ (SignalHoundPanel.serials l) 0) as [k|] eqn:Hfm;
    [|contradiction].
  destruct Hf as (Hk & Hn & _).
  pose proof (SignalHoundPanelFacts.select_settled BB_AUTO_GAIN BB_AUTO_ATTEN
                (SignalHound.selectedSerial q) p1 k
                (SignalHound.selectedSerial q) Hk Hn (or_introl Hfm)) as Hs.
  cbv zeta in Hs.
  assert (Hn' : n = SignalHoundPanel.core
                      (state_of (SignalHoundPanel.selectBySerial BB_AUTO_GAIN
                                   BB_AUTO_ATTEN (SignalHound.selectedSerial q) p1))).
  { unfold n. rewrite Hc. reflexivity. }
  rewrite <- Hn' in Hs.
  destruct Hs as (_ & _ & Hsel & _ & _ & _ & _ & _ & _ & _ & _ & _ & _ & _ & He).
  change (SignalHoundPanel.devices (SignalHoundPanel.conf p1))
    with (SignalHoundPanel.devices (SignalHoundPanel.conf (state_of r))) in He.
  rewrite <- Hser in Hss. rewrite Hds, Hss in He.
  unfold SignalHoundPanel.store in He.
  assert (Hkk : SignalHoundPanel.key_eqb (Some (SignalHound.selectedSerial q))
                  (Some (SignalHound.selectedSerial q)) = true)
    by apply Z.eqb_refl.
  rewrite Hkk in He. cbv beta iota delta
    [SignalHoundPanel.c_decimationId SignalHoundPanel.c_refLevel
     SignalHoundPanel.c_bandwidth SignalHoundPanel.c_gain
     SignalHoundPanel.c_attenuation] in He.
  destruct He as (_ & Hd1 & Hd2 & Hd3 & Hd4 & Hd5).
  repeat split; assumption.
Qed.

Lemma settings_round_trip_witness :
  SignalHound.bandwidthHz
    (SignalHoundPanel.core
       (state_of
          (SignalHoundPanel.constructor 0 (-1) (-1) bb_listing
             (SignalHoundPanel.conf
                (state_of (SignalHoundPanel.menuHandler 0 (-1) (-1)
                             bb_narrow bb_panel))))))
  = f32_of_f64 (f64_of_Z 500000).
Proof.
  destruct (settings_round_trip 0 (-1) (-1) bb_narrow bb_panel bb_listing)
    as (_ & _ & _ & _ & _ & _ & H).
  - reflexivity.
  - reflexivity.
  - reflexivity.
  - split; [discriminate|reflexivity].
  - intros id d H. discriminate H.
  - split; reflexivity.
  - split; intros id d H; discriminate H.
  - right; right; left. discriminate.
  - reflexivity.
  - reflexivity.
  - left; reflexivity.
  - exact H.
Defined.

(** X21 — A new decimation chosen in the menu of a stopped SignalHound
    instance is stored in [decimationId] and lowers a bandwidth above the
    limit of that decimation to the limit, exactly; a bandwidth not above
    the limit is kept.  Afterwards the bandwidth is never above the limit
    of the decimation, and the handler made no call.  The gain and
    attenuation held are below [INT_MAX], so that [gain + 1] and
    [attenuation + 1], computed in every call, do not overflow. *)
Theorem decimation_change_clamps
    (bbNoError BB_AUTO_GAIN BB_AUTO_ATTEN : Z)
    (p : SignalHoundPanel.panel) (id : Z) (d : SignalHound.answers)
    (M : double) :
  SignalHound.running (SignalHoundPanel.core p) = false ->
  SignalHoundPanel.combo_ids (SignalHoundPanel.core p) ->
  0 <= id ->
  nth_error SignalHound.maxBandwidths (Z.to_nat id) = Some M ->
  let fr :=
    {| SignalHoundPanel.device_combo := None;
       SignalHoundPanel.refresh_button := None;
       SignalHoundPanel.decimation_combo := Some (id, d);
       SignalHoundPanel.bandwidth_slider := None;
       SignalHoundPanel.gain_combo := None;
       SignalHoundPanel.attenuation_combo := None;
       SignalHoundPanel.refLevel_slider := None;
       SignalHoundPanel.purge_checkbox := None |} in
  let r := SignalHoundPanel.menuHandler bbNoError BB_AUTO_GAIN BB_AUTO_ATTEN fr p in
  let bw := SignalHound.bandwidthHz (SignalHoundPanel.core p) in
  let q := SignalHoundPanel.core (state_of r) in
  trace_of r = [] /\ outcome_of r = Value tt /\
  SignalHound.decimationId q = id /\
  SignalHound.bandwidthHz q =
    (if f64_gt (f64_of_f32 bw) M then f32_of_f64 M else bw) /\
  f64_gt (f64_of_f32 (SignalHound.bandwidthHz q)) M = false /\
  (f64_gt (f64_of_f32 bw) M = true ->
   f64_of_f32 (SignalHound.bandwidthHz q) = M).
Proof.
  intros Hrun (Hg & Ha) Hid HM fr r bw q.
  destruct (SignalHoundFacts.maxBandwidths_exact M (nth_error_In _ _ HM))
    as (_ & Hex).
  subst q r fr bw.
  destruct p as [[rg th h f ser dec bw ref g a rate] di dl ss cd pq [dv ds]].
  cbv [SignalHoundPanel.core SignalHound.running SignalHound.bandwidthHz
       SignalHound.gain SignalHound.attenuation] in *.
  subst rg.
  unfold SignalHoundPanel.menuHandler. SignalHoundPanelFacts.srun.
  rewrite (index_run _ id M _ Hid HM).
  SignalHoundPanelFacts.srun.
  destruct (f64_gt (f64_of_f32 bw) M) eqn:Hgt; SignalHoundPanelFacts.srun;
    rewrite (index_run _ id M _ Hid HM);
    SignalHoundPanelFacts.srun; SignalHoundPanelFacts.ints; rewrite ?Hex;
    repeat split; try assumption; try discriminate.
  unfold f64_gt. clear.
  destruct M as [[]|[]| |[] m e]; try reflexivity;
    cbv [SFltb SFcompare]; rewrite Z.compare_refl, ?Pos.compare_cont_refl,
      ?Pos.compare_refl; reflexivity.
Qed.

Lemma decimation_change_clamps_witness :
  SignalHound.bandwidthHz
    (SignalHoundPanel.core
       (state_of
          (SignalHoundPanel.menuHandler 0 (-1) (-1)
             {| SignalHoundPanel.device_combo := None;
                SignalHoundPanel.refresh_button := None;
                SignalHoundPanel.decimation_combo := Some (8, bb_accepts);
                SignalHoundPanel.bandwidth_slider := None;
                SignalHoundPanel.gain_combo := None;
                SignalHoundPanel.attenuation_combo := None;
                SignalHoundPanel.refLevel_slider := None;
                SignalHoundPanel.purge_checkbox := None |} bb_panel)))
  = f32_of_f64 (f64_of_Z 140000).
Proof.
  destruct (decimation_change_clamps 0 (-1) (-1) bb_panel 8 bb_accepts
              (f64_of_Z 140000)) as (_ & _ & _ & H & _).
  - reflexivity.
  - split; reflexivity.
  - discriminate.
  - reflexivity.
  - exact H.
Defined.

Module SignalHoundLiveFacts.
Import SignalHound SignalHoundFacts SignalHoundSession SignalHoundPanel
       SignalHoundPanelFacts.

(** A restart passes the settings of the instance to the device and
    leaves them as they are. *)
Lemma restart_configures (d : answers) (reason : string) (s : instance) (M : double) :
  running s = true -> rxThread s = true -> deviceHandle s <> -1 ->
  0 <= decimationId s ->
  nth_error maxBandwidths (Z.to_nat (decimationId s)) = Some M ->
  forall r, restartStreamWithNewParams d reason s = r ->
  nth_error (actions (trace_of r)) 3 =
    Some (BbConfigureRefLevel (deviceHandle s) (refLevel s)) /\
  (0 <= refLevel_status d ->
   nth_error (actions (trace_of r)) 4 =
     Some (BbConfigureGainAtten (deviceHandle s) (gain s) (attenuation s))) /\
  refLevel (state_of r) = refLevel s /\
  gain (state_of r) = gain s /\
  attenuation (state_of r) = attenuation s /\
  decimationId (state_of r) = decimationId s /\
  selectedSerial (state_of r) = selectedSerial s /\
  deviceHandle (state_of r) = deviceHandle s.
Proof.
  intros Hr Ht Hh Hd HM r E.
  destruct s as [rg th h f ser dec bw ref g a rate].
  destruct d as [os oh s1 s2 s3 s4 s5 s6 ar ab].
  cbv [running rxThread deviceHandle decimationId refLevel gain attenuation
       selectedSerial refLevel_status] in *.
  subst rg th. apply Z.eqb_neq in Hh. apply Z.ltb_ge in Hd.
  run_all E; subst r; actions_of;
    cbv [refLevel gain attenuation decimationId selectedSerial deviceHandle
         nth_error];
    repeat split; try reflexivity;
    intros Hs; apply Z.leb_le in Hs; congruence.
Qed.

Section Vendor.
Variables bbNoError BB_AUTO_GAIN BB_AUTO_ATTEN : Z.

Local Abbreviation menuHandler :=
  (SignalHoundPanel.menuHandler bbNoError BB_AUTO_GAIN BB_AUTO_ATTEN).

Local Abbreviation entry_of c :=
  {| c_decimationId := Some (decimationId c); c_refLevel := Some (refLevel c);
     c_bandwidth := Some (bandwidthHz c); c_gain := Some (gain c);
     c_attenuation := Some (attenuation c) |}.

(** [menuHandler] on a running instance when one of the three widgets
    left enabled changed: the member is assigned, the stream restarted
    for the reason [reason], and the settings stored. *)
Local Abbreviation live_change fr reason assign d p :=
  (trace_of (menuHandler fr p) =
     map Core (trace_of (restartStreamWithNewParams d reason (assign (core p)))) /\
   core (state_of (menuHandler fr p)) =
     state_of (restartStreamWithNewParams d reason (assign (core p))) /\
   outcome_of (menuHandler fr p) = Value tt /\
   configDirty (state_of (menuHandler fr p)) = false /\
   devices (conf (state_of (menuHandler fr p))) =
     store (selectedSerStr p)
       (entry_of (state_of (restartStreamWithNewParams d reason (assign (core p)))))
       (devices (conf p))).

Ltac live_run d reason assign Hh Hdec :=
  let M := fresh "M" in
  let HM := fresh "HM" in
  let Ho := fresh "Ho" in
  let Hc := fresh "Hc" in
  destruct (maxBandwidths_lookup _ Hdec) as [M HM];
  match type of Hh with
  | deviceHandle ?c <> -1 =>
      pose proof (restart_outcome d reason (assign c) M) as Ho;
      pose proof (restart_configures d reason (assign c) M) as Hc
  end;
  cbv [core running rxThread deviceHandle decimationId combo_ids] in *;
  subst;
  specialize (Ho eq_refl eq_refl Hh (proj1 Hdec) HM _ eq_refl);
  specialize (Hc eq_refl eq_refl Hh (proj1 Hdec) HM _ eq_refl);
  apply proj2 in Ho; apply proj2 in Ho; apply proj2 in Ho;
  apply proj2 in Ho; apply proj2 in Ho; apply proj2 in Ho;
  apply proj2 in Ho;
  apply proj2 in Hc; apply proj2 in Hc; apply proj2 in Hc;
  apply proj2 in Hc; apply proj1 in Hc;
  apply Z.eqb_neq in Hh;
  match goal with
  | H : _ /\ _ |- _ => destruct H as [? ?]
  end;
  cbv [gain attenuation set_gain set_attenuation set_refLevel] in *;
  unfold SignalHoundPanel.menuHandler; srun;
  rewrite (index_run _ _ M _ (proj1 Hdec) HM); srun;
  ints;
  rewrite ?Hh; srun;
  unfold outcome_of in Ho; revert Ho Hc; srun;
  match goal with
  | |- context [restartStreamWithNewParams ?d' ?reason' ?c] =>
      destruct (restartStreamWithNewParams d' reason' c) as [[t s'] o]
  end;
  cbv [snd]; intros -> Hc;
  match goal with x : instance |- _ => destruct x end;
  cbv beta iota in Hc |- *; subst;
  destruct (restart_ok _); cbv beta iota; ints; repeat split;
  match goal with |- _ = ?x => exact (app_nil_r x) end.

Lemma gain_live (p : panel) (gainComboId : Z) (d : answers) :
  running (core p) = true -> rxThread (core p) = true ->
  deviceHandle (core p) <> -1 -> 0 <= decimationId (core p) < 14 ->
  combo_ids (core p) -> is_int (gainComboId - 1) = true ->
  live_change
    {| device_combo := None; refresh_button := None; decimation_combo := None;
       bandwidth_slider := None; gain_combo := Some (gainComboId, d);
       attenuation_combo := None; refLevel_slider := None;
       purge_checkbox := None |}
    "gain change" (set_gain (gainComboId - 1)) d p.
Proof.
  intros Hr Ht Hh Hdec Hci Hid.
  destruct p as [[rg th h f ser dec bw ref g a rate] di dl ss cd pq [dv ds]].
  live_run d "gain change" (set_gain (gainComboId - 1)) Hh Hdec.
Qed.

Lemma attenuation_live (p : panel) (attenComboId : Z) (d : answers) :
  running (core p) = true -> rxThread (core p) = true ->
  deviceHandle (core p) <> -1 -> 0 <= decimationId (core p) < 14 ->
  combo_ids (core p) -> is_int (attenComboId - 1) = true ->
  live_change
    {| device_combo := None; refresh_button := None; decimation_combo := None;
       bandwidth_slider := None; gain_combo := None;
       attenuation_combo := Some (attenComboId, d); refLevel_slider := None;
       purge_checkbox := None |}
    "attenuation change" (set_attenuation (attenComboId - 1)) d p.
Proof.
  intros Hr Ht Hh Hdec Hci Hid.
  destruct p as [[rg th h f ser dec bw ref g a rate] di dl ss cd pq [dv ds]].
  live_run d "attenuation change" (set_attenuation (attenComboId - 1)) Hh Hdec.
Qed.

Lemma refLevel_live (p : panel) (v : Float.float) (d : answers) :
  running (core p) = true -> rxThread (core p) = true ->
  deviceHandle (core p) <> -1 -> 0 <= decimationId (core p) < 14 ->
  combo_ids (core p) ->
  live_change
    {| device_combo := None; refresh_button := None; decimation_combo := None;
       bandwidth_slider := None; gain_combo := None;
       attenuation_combo := None; refLevel_slider := Some (v, d);
       purge_checkbox := None |}
    "reference level change" (set_refLevel v) d p.
Proof.
  intros Hr Ht Hh Hdec Hci.
  destruct p as [[rg th h f ser dec bw ref g a rate] di dl ss cd pq [dv ds]].
  live_run d "reference level change" (set_refLevel v) Hh Hdec.
Qed.

Lemma bb_core_events_map t : core_events (map Core t) = t.
Proof.
  induction t as [|e t IH]; [reflexivity|]. simpl. rewrite IH. reflexivity.
Qed.

Lemma bb_core_events_app t1 t2 :
  core_events (t1 ++ t2) = core_events t1 ++ core_events t2.
Proof. unfold core_events. apply flat_map_app. Qed.

Lemma key_eqb_refl (k : key) : key_eqb k k = true.
Proof. destruct k; [apply Z.eqb_refl|reflexivity]. Qed.

(** What a live change comes to, for the restart it makes. *)
Lemma live_change_restarts fr reason assign d p :
  live_change fr reason assign d p ->
  running (assign (core p)) = true -> rxThread (assign (core p)) = true ->
  deviceHandle (assign (core p)) = deviceHandle (core p) ->
  decimationId (assign (core p)) = decimationId (core p) ->
  deviceHandle (core p) <> -1 -> 0 <= decimationId (core p) < 14 ->
  let r := menuHandler fr p in
  let c := assign (core p) in
  let h := deviceHandle (core p) in
  outcome_of r = Value tt /\
  running (core (state_of r)) = restart_ok d /\
  rxThread (core (state_of r)) = restart_ok d /\
  refLevel (core (state_of r)) = refLevel c /\
  gain (core (state_of r)) = gain c /\
  attenuation (core (state_of r)) = attenuation c /\
  firstn 3 (actions (core_events (trace_of r))) = [StopWriter; Join; BbAbort h] /\
  nth_error (actions (core_events (trace_of r))) 3 =
    Some (BbConfigureRefLevel h (refLevel c)) /\
  (0 <= refLevel_status d ->
   nth_error (actions (core_events (trace_of r))) 4 =
     Some (BbConfigureGainAtten h (gain c) (attenuation c))) /\
  (exists e, devices (conf (state_of r)) (selectedSerStr p) = Some e /\
     c_refLevel e = Some (refLevel c) /\ c_gain e = Some (gain c) /\
     c_attenuation e = Some (attenuation c)).
Proof.
  intros (Ht & Hc & Ho & _ & Hds) Hr Hth Hh' Hd' Hh Hdec r c h.
  destruct (maxBandwidths_lookup _ Hdec) as [M HM].
  rewrite <- Hh' in Hh. rewrite <- Hd' in Hdec, HM.
  pose proof (restart_outcome d reason _ M Hr Hth Hh (proj1 Hdec) HM _ eq_refl)
    as (Ho1 & Ho2 & Ho3 & _).
  pose proof (restart_configures d reason _ M Hr Hth Hh (proj1 Hdec) HM _ eq_refl)
    as (Hc1 & Hc2 & Hc3 & Hc4 & Hc5 & _).
  subst r c h. rewrite Ht, Hc, bb_core_events_map, Hds, <- Hh'.
  repeat split; try assumption.
  eexists. split.
  - unfold store. rewrite key_eqb_refl. reflexivity.
  - cbv [c_refLevel c_gain c_attenuation]. rewrite Hc3, Hc4, Hc5.
    repeat split.
Qed.

End Vendor.

End SignalHoundLiveFacts.

(** X22 — A gain, attenuation or reference level changed in the menu of
    a running SignalHound instance takes effect at once: the handler
    assigns the member (the gain and attenuation combos hold the value
    plus one, "Auto" being -1), stops the writer, joins the worker and
    aborts the stream, and configures the device again, passing the new
    reference level first and the new gain and attenuation next; the
    instance runs again exactly when that restart succeeds, and the new
    value is stored under the selected device whether it does or not.
    The [int] arithmetic of the two combos is taken not to overflow:
    [gain + 1] and [attenuation + 1] of the members, and the value a
    combo wrote minus one. *)
Theorem live_setting_change
    (bbNoError BB_AUTO_GAIN BB_AUTO_ATTEN : Z)
    (p : SignalHoundPanel.panel) (comboId : Z) (v : float)
    (d : SignalHound.answers) :
  SignalHound.running (SignalHoundPanel.core p) = true ->
  SignalHound.rxThread (SignalHoundPanel.core p) = true ->
  SignalHound.deviceHandle (SignalHoundPanel.core p) <> -1 ->
  0 <= SignalHound.decimationId (SignalHoundPanel.core p) < 14 ->
  SignalHoundPanel.combo_ids (SignalHoundPanel.core p) ->
  SignalHoundPanel.is_int (comboId - 1) = true ->
  let c := SignalHoundPanel.core p in
  let h := SignalHound.deviceHandle c in
  let menu := SignalHoundPanel.menuHandler bbNoError BB_AUTO_GAIN BB_AUTO_ATTEN in
  let calls fr :=
    SignalHound.actions (SignalHoundPanel.core_events (trace_of (menu fr p))) in
  let after fr := SignalHoundPanel.core (state_of (menu fr p)) in
  let stored fr :=
    SignalHoundPanel.devices (SignalHoundPanel.conf (state_of (menu fr p)))
      (SignalHoundPanel.selectedSerStr p) in
  let on_gain :=
    {| SignalHoundPanel.device_combo := None;
       SignalHoundPanel.refresh_button := None;
       SignalHoundPanel.decimation_combo := None;
       SignalHoundPanel.bandwidth_slider := None;
       SignalHoundPanel.gain_combo := Some (comboId, d);
       SignalHoundPanel.attenuation_combo := None;
       SignalHoundPanel.refLevel_slider := None;
       SignalHoundPanel.purge_checkbox := None |} in
  let on_attenuation :=
    {| SignalHoundPanel.device_combo := None;
       SignalHoundPanel.refresh_button := None;
       SignalHoundPanel.decimation_combo := None;
       SignalHoundPanel.bandwidth_slider := None;
       SignalHoundPanel.gain_combo := None;
       SignalHoundPanel.attenuation_combo := Some (comboId, d);
       SignalHoundPanel.refLevel_slider := None;
       SignalHoundPanel.purge_checkbox := None |} in
  let on_refLevel :=
    {| SignalHoundPanel.device_combo := None;
       SignalHoundPanel.refresh_button := None;
       SignalHoundPanel.decimation_combo := None;
       SignalHoundPanel.bandwidth_slider := None;
       SignalHoundPanel.gain_combo := None;
       SignalHoundPanel.attenuation_combo := None;
       SignalHoundPanel.refLevel_slider := Some (v, d);
       SignalHoundPanel.purge_checkbox := None |} in
  (forall fr, In fr [on_gain; on_attenuation; on_refLevel] ->
     outcome_of (menu fr p) = Value tt /\
     firstn 3 (calls fr) =
       [SignalHound.StopWriter; SignalHound.Join; SignalHound.BbAbort h] /\
     SignalHound.running (after fr) = SignalHound.restart_ok d /\
     SignalHound.rxThread (after fr) = SignalHound.restart_ok d) /\
  (SignalHound.gain (after on_gain) = comboId - 1 /\
   (0 <= SignalHound.refLevel_status d ->
    nth_error (calls on_gain) 4 =
      Some (SignalHound.BbConfigureGainAtten h (comboId - 1)
              (SignalHound.attenuation c))) /\
   exists e, stored on_gain = Some e /\
             SignalHoundPanel.c_gain e = Some (comboId - 1)) /\
  (SignalHound.attenuation (after on_attenuation) = comboId - 1 /\
   (0 <= SignalHound.refLevel_status d ->
    nth_error (calls on_attenuation) 4 =
      Some (SignalHound.BbConfigureGainAtten h (SignalHound.gain c)
              (comboId - 1))) /\
   exists e, stored on_attenuation = Some e /\
             SignalHoundPanel.c_attenuation e = Some (comboId - 1)) /\
  (SignalHound.refLevel (after on_refLevel) = v /\
   nth_error (calls on_refLevel) 3 =
     Some (SignalHound.BbConfigureRefLevel h v) /\
   exists e, stored on_refLevel = Some e /\
             SignalHoundPanel.c_refLevel e = Some v).
Proof.
  intros Hr Ht Hh Hdec Hci Hid c h menu calls after stored on_gain on_attenuation
    on_refLevel.
  pose proof (SignalHoundLiveFacts.live_change_restarts bbNoError BB_AUTO_GAIN
                BB_AUTO_ATTEN _ _ _ _ _
                (SignalHoundLiveFacts.gain_live bbNoError BB_AUTO_GAIN
                   BB_AUTO_ATTEN p comboId d Hr Ht Hh Hdec Hci Hid)
                Hr Ht eq_refl eq_refl Hh Hdec) as Hg.
  pose proof (SignalHoundLiveFacts.live_change_restarts bbNoError BB_AUTO_GAIN
                BB_AUTO_ATTEN _ _ _ _ _
                (SignalHoundLiveFacts.attenuation_live bbNoError BB_AUTO_GAIN
                   BB_AUTO_ATTEN p comboId d Hr Ht Hh Hdec Hci Hid)
                Hr Ht eq_refl eq_refl Hh Hdec) as Ha.
  pose proof (SignalHoundLiveFacts.live_change_restarts bbNoError BB_AUTO_GAIN
                BB_AUTO_ATTEN _ _ _ _ _
                (SignalHoundLiveFacts.refLevel_live bbNoError BB_AUTO_GAIN
                   BB_AUTO_ATTEN p v d Hr Ht Hh Hdec Hci)
                Hr Ht eq_refl eq_refl Hh Hdec) as Hv.
  cbv zeta in Hg, Ha, Hv.
  destruct Hg as (G1 & G2 & G3 & _ & G5 & _ & G7 & _ & G9 & (eg & G10 & _ & G11 & _)).
  destruct Ha as (A1 & A2 & A3 & _ & _ & A6 & A7 & _ & A9 & (ea & A10 & _ & _ & A11)).
  destruct Hv as (V1 & V2 & V3 & V4 & _ & _ & V7 & V8 & _ & (ev & V10 & V11 & _)).
  split; [|split; [|split]].
  - intros fr [<-|[<-|[<-|[]]]]; repeat split; assumption.
  - split; [exact G5|split; [exact G9|exists eg; split; assumption]].
  - split; [exact A6|split; [exact A9|exists ea; split; assumption]].
  - split; [exact V4|split; [exact V8|exists ev; split; assumption]].
Qed.

Lemma live_setting_change_witness :
  SignalHound.gain
    (SignalHoundPanel.core
       (state_of
          (SignalHoundPanel.menuHandler 0 (-1) (-1)
             {| SignalHoundPanel.device_combo := None;
                SignalHoundPanel.refresh_button := None;
                SignalHoundPanel.decimation_combo := None;
                SignalHoundPanel.bandwidth_slider := None;
                SignalHoundPanel.gain_combo := Some (3, bb_accepts);
                SignalHoundPanel.attenuation_combo := None;
                SignalHoundPanel.refLevel_slider := None;
                SignalHoundPanel.purge_checkbox := None |}
             bb_panel_running))) = 2.
Proof.
  destruct (live_setting_change 0 (-1) (-1) bb_panel_running 3 (f32_of_Z (-30))
              bb_accepts) as (_ & (H & _) & _).
  - reflexivity.
  - reflexivity.
  - discriminate.
  - split; [discriminate|reflexivity].
  - split; reflexivity.
  - reflexivity.
  - exact H.
Defined.

Module SignalHoundLifetimeFacts.
Import SignalHound SignalHoundFacts SignalHoundPanel SignalHoundPanelFacts
       SignalHoundLiveFacts.

Lemma bb_handle_all_alive rs : forall s,
  quiescent s ->
  quiescent (state_of (handle_all rs s)) /\
  alive (threads s) (trace_of (handle_all rs s)) =
    threads (state_of (handle_all rs s)).
Proof.
  induction rs as [|r rs IH]; intros s Hs; [split; [exact Hs|reflexivity]|].
  destruct (bb_handle_counter r s Hs _ eq_refl) as (Hq & _ & Ha & _).
  specialize (IH _ Hq). revert Hq Ha IH.
  unfold handle_all, state_of, trace_of; simpl.
  destruct (handle r s) as [[t s'] o]; simpl.
  destruct (sequence (map handle rs) s') as [[t' s''] o']; simpl.
  intros Hq Ha [IHq IHa].
  destruct o as [[]| |]; simpl; try (split; [exact Hq|exact Ha]);
    (split; [exact IHq|]);
    unfold alive, threads_alive in *; rewrite fold_left_app, Ha; exact IHa.
Qed.

(** [stop] leaves a quiescent instance stopped, its thread joined. *)
Lemma stop_counter (s : instance) :
  quiescent s ->
  peak (threads s) (trace_of (stop s)) <= 1 /\
  alive (threads s) (trace_of (stop s)) = 0 /\
  running (state_of (stop s)) = false /\
  rxThread (state_of (stop s)) = false /\
  outcome_of (stop s) <> Undefined.
Proof.
  intros Hq.
  destruct (bb_handle_counter Stop s Hq _ eq_refl) as ((Hq' & _) & Hp & Ha & Ho).
  simpl in *.
  assert (Hr : running (state_of (stop s)) = false).
  { destruct s as [rg th h f ser dec bw ref g a rate].
    destruct rg; [|reflexivity].
    unfold stop. cbv [bind get when return_ negb running fst snd].
    cbv [bind call modify when ret set_running rxThread deviceHandle
         state_of fst snd running app].
    destruct th, (h =? -1); reflexivity. }
  rewrite Hr in Hq'.
  repeat split; try assumption.
  rewrite Ha. unfold threads. rewrite Hq'. reflexivity.
Qed.

Section Vendor.
Variables bbNoError BB_AUTO_GAIN BB_AUTO_ATTEN : Z.

Local Abbreviation constructor :=
  (SignalHoundPanel.constructor bbNoError BB_AUTO_GAIN BB_AUTO_ATTEN).

(** The constructor leaves an instance the handlers can take over, if
    the decimation stored for the device it selects is one of the 14. *)
Lemma constructor_quiescent (l : listing) (stored : config) :
  (forall k e x, devices stored k = Some e -> c_decimationId e = Some x ->
     0 <= x < 14) ->
  quiescent (core (state_of (constructor l stored))) /\
  threads (core (state_of (constructor l stored))) = 0 /\
  actions (core_events (trace_of (constructor l stored))) = [] /\
  outcome_of (constructor l stored) = Value tt.
Proof.
  intros Hst.
  pose proof (constructor_run bbNoError BB_AUTO_GAIN BB_AUTO_ATTEN l stored) as Hc.
  cbv zeta in Hc. rewrite Hc. clear Hc.
  set (wanted := match device stored with Some v => v | None => 0 end).
  set (p1 := set_devList _ _).
  change (state_of (?a, ?b, ?c)) with b.
  change (trace_of (?a, ?b, ?c)) with a.
  change (outcome_of (?a, ?b, ?c)) with c.
  assert (Hce : forall t, core_events (BbGetSerialNumberList :: t ++ [RegisterSource])
                          = core_events t).
  { intros t. change (core_events (BbGetSerialNumberList :: t ++ [RegisterSource]))
      with (core_events (t ++ [RegisterSource])).
    rewrite bb_core_events_app. apply app_nil_r. }
  rewrite Hce.
  destruct (devList p1) as [|v0 dl] eqn:E.
  - rewrite (select_none BB_AUTO_GAIN BB_AUTO_ATTEN wanted p1 E).
    repeat split; try reflexivity; simpl; lia.
  - pose proof (select_cases wanted p1) as Hk.
    rewrite E in Hk. destruct Hk as (k & v & Hk & Hn & _ & Hfm).
    rewrite <- E in Hn, Hfm.
    pose proof (select_settled BB_AUTO_GAIN BB_AUTO_ATTEN wanted p1 k v Hk Hn Hfm)
      as Hs.
    cbv zeta in Hs.
    destruct Hs as (_ & _ & _ & _ & _ & _ & _ & Hr & Ht & _ & _ & _ & _ & Ha & He).
    change (running (core p1)) with false in Hr.
    change (rxThread (core p1)) with false in Ht.
    change (devices (conf p1)) with (devices stored) in He.
    assert (Hd : 0 <= decimationId
                        (core (state_of (selectBySerial BB_AUTO_GAIN BB_AUTO_ATTEN
                                           wanted p1))) < 14).
    { destruct (devices stored (Some v)) as [e|] eqn:Hent.
      - destruct He as (_ & Hd & _). rewrite Hd.
        destruct (c_decimationId e) as [x|] eqn:Hx.
        + exact (Hst _ _ _ Hent Hx).
        + simpl. lia.
      - destruct He as (_ & Hcore & _). rewrite Hcore. simpl. lia. }
    unfold quiescent, threads. rewrite Hr, Ht.
    repeat split; try assumption; try reflexivity; apply Hd.
Qed.

End Vendor.

End SignalHoundLifetimeFacts.

(** X23 — A whole life of a SignalHound instance: constructed from any
    device listing and any configuration whose stored decimations are
    among the 14 of the table, driven by any sequence of [start], [stop],
    [tune] and restart requests with any answers of the vendor library,
    then destroyed.  The run stays inside defined behaviour; along it
    never more than one worker thread exists, and none is left at the
    end; and the instance ends stopped. *)
Theorem bb_lifetime_is_clean
    (bbNoError BB_AUTO_GAIN BB_AUTO_ATTEN : Z)
    (l : SignalHoundPanel.listing) (stored : SignalHoundPanel.config)
    (rs : list SignalHound.request) :
  (forall k e x,
     SignalHoundPanel.devices stored k = Some e ->
     SignalHoundPanel.c_decimationId e = Some x -> 0 <= x < 14) ->
  let r := SignalHoundPanel.lifetime bbNoError BB_AUTO_GAIN BB_AUTO_ATTEN
             l stored rs in
  outcome_of r <> Undefined /\
  SignalHound.peak 0 (SignalHoundPanel.core_events (trace_of r)) <= 1 /\
  SignalHound.alive 0 (SignalHoundPanel.core_events (trace_of r)) = 0 /\
  SignalHound.running (SignalHoundPanel.core (state_of r)) = false /\
  SignalHound.rxThread (SignalHoundPanel.core (state_of r)) = false.
Proof.
  intros Hst.
  pose proof (SignalHoundLifetimeFacts.constructor_quiescent bbNoError
                BB_AUTO_GAIN BB_AUTO_ATTEN l stored Hst) as (Hq0 & Hn0 & Ht0 & _).
  unfold SignalHoundPanel.lifetime.
  destruct (SignalHoundPanel.constructor bbNoError BB_AUTO_GAIN BB_AUTO_ATTEN
              l stored) as [[t0 p0] o0].
  unfold state_of, trace_of in Hq0, Hn0, Ht0; simpl in Hq0, Hn0, Ht0.
  destruct (SignalHoundFacts.bb_handle_all_counter rs _ Hq0) as (Hp1 & Ho1).
  destruct (SignalHoundLifetimeFacts.bb_handle_all_alive rs _ Hq0) as (Hq1 & Ha1).
  rewrite Hn0 in Hp1, Ha1.
  unfold SignalHoundPanel.on_core, lift.
  unfold state_of, trace_of, outcome_of in Hp1, Ho1, Ha1, Hq1.
  destruct (SignalHound.handle_all rs (SignalHoundPanel.core p0)) as [[t1 s1] o1];
    simpl in Hp1, Ho1, Ha1, Hq1.
  destruct (SignalHoundLifetimeFacts.stop_counter s1 Hq1)
    as (Hp2 & Ha2 & Hr2 & Hth2 & Ho2).
  assert (H0 : SignalHound.peak 0 (SignalHoundPanel.core_events t0) = 0 /\
               SignalHound.alive 0 (SignalHoundPanel.core_events t0) = 0).
  { rewrite <- SignalHoundFacts.peak_actions, <- SignalHoundFacts.alive_actions,
      Ht0. split; reflexivity. }
  destruct H0 as (Hp0 & Ha0).
  assert (Hd : forall p1, SignalHoundPanel.core p1 = s1 ->
             SignalHoundPanel.core_events (trace_of (SignalHoundPanel.destructor p1))
               = trace_of (SignalHound.stop s1) /\
             SignalHoundPanel.core (state_of (SignalHoundPanel.destructor p1))
               = state_of (SignalHound.stop s1) /\
             outcome_of (SignalHoundPanel.destructor p1) <> Undefined).
  { intros p1 <-.
    unfold SignalHoundPanel.destructor, SignalHoundPanel.on_core, lift, invoke,
      bind, call, state_of, trace_of, outcome_of in *.
    destruct (SignalHound.stop (SignalHoundPanel.core p1)) as [[t s'] [[]| |]];
      simpl in *; try congruence;
      rewrite SignalHoundLiveFacts.bb_core_events_app,
        SignalHoundLiveFacts.bb_core_events_map, app_nil_r;
      repeat split; discriminate. }
  set (p1 := SignalHoundPanel.set_core s1 p0).
  destruct (Hd p1 eq_refl) as (Hd1 & Hd2 & Hd3).
  unfold state_of, trace_of, outcome_of in Hd1, Hd2, Hd3.
  destruct (SignalHoundPanel.destructor p1) as [[t2 p2] o2];
    simpl in Hd1, Hd2, Hd3.
  unfold state_of, trace_of in Hp2, Ha2, Hr2, Hth2.
  rewrite <- Hd1 in Hp2, Ha2. rewrite <- Hd2 in Hr2, Hth2.
  assert (Hce : SignalHoundPanel.core_events
                  (t0 ++ map SignalHoundPanel.Core t1 ++ t2) =
                SignalHoundPanel.core_events t0 ++ t1
                  ++ SignalHoundPanel.core_events t2).
  { rewrite !SignalHoundLiveFacts.bb_core_events_app,
            SignalHoundLiveFacts.bb_core_events_map. reflexivity. }
  destruct o1 as [[]| |]; [| |congruence];
    cbv [state_of trace_of outcome_of fst snd]; rewrite Hce;
    (split; [exact Hd3|]);
    (split;
     [ unfold SignalHound.peak, SignalHound.alive in *;
       rewrite (peak_app SignalHound.is_spawn SignalHound.is_join), Hp0, Ha0;
       rewrite (peak_app SignalHound.is_spawn SignalHound.is_join), Ha1; lia
     | split;
       [ unfold SignalHound.alive, threads_alive in *;
         rewrite fold_left_app, Ha0, fold_left_app, Ha1; exact Ha2
       | split; assumption ] ]).
Qed.

Lemma bb_lifetime_is_clean_witness :
  SignalHound.alive 0
    (SignalHoundPanel.core_events
       (trace_of (SignalHoundPanel.lifetime 0 (-1) (-1) bb_listing
                    (SignalHoundPanel.conf bb_panel) bb_requests))) = 0.
Proof.
  destruct (bb_lifetime_is_clean 0 (-1) (-1) bb_listing
              (SignalHoundPanel.conf bb_panel) bb_requests) as (_ & _ & H & _).
  - intros k e x H. discriminate H.
  - exact H.
Defined.

Module SignalHoundRangeFacts.
Import SignalHound SignalHoundFacts SignalHoundPanel SignalHoundPanelFacts.

Lemma maxBandwidths_outside (i : Z) :
  ~ 0 <= i < 14 ->
  (i <? 0) = true \/
  (i <? 0) = false /\ nth_error maxBandwidths (Z.to_nat i) = None.
Proof.
  intros H. destruct (i <? 0) eqn:E; [left; reflexivity|right].
  split; [reflexivity|]. apply Z.ltb_ge in E.
  apply nth_error_None. unfold maxBandwidths. rewrite length_map. simpl. lia.
Qed.

(** [start] with a decimation index outside the table: the device is
    opened, and the lookup that follows is outside the vector. *)
Lemma start_outside (d : answers) (s : instance) :
  running s = false -> selectedSerial s <> 0 -> 0 <= open_status d ->
  ~ 0 <= decimationId s < 14 ->
  forall r, start d s = r ->
  outcome_of r = Undefined /\
  actions (trace_of r) = [BbOpenDeviceBySerialNumber (selectedSerial s)] /\
  deviceHandle (state_of r) = opened_handle d.
Proof.
  intros Hr Hs Ho Hd r E.
  destruct (maxBandwidths_outside _ Hd) as [Hlt|[Hlt Hn]];
    destruct s as [rg th h f ser dec bw ref g a rate];
    destruct d as [os oh s1 s2 s3 s4 s5 s6 ar ab];
    cbv [running selectedSerial decimationId open_status opened_handle] in *;
    subst rg; apply Z.eqb_neq in Hs; apply Z.leb_le in Ho;
    run_all E; subst r; actions_of; repeat split; reflexivity.
Qed.

Section Vendor.
Variables bbNoError BB_AUTO_GAIN BB_AUTO_ATTEN : Z.

(** [menuHandler] looks the decimation index up whatever the widgets
    report. *)
Lemma menu_outside (p : panel) :
  ~ 0 <= decimationId (core p) < 14 ->
  outcome_of (SignalHoundPanel.menuHandler bbNoError BB_AUTO_GAIN BB_AUTO_ATTEN
                idle p) = Undefined.
Proof.
  intros Hd.
  destruct p as [[rg th h f ser dec bw ref g a rate] di dl ss cd pq [dv ds]].
  cbv [core decimationId] in Hd.
  unfold SignalHoundPanel.menuHandler. srun. unfold index.
  destruct (maxBandwidths_outside _ Hd) as [Hlt|[Hlt Hn]];
    rewrite Hlt, ?Hn; reflexivity.
Qed.

End Vendor.

End SignalHoundRangeFacts.

(** X24 — The decimation index stored for a device is taken as it is.
    If the configuration holds, for the device the constructor selects,
    a decimation index outside the 14 entries of [maxBandwidths], the
    constructor completes and the instance holds that index; a [start]
    then opens the device and reads [maxBandwidths] outside its bounds,
    with the device left open, and a call of [menuHandler] reads it
    outside its bounds too, even when no widget changed. *)
Theorem stored_decimation_unchecked
    (bbNoError BB_AUTO_GAIN BB_AUTO_ATTEN : Z)
    (l : SignalHoundPanel.listing) (stored : SignalHoundPanel.config)
    (serial x : Z) (e : SignalHoundPanel.devConf) (d : SignalHound.answers) :
  SignalHoundPanel.list_status l = bbNoError ->
  In serial (SignalHoundPanel.serials l) -> serial <> 0 ->
  SignalHoundPanel.device stored = Some serial ->
  SignalHoundPanel.devices stored (Some serial) = Some e ->
  SignalHoundPanel.c_decimationId e = Some x ->
  ~ 0 <= x < 14 ->
  0 <= SignalHound.open_status d ->
  let r := SignalHoundPanel.constructor bbNoError BB_AUTO_GAIN BB_AUTO_ATTEN
             l stored in
  let c := SignalHoundPanel.core (state_of r) in
  outcome_of r = Value tt /\
  SignalHound.decimationId c = x /\
  outcome_of (SignalHound.start d c) = Undefined /\
  SignalHound.actions (trace_of (SignalHound.start d c)) =
    [SignalHound.BbOpenDeviceBySerialNumber serial] /\
  SignalHound.deviceHandle (state_of (SignalHound.start d c)) =
    SignalHound.opened_handle d /\
  outcome_of (SignalHoundPanel.menuHandler bbNoError BB_AUTO_GAIN BB_AUTO_ATTEN
                SignalHoundPanel.idle (state_of r)) = Undefined.
Proof.
  intros Hst Hin Hne Hdev Hent Hx Hout Ho r c.
  pose proof (SignalHoundPanelFacts.constructor_run bbNoError BB_AUTO_GAIN
                BB_AUTO_ATTEN l stored) as Hc.
  cbv zeta in Hc. rewrite Hdev in Hc.
  assert (Hu : (SignalHoundPanel.list_status l =? bbNoError)
               && (0 <? Z.of_nat (List.length (SignalHoundPanel.serials l)))
               = true).
  { rewrite Hst, Z.eqb_refl.
    destruct (SignalHoundPanel.serials l); [contradiction|reflexivity]. }
  rewrite Hu in Hc.
  set (p1 := SignalHoundPanel.set_devList (SignalHoundPanel.serials l)
               (SignalHoundPanel.initial BB_AUTO_GAIN BB_AUTO_ATTEN stored))
    in Hc.
  pose proof (SignalHoundPanelFacts.find_serial serial
                (SignalHoundPanel.serials l)) as Hf.
  destruct (first_match _ (SignalHoundPanel.serials l) 0) as [k|] eqn:Hfm;
    [|contradiction].
  destruct Hf as (Hk & Hn & _).
  pose proof (SignalHoundPanelFacts.select_settled BB_AUTO_GAIN BB_AUTO_ATTEN
                serial p1 k serial Hk Hn (or_introl Hfm)) as Hs.
  cbv zeta in Hs.
  assert (Hq : state_of r = state_of (SignalHoundPanel.selectBySerial BB_AUTO_GAIN
                                        BB_AUTO_ATTEN serial p1)).
  { unfold r. rewrite Hc. reflexivity. }
  rewrite <- Hq in Hs. fold c in Hs.
  destruct Hs as (_ & _ & Hsel & _ & _ & _ & _ & Hr & _ & _ & _ & _ & _ & _ & He).
  change (SignalHoundPanel.devices (SignalHoundPanel.conf p1))
    with (SignalHoundPanel.devices stored) in He.
  rewrite Hent in He. destruct He as (_ & Hd & _). rewrite Hx in Hd.
  change (SignalHound.running (SignalHoundPanel.core p1)) with false in Hr.
  assert (Hout' : ~ 0 <= SignalHound.decimationId c < 14) by (rewrite Hd; exact Hout).
  assert (Hne' : SignalHound.selectedSerial c <> 0) by (rewrite Hsel; exact Hne).
  destruct (SignalHoundRangeFacts.start_outside d c Hr Hne' Ho Hout' _ eq_refl)
    as (S1 & S2 & S3).
  rewrite Hsel in S2.
  split; [unfold r; rewrite Hc; reflexivity|].
  split; [exact Hd|].
  split; [exact S1|split; [exact S2|split; [exact S3|]]].
  apply SignalHoundRangeFacts.menu_outside. exact Hout'.
Qed.

Lemma stored_decimation_unchecked_witness :
  outcome_of
    (SignalHound.start bb_accepts
       (SignalHoundPanel.core
          (state_of (SignalHoundPanel.constructor 0 (-1) (-1) bb_listing
                       bb_bad_config)))) = Undefined.
Proof.
  destruct (stored_decimation_unchecked 0 (-1) (-1) bb_listing bb_bad_config
              23456 14
              {| SignalHoundPanel.c_decimationId := Some 14;
                 SignalHoundPanel.c_refLevel := None;
                 SignalHoundPanel.c_bandwidth := None;
                 SignalHoundPanel.c_gain := None;
                 SignalHoundPanel.c_attenuation := None |} bb_accepts)
    as (_ & _ & H & _).
  - reflexivity.
  - right; left; reflexivity.
  - discriminate.
  - reflexivity.
  - reflexivity.
  - reflexivity.
  - intros [_ H]. discriminate H.
  - discriminate.
  - exact H.
Defined.

Module SignalHoundSwitchFacts.
Import SignalHound SignalHoundFacts SignalHoundPanel SignalHoundPanelFacts.

Ltac mrun :=
  cbv [refresh menuSelected updateRefLevel save_if_dirty menuHandler idle
       on_core modify_core lift invoke
       bind ret get modify call return_ undefined when
       trace_of state_of outcome_of negb andb orb fst snd app map
       core devId devList selectedSerStr configDirty purgeIQ conf
       set_core set_devId set_devList set_selectedSerStr set_configDirty
       set_purgeIQ set_conf device devices set_device set_devices
       device_combo refresh_button decimation_combo bandwidth_slider
       gain_combo attenuation_combo refLevel_slider purge_checkbox
       c_decimationId c_refLevel c_bandwidth c_gain c_attenuation
       running rxThread deviceHandle freq selectedSerial decimationId
       bandwidthHz refLevel gain attenuation actualSampleRate
       set_running set_rxThread set_deviceHandle set_freq set_bandwidthHz
       set_actualSampleRate set_selectedSerial set_decimationId set_refLevel
       set_gain set_attenuation].

Lemma key_eqb_eq (a b : key) : key_eqb a b = true <-> a = b.
Proof.
  destruct a as [x|], b as [y|]; simpl; split; intros H;
    try discriminate; try reflexivity.
  - apply Z.eqb_eq in H. subst. reflexivity.
  - injection H as ->. apply Z.eqb_refl.
Qed.

Section Vendor.
Variables bbNoError BB_AUTO_GAIN BB_AUTO_ATTEN : Z.

Local Abbreviation entry_of c :=
  {| c_decimationId := Some (decimationId c); c_refLevel := Some (refLevel c);
     c_bandwidth := Some (bandwidthHz c); c_gain := Some (gain c);
     c_attenuation := Some (attenuation c) |}.

(** [menuHandler] when the device combo alone changed, to an index of the
    list: what [selectBySerial] leaves is stored under the device it
    selected. *)
Lemma menu_device_combo (p : panel) (id v : Z) :
  0 <= id -> nth_error (devList p) (Z.to_nat id) = Some v ->
  let fr :=
    {| device_combo := Some id; refresh_button := None;
       decimation_combo := None; bandwidth_slider := None;
       gain_combo := None; attenuation_combo := None;
       refLevel_slider := None; purge_checkbox := None |} in
  let r := SignalHoundPanel.menuHandler bbNoError BB_AUTO_GAIN BB_AUTO_ATTEN fr p in
  let sel := SignalHoundPanel.selectBySerial BB_AUTO_GAIN BB_AUTO_ATTEN v
               (set_devId id p) in
  0 <= decimationId (core (state_of sel)) < 14 ->
  combo_ids (core (state_of sel)) ->
  outcome_of sel = Value tt ->
  trace_of r = trace_of sel /\
  core (state_of r) = core (state_of sel) /\
  outcome_of r = Value tt /\
  conf (state_of r) =
    {| device := Some (selectedSerial (core (state_of sel)));
       devices := store (selectedSerStr (state_of sel))
                    (entry_of (core (state_of sel)))
                    (devices (conf (state_of sel))) |}.
Proof.
  intros Hid Hn fr r sel. subst r fr.
  destruct p as [c di dl ss cd pq cf].
  cbv [devList] in Hn.
  unfold SignalHoundPanel.menuHandler. mrun.
  rewrite (index_run dl id v _ Hid Hn). mrun.
  change (SignalHoundPanel.selectBySerial BB_AUTO_GAIN BB_AUTO_ATTEN v
            {| core := c; devId := id; devList := dl; selectedSerStr := ss;
               configDirty := cd; purgeIQ := pq; conf := cf |}) with sel.
  destruct sel as [[t [[rg th h f ser dec bw ref g a rate] di2 dl2 ss2 cd2 pq2 cf2]] o].
  cbv [state_of outcome_of trace_of fst snd core decimationId combo_ids gain
       attenuation].
  intros Hdec (Hg & Ha) ->.
  destruct (maxBandwidths_lookup dec Hdec) as [M HM].
  mrun. rewrite (index_run _ dec M _ (proj1 Hdec) HM). mrun.
  ints. repeat split.
  change ((t ++ []) ++ [] = t). rewrite !app_nil_r. reflexivity.
Qed.

End Vendor.

End SignalHoundSwitchFacts.

(** X25 — Choosing a device in the menu of the SignalHound module.  The
    handler selects the device at the chosen index, makes no call at all
    (its whole trace holds log lines only: no vendor call, not even the
    listing of the devices), and stores its serial number under
    ["device"]; the entries of the other devices are left as they are.
    A device chosen for the first time does not keep the default entry
    written for it: the members stay as the previous device left them,
    and it is those that the handler stores under the new device.  The
    decimation index held, and the one stored for the device if any, are
    indices of [maxBandwidths], and the gain and attenuation held or
    stored for the device are below [INT_MAX], so that [gain + 1] and
    [attenuation + 1] do not overflow. *)
Theorem device_switch
    (bbNoError BB_AUTO_GAIN BB_AUTO_ATTEN : Z)
    (p : SignalHoundPanel.panel) (id v : Z) :
  0 <= id ->
  nth_error (SignalHoundPanel.devList p) (Z.to_nat id) = Some v ->
  0 <= SignalHound.decimationId (SignalHoundPanel.core p) < 14 ->
  (forall e x,
     SignalHoundPanel.devices (SignalHoundPanel.conf p) (Some v) = Some e ->
     SignalHoundPanel.c_decimationId e = Some x -> 0 <= x < 14) ->
  SignalHoundPanel.combo_ids (SignalHoundPanel.core p) ->
  (forall e x,
     SignalHoundPanel.devices (SignalHoundPanel.conf p) (Some v) = Some e ->
     SignalHoundPanel.c_gain e = Some x \/
     SignalHoundPanel.c_attenuation e = Some x ->
     SignalHoundPanel.is_int (x + 1) = true) ->
  let fr :=
    {| SignalHoundPanel.device_combo := Some id;
       SignalHoundPanel.refresh_button := None;
       SignalHoundPanel.decimation_combo := None;
       SignalHoundPanel.bandwidth_slider := None;
       SignalHoundPanel.gain_combo := None;
       SignalHoundPanel.attenuation_combo := None;
       SignalHoundPanel.refLevel_slider := None;
       SignalHoundPanel.purge_checkbox := None |} in
  let r := SignalHoundPanel.menuHandler bbNoError BB_AUTO_GAIN BB_AUTO_ATTEN fr p in
  let q := state_of r in
  let c := SignalHoundPanel.core p in
  outcome_of r = Value tt /\
  SignalHoundPanel.pactions (trace_of r) = [] /\
  SignalHound.selectedSerial (SignalHoundPanel.core q) = v /\
  SignalHoundPanel.device (SignalHoundPanel.conf q) = Some v /\
  (forall k, k <> Some v ->
     SignalHoundPanel.devices (SignalHoundPanel.conf q) k =
     SignalHoundPanel.devices (SignalHoundPanel.conf p) k) /\
  (SignalHoundPanel.devices (SignalHoundPanel.conf p) (Some v) = None ->
     SignalHoundPanel.core q = SignalHoundPanel.set_selectedSerial v c /\
     SignalHoundPanel.devices (SignalHoundPanel.conf q) (Some v) =
       Some {| SignalHoundPanel.c_decimationId := Some (SignalHound.decimationId c);
               SignalHoundPanel.c_refLevel := Some (SignalHound.refLevel c);
               SignalHoundPanel.c_bandwidth := Some (SignalHound.bandwidthHz c);
               SignalHoundPanel.c_gain := Some (SignalHound.gain c);
               SignalHoundPanel.c_attenuation := Some (SignalHound.attenuation c) |}).
Proof.
  intros Hid Hn Hdec Hst Hci Hsi fr r q c.
  set (p0 := SignalHoundPanel.set_devId id p).
  assert (Hl : SignalHoundPanel.devList p0 = SignalHoundPanel.devList p)
    by reflexivity.
  pose proof (SignalHoundPanelFacts.find_serial v (SignalHoundPanel.devList p0))
    as Hf.
  destruct (first_match _ (SignalHoundPanel.devList p0) 0) as [k|] eqn:Hfm;
    [|rewrite Hl in Hf; apply nth_error_In in Hn; contradiction].
  destruct Hf as (Hk & Hnk & _).
  pose proof (SignalHoundPanelFacts.select_settled BB_AUTO_GAIN BB_AUTO_ATTEN
                v p0 k v Hk Hnk (or_introl Hfm)) as Hs.
  pose proof (SignalHoundPanelFacts.select_quiet BB_AUTO_GAIN BB_AUTO_ATTEN
                v p0 k v Hk Hnk (or_introl Hfm)) as Ha.
  cbv zeta in Hs.
  destruct Hs as (_ & _ & Hsel & Hstr & _ & _ & Hdev & _ & _ & _ & _ & _ & Ho
                  & _ & He).
  change (SignalHoundPanel.devices (SignalHoundPanel.conf p0))
    with (SignalHoundPanel.devices (SignalHoundPanel.conf p)) in He.
  change (SignalHoundPanel.core p0) with c in He.
  assert (Hd : 0 <= SignalHound.decimationId
                      (SignalHoundPanel.core
                         (state_of (SignalHoundPanel.selectBySerial BB_AUTO_GAIN
                                      BB_AUTO_ATTEN v p0))) < 14).
  { destruct (SignalHoundPanel.devices (SignalHoundPanel.conf p) (Some v))
      as [e|] eqn:Hent.
    - destruct He as (_ & Hd & _). rewrite Hd.
      destruct (SignalHoundPanel.c_decimationId e) as [x|] eqn:Hx.
      + exact (Hst e x eq_refl Hx).
      + exact Hdec.
    - destruct He as (_ & Hcore & _). rewrite Hcore. exact Hdec. }
  assert (Hi : SignalHoundPanel.combo_ids
                 (SignalHoundPanel.core
                    (state_of (SignalHoundPanel.selectBySerial BB_AUTO_GAIN
                                 BB_AUTO_ATTEN v p0)))).
  { unfold SignalHoundPanel.combo_ids in *.
    destruct (SignalHoundPanel.devices (SignalHoundPanel.conf p) (Some v))
      as [e|] eqn:Hent.
    - destruct He as (_ & _ & _ & _ & Hg & Hat). rewrite Hg, Hat.
      split.
      + destruct (SignalHoundPanel.c_gain e) as [x|] eqn:Hx;
          [exact (Hsi e x eq_refl (or_introl Hx))|exact (proj1 Hci)].
      + destruct (SignalHoundPanel.c_attenuation e) as [x|] eqn:Hx;
          [exact (Hsi e x eq_refl (or_intror Hx))|exact (proj2 Hci)].
    - destruct He as (_ & Hcore & _). rewrite Hcore. exact Hci. }
  pose proof (SignalHoundSwitchFacts.menu_device_combo bbNoError BB_AUTO_GAIN
                BB_AUTO_ATTEN p id v Hid Hn Hd Hi Ho) as Hm.
  cbv zeta in Hm. fold p0 fr r in Hm. fold q in Hm.
  destruct Hm as (Ht & Hc & Hor & Hcf).
  rewrite Hstr, Hsel in Hcf.
  split; [exact Hor|]. split; [rewrite Ht; exact Ha|].
  split; [rewrite Hc; exact Hsel|].
  split; [rewrite Hcf; reflexivity|].
  split.
  - intros k' Hk'. rewrite Hcf. cbv [SignalHoundPanel.devices SignalHoundPanel.store].
    assert (Hne : SignalHoundPanel.key_eqb k' (Some v) = false).
    { destruct (SignalHoundPanel.key_eqb k' (Some v)) eqn:E; [|reflexivity].
      apply SignalHoundSwitchFacts.key_eqb_eq in E. contradiction. }
    rewrite Hne.
    destruct (SignalHoundPanel.devices (SignalHoundPanel.conf p) (Some v))
      as [e|] eqn:Hent.
    + destruct He as (Hconf & _). rewrite Hconf. reflexivity.
    + destruct He as (Hds & _). fold (SignalHoundPanel.devices
        (SignalHoundPanel.conf (state_of (SignalHoundPanel.selectBySerial
           BB_AUTO_GAIN BB_AUTO_ATTEN v p0)))).
      rewrite Hds. unfold SignalHoundPanel.store. rewrite Hne. reflexivity.
  - intros Hnone. rewrite Hnone in He. destruct He as (_ & Hcore & _).
    split; [rewrite Hc; exact Hcore|].
    rewrite Hcf. cbv [SignalHoundPanel.devices SignalHoundPanel.store].
    rewrite SignalHoundLiveFacts.key_eqb_refl, Hcore. reflexivity.
Qed.

Lemma device_switch_witness :
  SignalHoundPanel.devices
    (SignalHoundPanel.conf
       (state_of
          (SignalHoundPanel.menuHandler 0 (-1) (-1)
             {| SignalHoundPanel.device_combo := Some 1;
                SignalHoundPanel.refresh_button := None;
                SignalHoundPanel.decimation_combo := None;
                SignalHoundPanel.bandwidth_slider := None;
                SignalHoundPanel.gain_combo := None;
                SignalHoundPanel.attenuation_combo := None;
                SignalHoundPanel.refLevel_slider := None;
                SignalHoundPanel.purge_checkbox := None |}
             bb_panel_tuned))) (Some 23456)
  = Some {| SignalHoundPanel.c_decimationId := Some 3;
            SignalHoundPanel.c_refLevel := Some (f32_of_Z (-20));
            SignalHoundPanel.c_bandwidth := Some (f32_of_Z 500000);
            SignalHoundPanel.c_gain := Some (-1);
            SignalHoundPanel.c_attenuation := Some (-1) |}.
Proof.
  destruct (device_switch 0 (-1) (-1) bb_panel_tuned 1 23456)
    as (_ & _ & _ & _ & _ & H).
  - discriminate.
  - reflexivity.
  - split; [discriminate|reflexivity].
  - intros e x H. discriminate H.
  - split; reflexivity.
  - intros e x H. discriminate H.
  - exact (proj2 (H eq_refl)).
Defined.
